(** * Photoshoot request compiler: a shallow embedding and its properties

    The Python sources embedded here are
    - [app.py]: [determine_method], [build_config] and the validation
      performed when the generate button is clicked;
    - [gemini_client.py]: [_add_image_part], [prepare_image_parts] and the
      prompt selection at the start of [generate_image];
    - [prompt_builder.py]: the section prompt builders and
      [build_photoshoot_prompt].

    Conventions of the embedding.
    - A Python [str] is a Rocq [string]; its characters are read as code
      points below 256.
    - A value that may be [None], or a dictionary key that may be absent, is
      an [option]; Python truthiness is written out ([truthy], [truthy_b]).
    - The dictionaries of the configuration have a fixed set of keys (the
      ones [build_config] writes and the builders read), so each of them is
      a record whose fields are options: [None] is the absent key.
    - The label mapping, a [Dict[str, str]] filled key by key, is a
      [gmap string string].
    - The network fetch [url_to_base64] is a parameter returning an option:
      [None] stands for any raised exception. *)

From Stdlib Require Import ZArith Ascii String List Permutation Lia Floats.
From stdpp Require Import base option gmap strings pretty.

Import ListNotations.

(** ** Python strings *)

Module Py.

(** [str.isspace] on one character, for the code points below 256:
    U+0009..U+000D, U+001C..U+001F, U+0020, U+0085 and U+00A0. *)
Definition isspace (c : ascii) : bool :=
  let n := nat_of_ascii c in
  ((9 <=? n) && (n <=? 13)) || ((28 <=? n) && (n <=? 32))
  || (n =? 133) || (n =? 160).

Fixpoint lstrip (s : string) : string :=
  match s with
  | EmptyString => EmptyString
  | String c r => if isspace c then lstrip r else s
  end.

Fixpoint rstrip (s : string) : string :=
  match s with
  | EmptyString => EmptyString
  | String c r =>
      match rstrip r with
      | EmptyString => if isspace c then EmptyString else String c EmptyString
      | r' => String c r'
      end
  end.

(** [s.strip()] with no argument. *)
Definition strip (s : string) : string := rstrip (lstrip s).

(** [s.startswith(p)]. *)
Definition startswith (s p : string) : bool := String.prefix p s.

(** [s.replace(old, new)] for a non-empty [old]: occurrences are replaced
    from left to right and do not overlap.  [skip] counts the characters of
    an occurrence that are still to be dropped. *)
Fixpoint replace_go (old new s : string) (skip : nat) : string :=
  match s with
  | EmptyString => EmptyString
  | String c r =>
      match skip with
      | S k => replace_go old new r k
      | O =>
          if String.prefix old s
          then new +:+ replace_go old new r (String.length old - 1)
          else String c (replace_go old new r 0)
      end
  end.

(** With an empty [old], Python inserts [new] before every character and
    at the end. *)
Fixpoint intersperse (new s : string) : string :=
  match s with
  | EmptyString => new
  | String c r => new +:+ String c (intersperse new r)
  end.

Definition replace (s old new : string) : string :=
  match old with
  | EmptyString => intersperse new s
  | _ => replace_go old new s 0
  end.

(** [str.upper] on one character.  The letters a-z and the Latin-1 letters
    U+00E0..U+00FE (U+00F7 is the division sign) move down by 32 and U+00DF
    becomes SS.  Python sends U+00B5 and U+00FF to code points above 255;
    they are left as they are here. *)
Definition upper_char (c : ascii) : string :=
  let n := nat_of_ascii c in
  if ((97 <=? n) && (n <=? 122))
     || ((224 <=? n) && (n <=? 254) && negb (n =? 247))
  then String (ascii_of_nat (n - 32)) EmptyString
  else if n =? 223 then "SS"
  else String c EmptyString.

Fixpoint upper (s : string) : string :=
  match s with
  | EmptyString => EmptyString
  | String c r => upper_char c +:+ upper r
  end.

(** [str.lower] on one character: A-Z and the Latin-1 capitals
    U+00C0..U+00DE (U+00D7 is the multiplication sign) move up by 32. *)
Definition lower_char (c : ascii) : ascii :=
  let n := nat_of_ascii c in
  if ((65 <=? n) && (n <=? 90))
     || ((192 <=? n) && (n <=? 222) && negb (n =? 215))
  then ascii_of_nat (n + 32)
  else c.

Fixpoint lower (s : string) : string :=
  match s with
  | EmptyString => EmptyString
  | String c r => String (lower_char c) (lower r)
  end.

(** [sub in s] on strings. *)
Fixpoint contains (sub s : string) : bool :=
  String.prefix sub s
  || match s with
     | EmptyString => false
     | String _ r => contains sub r
     end.

(** [sep.join(l)]. *)
Definition join (sep : string) (l : list string) : string :=
  String.concat sep l.

(** [str(n)] for an integer. *)
Definition str_int (n : Z) : string := pretty n.

(** Truthiness of an optional string: [None] and the empty string are
    falsy. *)
Definition truthy (o : option string) : bool :=
  match o with
  | Some (String _ _) => true
  | _ => false
  end.

(** Truthiness of an optional boolean. *)
Definition truthy_b (o : option bool) : bool :=
  match o with
  | Some true => true
  | _ => false
  end.

(** [d.get(key, default)] on a field. *)
Definition get {A : Type} (o : option A) (dflt : A) : A :=
  match o with
  | Some v => v
  | None => dflt
  end.

End Py.

(** ** The method resolver ([app.py]) *)

(** [determine_method(text, image_url, default)]. *)
Definition determine_method (text image_url : option string)
    (default : string) : string :=
  let has_text :=
    match text with
    | Some t => Py.truthy text && Py.truthy (Some (Py.strip t))
    | None => false
    end in
  let has_image :=
    match image_url with
    | Some u => Py.truthy image_url && Py.truthy (Some (Py.strip u))
    | None => false
    end in
  if has_text && has_image then "text_and_image"
  else if has_text then "text_description"
  else if has_image then "image_reference"
  else default.

(** ** The configuration ([build_config] in [app.py])

    One module per dictionary of the configuration.  [nonempty] is the
    truthiness of the dictionary: an empty dictionary is falsy. *)

Definition is_some {A : Type} (o : option A) : bool :=
  match o with
  | Some _ => true
  | None => false
  end.

Module Meta.
Record t := mk {
  job_id : option string;
  client_id : option string;
  platform_preset : option string
}.
End Meta.

Module ModelRef.
Record t := mk {
  method : option string;
  text_description : option string;
  image_url : option string;
  face_action : option string;
  new_model_description : option string;
  ethnicity : option string;
  hair_color : option string;
  age : option string
}.
Definition empty : t := mk None None None None None None None None.
Definition nonempty (d : t) : bool :=
  is_some (method d) || is_some (text_description d)
  || is_some (image_url d) || is_some (face_action d)
  || is_some (new_model_description d) || is_some (ethnicity d)
  || is_some (hair_color d) || is_some (age d).
End ModelRef.

Module Outfit.
Record t := mk {
  method : option string;
  text_description : option string;
  image_url : option string;
  preservation_level : option string;
  garments_to_preserve : option (list string)
}.
Definition empty : t := mk None None None None None.
Definition nonempty (d : t) : bool :=
  is_some (method d) || is_some (text_description d)
  || is_some (image_url d) || is_some (preservation_level d)
  || is_some (garments_to_preserve d).
End Outfit.

Module Item.
Record t := mk {
  type : option string;
  text : option string;
  image_url : option string
}.
End Item.

Module JewelryLoc.
Record t := mk {
  enabled : option bool;
  method : option string;
  text : option string;
  image_url : option string
}.
Definition empty : t := mk None None None None.
End JewelryLoc.

Module Jewelry.
Record t := mk {
  neck : option JewelryLoc.t;
  ears : option JewelryLoc.t;
  hands_wrists : option JewelryLoc.t
}.
Definition empty : t := mk None None None.
Definition nonempty (d : t) : bool :=
  is_some (neck d) || is_some (ears d) || is_some (hands_wrists d).
End Jewelry.

Module Environment.
Record t := mk {
  category : option string;
  method : option string;
  text_description : option string;
  image_url : option string
}.
Definition empty : t := mk None None None None.
Definition nonempty (d : t) : bool :=
  is_some (category d) || is_some (method d)
  || is_some (text_description d) || is_some (image_url d).
End Environment.

Module Pose.
Record t := mk {
  method : option string;
  text : option string;
  image_url : option string;
  strength : option float
}.
Definition empty : t := mk None None None None.
End Pose.

Module Hair.
Record t := mk {
  method : option string;
  text : option string;
  image_url : option string
}.
Definition empty : t := mk None None None.
End Hair.

Module Photography.
Record t := mk {
  aesthetic : option string;
  framing : option string;
  lighting : option string;
  shadows : option string;
  pose : option Pose.t;
  hair : option Hair.t
}.
Definition empty : t := mk None None None None None None.
Definition nonempty (d : t) : bool :=
  is_some (aesthetic d) || is_some (framing d) || is_some (lighting d)
  || is_some (shadows d) || is_some (pose d) || is_some (hair d).
End Photography.

Module Output.
Record t := mk {
  count : option Z;
  batch_variety : option string
}.
Definition empty : t := mk None None.
End Output.

Module Config.
Record t := mk {
  meta : option Meta.t;
  model_reference : option ModelRef.t;
  base_outfit : option Outfit.t;
  additional_items : option (list Item.t);
  jewelry : option Jewelry.t;
  environment : option Environment.t;
  photography : option Photography.t;
  output : option Output.t
}.
End Config.

(** ** The image part assembler ([gemini_client.py]) *)

(** A part of the request: [{"text": s}] or
    [{"inlineData": {"mimeType": m, "data": d}}]. *)
Inductive Part :=
| text (s : string)
| inlineData (mimeType data : string).

Definition is_inline (p : Part) : bool :=
  match p with
  | inlineData _ _ => true
  | text _ => false
  end.

(** [enumerate(l)]. *)
Definition enumerate {A : Type} (l : list A) : list (nat * A) :=
  combine (seq 0 (length l)) l.

(** The running state of [prepare_image_parts]: the list [parts] and the
    dictionary [image_mapping], both extended in place by the source. *)
Definition Assembly : Type := list Part * gmap string string.

Section Assembler.

(** [url_to_base64(image_url)] of [image_utils.py]; [None] when it
    raises. *)
Variable url_to_base64 : string -> option string.

(** [_add_image_part(parts, image_url)]: the exception of a failed fetch
    is caught and only reported. *)
Definition _add_image_part (parts : list Part) (image_url : string)
    : list Part :=
  if Py.truthy (Some image_url) then
    match url_to_base64 image_url with
    | Some base64_data => parts ++ [inlineData "image/jpeg" base64_data]
    | None => parts
    end
  else parts.

(** The body shared by every section of [prepare_image_parts]: append the
    instruction, try to append the image, register the label. *)
Definition add_section (label description instruction : string)
    (image_url : option string) (st : Assembly) : Assembly :=
  let '(parts, image_mapping) := st in
  let parts := parts ++ [text instruction] in
  let parts := _add_image_part parts (Py.get image_url "") in
  (parts, <[label := description]> image_mapping).

Definition add_item (st : Assembly * Z) (entry : nat * Item.t)
    : Assembly * Z :=
  let '(st, item_counter) := st in
  let '(idx, item) := entry in
  if Py.truthy (Item.image_url item) then
    let item_type := Py.get (Item.type item) "item" in
    let item_counter := (item_counter + 1)%Z in
    (add_section ("item_" +:+ pretty idx)
       ("the " +:+ item_type +:+ " reference image")
       ("REFERENCE IMAGE - ADDITIONAL ITEM (" +:+ Py.upper item_type
        +:+ "): This image shows a " +:+ item_type
        +:+ " to add to the outfit.")
       (Item.image_url item) st,
     item_counter)
  else (st, item_counter).

Definition prepare_image_parts (config : Config.t) : Assembly :=
  let st : Assembly := ([], ∅) in
  (* Model reference image *)
  let model_ref := Py.get (Config.model_reference config) ModelRef.empty in
  let st :=
    if Py.truthy (ModelRef.image_url model_ref) then
      add_section "model_ref" "the model reference image (Image 1)"
        "REFERENCE IMAGE 1 - MODEL: This image shows the model reference. Use the model's face and appearance from this image."
        (ModelRef.image_url model_ref) st
    else st in
  (* Base outfit image *)
  let outfit := Py.get (Config.base_outfit config) Outfit.empty in
  let st :=
    if Py.truthy (Outfit.image_url outfit) then
      add_section "outfit"
        "the outfit image (which replaces the model's clothing)"
        "REFERENCE IMAGE - OUTFIT: This image shows the outfit/clothing to be worn. REPLACE the model's clothing with the outfit from this image."
        (Outfit.image_url outfit) st
    else st in
  (* Additional items images *)
  let additional_items := Py.get (Config.additional_items config) [] in
  let '(st, _) := fold_left add_item (enumerate additional_items) (st, 0%Z) in
  (* Jewelry images *)
  let jewelry := Py.get (Config.jewelry config) Jewelry.empty in
  let neck := Py.get (Jewelry.neck jewelry) JewelryLoc.empty in
  let st :=
    if Py.truthy_b (JewelryLoc.enabled neck)
       && Py.truthy (JewelryLoc.image_url neck) then
      add_section "jewelry_neck" "the neck jewelry reference image"
        "REFERENCE IMAGE - NECK JEWELRY: This image shows the necklace/jewelry to wear around the neck. Apply this jewelry to the neck area."
        (JewelryLoc.image_url neck) st
    else st in
  let ears := Py.get (Jewelry.ears jewelry) JewelryLoc.empty in
  let st :=
    if Py.truthy_b (JewelryLoc.enabled ears)
       && Py.truthy (JewelryLoc.image_url ears) then
      add_section "jewelry_ears" "the ear jewelry reference image"
        "REFERENCE IMAGE - EAR JEWELRY: This image shows the earrings/jewelry to wear on the ears. Apply this jewelry to the ears."
        (JewelryLoc.image_url ears) st
    else st in
  let hands := Py.get (Jewelry.hands_wrists jewelry) JewelryLoc.empty in
  let st :=
    if Py.truthy_b (JewelryLoc.enabled hands)
       && Py.truthy (JewelryLoc.image_url hands) then
      add_section "jewelry_hands" "the hand/wrist jewelry reference image"
        "REFERENCE IMAGE - HAND/WRIST JEWELRY: This image shows the rings/bracelets to wear on hands and wrists. Apply this jewelry to the hands and wrists."
        (JewelryLoc.image_url hands) st
    else st in
  (* Environment/background image *)
  let environment := Py.get (Config.environment config) Environment.empty in
  let st :=
    if Py.truthy (Environment.image_url environment) then
      add_section "environment" "the background/environment reference image"
        "REFERENCE IMAGE - BACKGROUND: This image shows the background/environment to use for the photoshoot."
        (Environment.image_url environment) st
    else st in
  (* Photography references *)
  let photography := Py.get (Config.photography config) Photography.empty in
  let pose := Py.get (Photography.pose photography) Pose.empty in
  let st :=
    if Py.truthy (Pose.image_url pose) then
      add_section "pose" "the pose reference image"
        "REFERENCE IMAGE - POSE: This image shows the pose to mimic. Use the pose and body positioning from this image."
        (Pose.image_url pose) st
    else st in
  let hair := Py.get (Photography.hair photography) Hair.empty in
  let st :=
    if Py.truthy (Hair.image_url hair) then
      add_section "hair" "the hairstyle reference image"
        "REFERENCE IMAGE - HAIRSTYLE: This image shows the hairstyle to apply. Use the hairstyle from this image."
        (Hair.image_url hair) st
    else st in
  st.

End Assembler.

(** ** The prompt builders ([prompt_builder.py]) *)

(** [int(x)] on a float: truncation towards zero; [None] when Python raises
    (not-a-number and the infinities). *)
Definition int_of_float (x : float) : option Z :=
  match Prim2SF x with
  | S754_zero _ => Some 0%Z
  | S754_finite s m e =>
      let a :=
        if (0 <=? e)%Z then Z.shiftl (Z.pos m) e
        else Z.shiftr (Z.pos m) (- e) in
      Some (if s then (- a)%Z else a)
  | S754_infinity _ => None
  | S754_nan => None
  end.

(** [map_platform_preset_to_aspect_ratio(platform_preset)]. *)
Definition map_platform_preset_to_aspect_ratio (platform_preset : option string)
    : string :=
  let mapping : gmap string string :=
    <["default" := "2:3"]> (<["instagram_square" := "1:1"]>
      (<["instagram_story" := "9:16"]> (<["instagram_portrait" := "4:5"]> ∅))) in
  match platform_preset with
  | Some k => Py.get (mapping !! k) "2:3"
  | None => "2:3"
  end.

Abbreviation image_labels := (gmap string string).

(** [image_mapping = image_mapping or {}]. *)
Definition or_empty (image_mapping : option image_labels) : image_labels :=
  match image_mapping with
  | Some m => m
  | None => ∅
  end.

(** [l.append(x)]. *)
Definition append {A : Type} (l : list A) (x : A) : list A := l ++ [x].

Definition build_model_reference_prompt (model_ref : ModelRef.t)
    (image_mapping : option image_labels) : list string :=
  let parts : list string := [] in
  let image_mapping := or_empty image_mapping in
  let parts :=
    if Py.truthy (ModelRef.text_description model_ref) then
      append parts ("Model appearance: "
        +:+ Py.get (ModelRef.text_description model_ref) "" +:+ ".")
    else parts in
  let face_action := Py.get (ModelRef.face_action model_ref) "keep" in
  let parts :=
    if String.eqb face_action "keep" then
      if Py.truthy (ModelRef.image_url model_ref)
         && is_some (image_mapping !! "model_ref") then
        let ref := Py.get (image_mapping !! "model_ref") "" in
        append parts ("CRITICAL: Extract and use the EXACT same face from "
          +:+ ref
          +:+ ". The face features (eyes, nose, mouth, facial structure, skin tone, facial proportions) must match exactly. Also extract the body figure and proportions from "
          +:+ ref
          +:+ ". IGNORE the background, clothing, outfit, accessories, and any other elements from the model reference image.")
      else
        append parts "CRITICAL: Extract and use the EXACT same face from the model reference image. The face features must match exactly. Also extract the body figure and proportions. IGNORE the background, clothing, outfit, accessories, and any other elements."
    else if String.eqb face_action "generate" then
      if Py.truthy (ModelRef.new_model_description model_ref) then
        append parts ("Generate a new model with the following characteristics: "
          +:+ Py.get (ModelRef.new_model_description model_ref) "" +:+ ".")
      else append parts "Generate a new model face."
    else parts in
  let parts :=
    if Py.truthy (ModelRef.image_url model_ref)
       && String.eqb face_action "keep" then
      append parts "IMPORTANT: The model reference image should ONLY be used to extract the face and body figure. Do not use any other elements from that image."
    else parts in
  parts.

Definition build_outfit_prompt (outfit : Outfit.t)
    (image_mapping : option image_labels) : list string :=
  let parts : list string := [] in
  let image_mapping := or_empty image_mapping in
  let parts :=
    if Py.truthy (Outfit.image_url outfit) then
      let outfit_ref :=
        Py.get (image_mapping !! "outfit") "the outfit reference image" in
      append parts ("CRITICAL REQUIREMENT: Extract ONLY the clothing/outfit from "
        +:+ outfit_ref
        +:+ ". IGNORE any person, model, face, body, or background in "
        +:+ outfit_ref
        +:+ ". If there is a person wearing the outfit in "
        +:+ outfit_ref
        +:+ ", extract ONLY the clothing items (shirt, dress, pants, jacket, etc.) and completely ignore the person. REPLACE the model's clothing with ONLY the extracted outfit from "
        +:+ outfit_ref
        +:+ ". Maintain the clothing design, texture, color, and details from the extracted outfit.")
    else if Py.truthy (Outfit.text_description outfit) then
      append parts "Apply the following outfit as described."
    else parts in
  let parts :=
    if Py.truthy (Outfit.text_description outfit) then
      append parts ("Outfit: "
        +:+ Py.get (Outfit.text_description outfit) "" +:+ ".")
    else parts in
  parts.

(** One turn of the loop of [build_additional_items_prompt]. *)
Definition describe_item (image_mapping : image_labels)
    (item_descriptions : list string) (entry : nat * Item.t) : list string :=
  let '(idx, item) := entry in
  let item_type := Py.get (Item.type item) "item" in
  if Py.truthy (Item.text item) then
    append item_descriptions
      (item_type +:+ ": " +:+ Py.get (Item.text item) "")
  else if Py.truthy (Item.image_url item) then
    let item_ref :=
      Py.get (image_mapping !! ("item_" +:+ pretty idx))
        ("the " +:+ item_type +:+ " reference image") in
    append item_descriptions
      (item_type +:+ ": extract ONLY the " +:+ item_type +:+ " from "
       +:+ item_ref +:+ ", ignore any person/background/other elements")
  else item_descriptions.

Definition build_additional_items_prompt (items : list Item.t)
    (image_mapping : option image_labels) : list string :=
  let parts : list string := [] in
  let image_mapping := or_empty image_mapping in
  match items with
  | [] => parts
  | _ =>
      let item_descriptions :=
        fold_left (describe_item image_mapping) (enumerate items) [] in
      match item_descriptions with
      | [] => parts
      | _ =>
          append parts ("Additional items: "
            +:+ Py.join "; " item_descriptions +:+ ".")
      end
  end.

(** One location of [build_jewelry_prompt]; the three locations differ in
    the name printed, the label, its fallback and the closing words. *)
Definition describe_location (name label fallback target : string)
    (loc : JewelryLoc.t) (image_mapping : image_labels)
    (jewelry_items : list string) : list string :=
  if Py.truthy_b (JewelryLoc.enabled loc) then
    let method := Py.get (JewelryLoc.method loc) "none" in
    if String.eqb method "text_description"
       && Py.truthy (JewelryLoc.text loc) then
      append jewelry_items
        (name +:+ ": " +:+ Py.get (JewelryLoc.text loc) "")
    else if String.eqb method "image_reference" then
      let ref := Py.get (image_mapping !! label) fallback in
      append jewelry_items
        (name +:+ ": extract ONLY the jewelry from " +:+ ref
         +:+ ", ignore any person/background/other elements, apply to "
         +:+ target)
    else if String.eqb method "text_and_image"
            && Py.truthy (JewelryLoc.text loc) then
      let ref := Py.get (image_mapping !! label) fallback in
      append jewelry_items
        (name +:+ ": " +:+ Py.get (JewelryLoc.text loc) ""
         +:+ " (extract jewelry from " +:+ ref
         +:+ ", ignore person/background)")
    else jewelry_items
  else jewelry_items.

Definition build_jewelry_prompt (jewelry : Jewelry.t)
    (image_mapping : option image_labels) : list string :=
  let parts : list string := [] in
  let jewelry_items : list string := [] in
  let image_mapping := or_empty image_mapping in
  (* Neck jewelry *)
  let neck := Py.get (Jewelry.neck jewelry) JewelryLoc.empty in
  let jewelry_items :=
    describe_location "neck" "jewelry_neck"
      "the neck jewelry reference image" "neck area"
      neck image_mapping jewelry_items in
  (* Ear jewelry *)
  let ears := Py.get (Jewelry.ears jewelry) JewelryLoc.empty in
  let jewelry_items :=
    describe_location "ears" "jewelry_ears"
      "the ear jewelry reference image" "ears"
      ears image_mapping jewelry_items in
  (* Hands/wrists jewelry *)
  let hands := Py.get (Jewelry.hands_wrists jewelry) JewelryLoc.empty in
  let jewelry_items :=
    describe_location "hands/wrists" "jewelry_hands"
      "the hand/wrist jewelry reference image" "hands and wrists"
      hands image_mapping jewelry_items in
  match jewelry_items with
  | [] => parts
  | _ =>
      append parts ("Jewelry and accessories: "
        +:+ Py.join ", " jewelry_items +:+ ".")
  end.

Definition category_descriptions : gmap string string :=
  <["outdoor_nature" := "outdoor natural environment"]>
    (<["outdoor_urban" := "outdoor urban environment"]>
      (<["indoor_lifestyle" := "indoor lifestyle environment"]>
        (<["studio" := "professional studio setting"]> ∅))).

Definition build_environment_prompt (environment : Environment.t)
    (image_mapping : option image_labels) : list string :=
  let parts : list string := [] in
  let image_mapping := or_empty image_mapping in
  let category := Py.get (Environment.category environment) "studio" in
  let parts :=
    append parts ("Environment: "
      +:+ Py.get (category_descriptions !! category) category +:+ ".") in
  let method := Py.get (Environment.method environment) "auto" in
  let parts :=
    if String.eqb method "text_description"
       && Py.truthy (Environment.text_description environment) then
      append parts ("Background details: "
        +:+ Py.get (Environment.text_description environment) "" +:+ ".")
    else if String.eqb method "reference_image"
            && Py.truthy (Environment.image_url environment) then
      let env_ref :=
        Py.get (image_mapping !! "environment")
          "the background/environment reference image" in
      append parts ("CRITICAL: Extract ONLY the background/environment/scene from "
        +:+ env_ref
        +:+ ". IGNORE any person, model, face, body, clothing, or foreground elements. Use ONLY the background, environment setting, and scene from "
        +:+ env_ref +:+ ".")
    else parts in
  parts.

(** The default of [pose.get("strength", 0.8)]: the double nearest to 0.8. *)
Definition default_strength : float := 0x1.999999999999ap-1%float.

(** [build_photography_prompt]; [None] when [int(strength * 100)] raises. *)
Definition build_photography_prompt (photography : Photography.t)
    (image_mapping : option image_labels) : option (list string) :=
  let parts : list string := [] in
  let image_mapping := or_empty image_mapping in
  (* Main photography settings *)
  let photo_settings : list string := [] in
  let photo_settings :=
    if Py.truthy (Photography.aesthetic photography) then
      append photo_settings
        ("aesthetic: " +:+ Py.get (Photography.aesthetic photography) "")
    else photo_settings in
  let photo_settings :=
    if Py.truthy (Photography.framing photography) then
      let framing_desc :=
        Py.replace (Py.get (Photography.framing photography) "") "_" " " in
      append photo_settings ("framing: " +:+ framing_desc)
    else photo_settings in
  let photo_settings :=
    if Py.truthy (Photography.lighting photography) then
      let lighting_desc :=
        Py.replace (Py.get (Photography.lighting photography) "") "_" " " in
      append photo_settings ("lighting: " +:+ lighting_desc)
    else photo_settings in
  let parts :=
    match photo_settings with
    | [] => parts
    | _ =>
        append parts ("Photography style: "
          +:+ Py.join ", " photo_settings +:+ ".")
    end in
  (* Shadows *)
  let shadows := Py.strip (Py.get (Photography.shadows photography) "") in
  let parts :=
    if Py.truthy (Some shadows)
       && negb (String.eqb shadows "None - No specific shadow requirements")
    then
      let shadow_desc :=
        if Py.startswith shadows "None - "
        then Py.replace shadows "None - " ""
        else shadows in
      append parts ("Shadows: " +:+ shadow_desc +:+ ".")
    else parts in
  (* Pose *)
  let pose := Py.get (Photography.pose photography) Pose.empty in
  let pose_method := Py.get (Pose.method pose) "auto" in
  parts ←
    (if String.eqb pose_method "text_description"
        && Py.truthy (Pose.text pose) then
       Some (append parts ("Pose: " +:+ Py.get (Pose.text pose) "" +:+ "."))
     else if String.eqb pose_method "reference_image"
             && Py.truthy (Pose.image_url pose) then
       let strength := Py.get (Pose.strength pose) default_strength in
       let pose_ref :=
         Py.get (image_mapping !! "pose") "the pose reference image" in
       percent ← int_of_float (strength * 100)%float;
       Some (append parts
         ("CRITICAL: Extract ONLY the body pose, positioning, and stance from "
          +:+ pose_ref
          +:+ ". IGNORE the face, clothing, outfit, background, and other elements. Use ONLY the body positioning and pose from "
          +:+ pose_ref +:+ " with " +:+ Py.str_int percent
          +:+ "% similarity."))
     else Some parts);
  (* Hair *)
  let hair := Py.get (Photography.hair photography) Hair.empty in
  let hair_method := Py.get (Hair.method hair) "auto" in
  let parts :=
    if String.eqb hair_method "text_description"
       && Py.truthy (Hair.text hair) then
      append parts ("Hair styling: " +:+ Py.get (Hair.text hair) "" +:+ ".")
    else if String.eqb hair_method "reference_image"
            && Py.truthy (Hair.image_url hair) then
      let hair_ref :=
        Py.get (image_mapping !! "hair") "the hairstyle reference image" in
      append parts
        ("CRITICAL: Extract ONLY the hairstyle, hair texture, and hair styling from "
         +:+ hair_ref
         +:+ ". IGNORE the face features, body, clothing, background, and other elements. Use ONLY the hairstyle and hair appearance from "
         +:+ hair_ref +:+ ".")
    else if String.eqb hair_method "keep_original" then
      append parts "Keep the original hairstyle from the reference."
    else parts in
  Some parts.

Definition build_quality_boost : string :=
  "realistic head to body ratio, ultra-detailed, highly realistic, "
  +:+ "professional photography, 8k uhd, cinematic lighting, soft natural light, "
  +:+ "sharp focus, perfect skin texture, lifelike eyes, accurate facial proportions, "
  +:+ "volumetric depth, subtle shadows, realistic skin tones, detailed hair strands, "
  +:+ "fine pores, depth of field, masterpiece, award-winning portrait style".

(** The directive emitted for a batch of several outputs. *)
Definition consistency_directive : string :=
  "CRITICAL CONSISTENCY REQUIREMENT: When generating multiple images, the model's face, body figure, outfit, all clothing items, jewelry, and accessories must remain EXACTLY THE SAME across all generated images. Only camera angles, poses, lighting variations, and composition can differ between images. All core elements must be identical.".

(** [parts.extend(l)]. *)
Definition extend {A : Type} (l1 l2 : list A) : list A := l1 ++ l2.

(** The list [parts] of [build_photoshoot_prompt] when it reaches its
    [return]; [None] when the photography builder raises. *)
Definition build_photoshoot_parts (config : Config.t)
    (image_mapping : option image_labels) : option (list string) :=
  let parts : list string := [] in
  let image_mapping := Some (or_empty image_mapping) in
  (* Check if batch generation (multiple outputs) *)
  let output_count :=
    Py.get (Output.count (Py.get (Config.output config) Output.empty)) 1%Z in
  let parts :=
    if (1 <? output_count)%Z then append parts consistency_directive
    else parts in
  (* Model reference *)
  let parts :=
    match Config.model_reference config with
    | Some model_reference =>
        if ModelRef.nonempty model_reference then
          extend parts (build_model_reference_prompt model_reference image_mapping)
        else parts
    | None => parts
    end in
  (* Base outfit *)
  let parts :=
    match Config.base_outfit config with
    | Some base_outfit =>
        if Outfit.nonempty base_outfit then
          extend parts (build_outfit_prompt base_outfit image_mapping)
        else parts
    | None => parts
    end in
  (* Additional items (layered clothing) *)
  let parts :=
    match Config.additional_items config with
    | Some (_ :: _ as additional_items) =>
        extend parts (build_additional_items_prompt additional_items image_mapping)
    | _ => parts
    end in
  (* Jewelry *)
  let parts :=
    match Config.jewelry config with
    | Some jewelry =>
        if Jewelry.nonempty jewelry then
          extend parts (build_jewelry_prompt jewelry image_mapping)
        else parts
    | None => parts
    end in
  (* Environment *)
  let parts :=
    match Config.environment config with
    | Some environment =>
        if Environment.nonempty environment then
          extend parts (build_environment_prompt environment image_mapping)
        else parts
    | None => parts
    end in
  (* Photography settings *)
  parts ←
    match Config.photography config with
    | Some photography =>
        if Photography.nonempty photography then
          photo ← build_photography_prompt photography image_mapping;
          Some (extend parts photo)
        else Some parts
    | None => Some parts
    end;
  (* Quality boost *)
  Some (append parts build_quality_boost).

(** [build_photoshoot_prompt(config, image_mapping)]: the fragments joined
    with single spaces. *)
Definition build_photoshoot_prompt (config : Config.t)
    (image_mapping : option image_labels) : option string :=
  Py.join " " <$> build_photoshoot_parts config image_mapping.

(** ** The batch variation injector ([generate_image] in [gemini_client.py]) *)

Definition dynamic_angles_variations : list string :=
  [ "Slightly different camera angle";
    "Different pose variation";
    "Alternative composition";
    "Varied perspective";
    "Different lighting angle";
    "Alternative framing";
    "Shifted viewpoint";
    "New angle approach";
    "Fresh perspective";
    "Different positioning" ].

Definition subtle_variations : list string :=
  [ "Slight variation in expression";
    "Minor pose adjustment";
    "Subtle lighting change";
    "Small composition shift";
    "Gentle variation" ].

(** [variations[batch_index % len(variations)]]; Python's [%] has the sign
    of the divisor, as [Z.modulo] has. *)
Definition pick (variations : list string) (batch_index : Z) : string :=
  nth (Z.to_nat (batch_index mod Z.of_nat (length variations))) variations "".

(** [batch_variety == s], where [batch_variety] may be [None]. *)
Definition is_str (o : option string) (s : string) : bool :=
  match o with
  | Some v => String.eqb v s
  | None => false
  end.

(** The value of [final_prompt] in [generate_image]. *)
Definition final_prompt (prompt : string) (batch_index : option Z)
    (batch_variety : option string) : string :=
  let final_prompt := prompt in
  if is_some batch_index && is_str batch_variety "dynamic_angles" then
    let variation_text := pick dynamic_angles_variations (Py.get batch_index 0%Z) in
    variation_text +:+ ". " +:+ prompt
  else if is_some batch_index && is_str batch_variety "subtle_variations" then
    let variation_text := pick subtle_variations (Py.get batch_index 0%Z) in
    variation_text +:+ ". " +:+ prompt
  else final_prompt.

(** The list [parts] of the request body built by [generate_image]: the
    text prompt first, then the shared image parts. *)
Definition request_parts (prompt : string) (image_parts : list Part)
    (batch_index : option Z) (batch_variety : option string) : list Part :=
  [text (final_prompt prompt batch_index batch_variety)] ++ image_parts.

(** ** The form state and [build_config] ([app.py])

    [st.session_state] is filled by the widgets in whatever order the user
    touches them.  Every key holds a value of one fixed type, so the state
    is kept as one association list per type, in insertion order. *)

Module SessionState.
Record t := mk {
  strings : list (string * string);
  flags : list (string * bool);
  image_count : option Z;
  pose_strength : option float;
  selected_garments : option (list string);
  additional_items : option (list Item.t)
}.
End SessionState.

(** The first entry of an association list under a key. *)
Fixpoint assoc {A : Type} (key : string) (l : list (string * A)) : option A :=
  match l with
  | [] => None
  | (k, v) :: r => if String.eqb k key then Some v else assoc key r
  end.

(** [st.session_state.get(key, default)] for a text widget. *)
Definition get_str (ss : SessionState.t) (key default : string) : string :=
  Py.get (assoc key (SessionState.strings ss)) default.

(** [st.session_state.get(key, False)] for a checkbox. *)
Definition get_flag (ss : SessionState.t) (key : string) (default : bool)
    : bool :=
  Py.get (assoc key (SessionState.flags ss)) default.

Definition platform_map : list (string * string) :=
  [ ("Instagram Portrait (4:5)", "instagram_portrait");
    ("Instagram Story (9:16)", "instagram_story");
    ("Instagram Square (1:1)", "instagram_square");
    ("Default (2:3)", "default") ].

Definition framing_map : list (string * string) :=
  [ ("Full Body", "full_body");
    ("3/4 Body", "3/4_body");
    ("Waist Up", "waist_up");
    ("Close Up", "close_up") ].

Definition lighting_map : list (string * string) :=
  [ ("Soft Warm", "soft_warm");
    ("Studio Clean", "studio_clean");
    ("Golden Hour", "golden_hour");
    ("Hard Shadows", "hard_shadows");
    ("Natural", "natural") ].

(** One jewelry location of [build_config]; [location_key] is
    [jewelry_neck], [jewelry_ears] or [jewelry_hands]. *)
Definition jewelry_location (ss : SessionState.t) (location_key : string)
    : JewelryLoc.t :=
  JewelryLoc.mk
    (Some (get_flag ss (location_key +:+ "_enabled") false))
    (Some (determine_method
             (Some (get_str ss (location_key +:+ "_text") ""))
             (Some (get_str ss (location_key +:+ "_url") ""))
             "none"))
    (Some (get_str ss (location_key +:+ "_text") ""))
    (Some (get_str ss (location_key +:+ "_url") "")).

(** [build_config()]; [job_id] is the identifier drawn from [uuid4]. *)
Definition build_config (ss : SessionState.t) (job_id : string) : Config.t :=
  Config.mk
    (Some (Meta.mk
       (Some job_id)
       (Some "photoshoot_app")
       (Some (Py.get
          (assoc (get_str ss "platform_preset" "Instagram Portrait (4:5)")
             platform_map)
          "instagram_portrait"))))
    (Some (ModelRef.mk
       (Some (determine_method
                (Some (get_str ss "model_ref_text" ""))
                (Some (get_str ss "model_ref_url" ""))
                "text_description"))
       (Some (get_str ss "model_ref_text" ""))
       (Some (get_str ss "model_ref_url" ""))
       (Some (if is_str (assoc "model_action" (SessionState.strings ss))
                   "Keep from reference"
              then "keep" else "generate"))
       None
       (Some (get_str ss "model_ethnicity" ""))
       (Some (get_str ss "model_hair_color" ""))
       (Some (get_str ss "model_age" ""))))
    (Some (Outfit.mk
       (Some (determine_method
                (Some (get_str ss "outfit_text" ""))
                (Some (get_str ss "outfit_url" ""))
                "text_description"))
       (Some (get_str ss "outfit_text" ""))
       (Some (get_str ss "outfit_url" ""))
       (Some (if Py.contains "Strict" (get_str ss "outfit_preservation" "Strict")
              then "strict" else "relaxed"))
       (Some (Py.get (SessionState.selected_garments ss) []))))
    (Some (Py.get (SessionState.additional_items ss) []))
    (Some (Jewelry.mk
       (Some (jewelry_location ss "jewelry_neck"))
       (Some (jewelry_location ss "jewelry_ears"))
       (Some (jewelry_location ss "jewelry_hands"))))
    (Some (Environment.mk
       (Some (Py.replace (Py.lower (get_str ss "env_category" "Studio")) " " "_"))
       (Some (determine_method
                (Some (get_str ss "environment_text" ""))
                (Some (get_str ss "environment_url" ""))
                "auto"))
       (Some (get_str ss "environment_text" ""))
       (Some (get_str ss "environment_url" ""))))
    (Some (Photography.mk
       (Some (Py.lower (get_str ss "photo_aesthetic" "Commercial")))
       (Some (Py.get (assoc (get_str ss "photo_framing" "3/4 Body") framing_map)
                "3/4_body"))
       (Some (Py.get (assoc (get_str ss "photo_lighting" "Soft Warm") lighting_map)
                "soft_warm"))
       None
       (Some (Pose.mk
          (Some (determine_method
                   (Some (get_str ss "pose_text" ""))
                   (Some (get_str ss "pose_url" ""))
                   "auto"))
          (Some (get_str ss "pose_text" ""))
          (Some (get_str ss "pose_url" ""))
          (Some (Py.get (SessionState.pose_strength ss) default_strength))))
       (Some (Hair.mk
          (Some (determine_method
                   (Some (get_str ss "hair_text" ""))
                   (Some (get_str ss "hair_url" ""))
                   "auto"))
          (Some (get_str ss "hair_text" ""))
          (Some (get_str ss "hair_url" ""))))))
    (Some (Output.mk
       (Some (Py.get (SessionState.image_count ss) 2%Z))
       (Some (if Py.contains "Subtle" (get_str ss "batch_variety" "Subtle Variations")
              then "subtle_variations" else "dynamic_angles")))).

(** ** The run started by the generate button ([app.py]) *)

(** How the handler ends: it runs to its end with a value, it shows an
    error and calls [st.stop()], or an exception escapes it. *)
Inductive Run (A : Type) :=
| Done (a : A)
| Stopped (message : string)
| Raised (exception : string).
Arguments Done {A} a.
Arguments Stopped {A} message.
Arguments Raised {A} exception.

Definition bind {A B : Type} (r : Run A) (k : A -> Run B) : Run B :=
  match r with
  | Done a => k a
  | Stopped m => Stopped m
  | Raised e => Raised e
  end.

Notation "'let*' x ':=' r 'in' k" := (bind r (fun x => k))
  (at level 10, x name, r at level 100, k at level 200).

(** [d[key]]: a missing key raises [KeyError]. *)
Definition index {A : Type} (o : option A) : Run A :=
  match o with
  | Some v => Done v
  | None => Raised "KeyError"
  end.

(** A prompt builder that raised lets its exception escape. *)
Definition returned {A : Type} (o : option A) : Run A :=
  match o with
  | Some v => Done v
  | None => Raised "ValueError"
  end.

(** [range(n)]. *)
Definition range (n : Z) : list Z :=
  map Z.of_nat (seq 0 (Z.to_nat n)).

(** One request body sent by [generate_image]. *)
Record Request := mkRequest {
  parts : list Part;
  aspectRatio : string
}.

Section Handler.

Variable url_to_base64 : string -> option string.

(** [bool(d["text_description"] or d["image_url"])]: the second key is
    read only when the first value is falsy. *)
Definition has_reference (text_description image_url : option string)
    : Run bool :=
  let* text := index text_description in
  if Py.truthy (Some text) then Done true
  else
    let* url := index image_url in
    Done (Py.truthy (Some url)).

(** The body of [if generate_clicked:], from the configuration on; the
    result is the list of requests sent, one per output. *)
Definition on_generate_clicked (config : Config.t) : Run (list Request) :=
  (* Validate required fields *)
  let* model_reference := index (Config.model_reference config) in
  let* has_model_ref := has_reference (ModelRef.text_description model_reference)
      (ModelRef.image_url model_reference) in
  let* base_outfit := index (Config.base_outfit config) in
  let* has_outfit := has_reference (Outfit.text_description base_outfit)
      (Outfit.image_url base_outfit) in
  if negb has_model_ref && negb has_outfit then
    Stopped "Please provide at least a model reference or outfit reference to generate."
  else
    (* Prepare image parts *)
    let '(image_parts, image_mapping) :=
      prepare_image_parts url_to_base64 config in
    (* Build prompt with image mapping *)
    let* prompt := returned (build_photoshoot_prompt config (Some image_mapping)) in
    (* Get aspect ratio *)
    let* meta := index (Config.meta config) in
    let* platform_preset := index (Meta.platform_preset meta) in
    let aspect_ratio :=
      map_platform_preset_to_aspect_ratio (Some platform_preset) in
    (* Generate images *)
    let* output := index (Config.output config) in
    let* image_count := index (Output.count output) in
    let* batch_variety := index (Output.batch_variety output) in
    Done (map
      (fun i =>
         mkRequest
           (request_parts prompt image_parts (Some i) (Some batch_variety))
           aspect_ratio)
      (range image_count)).

End Handler.

(** ** More Python strings *)

Module Str.

(** [s.lstrip(c)] for a single character [c]. *)
Fixpoint lstrip_char (c : ascii) (s : string) : string :=
  match s with
  | EmptyString => EmptyString
  | String a r => if Ascii.eqb a c then lstrip_char c r else s
  end.

(** [s.split(c)] for a single character [c]: the pieces between the
    occurrences of [c], empty ones included; never the empty list. *)
Fixpoint split (c : ascii) (s : string) : list string :=
  match s with
  | EmptyString => [EmptyString]
  | String a r =>
      if Ascii.eqb a c then EmptyString :: split c r
      else
        match split c r with
        | piece :: pieces => String a piece :: pieces
        | [] => [String a EmptyString]
        end
  end.

(** [l[-1]] and [l[0]] on the result of a split. *)
Definition last_piece (l : list string) : string := List.last l EmptyString.
Definition first_piece (l : list string) : string := List.hd EmptyString l.

(** [x in l] on a list of strings. *)
Definition mem (x : string) (l : list string) : bool :=
  existsb (String.eqb x) l.

End Str.

(** ** Storage of images ([image_utils.py]) *)

Definition bytes : Type := list Byte.byte.

(** The environment variables read by [S3ImageHandler]; [None] is an unset
    variable. *)
Record Env := mkEnv {
  AWS_REGION : option string;
  S3_BUCKET_NAME : option string;
  CLOUDFRONT_DOMAIN : option string
}.

Definition IMAGE_TYPES : list (string * string) :=
  [ ("model_ref", "Model reference images");
    ("model", "Model reference images (alias)");
    ("outfit", "Base outfit images");
    ("primary", "Primary clothing reference (legacy)");
    ("item", "Additional clothing items");
    ("jacket", "Jacket reference");
    ("shoes", "Shoes reference");
    ("bag", "Bag reference");
    ("hat", "Hat reference");
    ("scarf", "Scarf reference");
    ("belt", "Belt reference");
    ("sunglasses", "Sunglasses reference");
    ("watch", "Watch reference");
    ("jewelry_neck", "Neck jewelry reference");
    ("jewelry_ears", "Ear jewelry reference");
    ("jewelry_hands", "Hand/wrist jewelry reference");
    ("neck", "Neck jewelry (alias)");
    ("ears", "Ear jewelry (alias)");
    ("hands", "Hand jewelry (alias)");
    ("background", "Background/environment reference");
    ("environment", "Environment reference (alias)");
    ("pose", "Pose reference");
    ("hair", "Hair styling reference");
    ("accessory", "Accessory reference (legacy)");
    ("new_item", "New item upload (temporary)") ].

(** The arguments of one call of [s3_client.put_object]. *)
Record PutObject := mkPutObject {
  Bucket : string;
  Key : string;
  Body : bytes;
  ContentType : string;
  CacheControl : string
}.

(** The dictionary returned by the two upload methods. *)
Record UploadResult := mkUploadResult {
  success : bool;
  public_url : string;
  s3_key : string;
  image_type : option string;
  error : option string
}.

Module S3ImageHandler.

Record t := mk {
  bucket_name : string;
  cloudfront_domain : option string
}.

(** [S3ImageHandler()]. *)
Definition init (env : Env) : t :=
  mk (Py.get (S3_BUCKET_NAME env) "crowai-image-bucket")
     (CLOUDFRONT_DOMAIN env).

(** [get_public_url(key)]. *)
Definition get_public_url (env : Env) (self : t) (key : string) : string :=
  let clean_key := Str.lstrip_char "/" key in
  if Py.truthy (cloudfront_domain self) then
    "https://" +:+ Py.get (cloudfront_domain self) "" +:+ "/" +:+ clean_key
  else
    let region := Py.get (AWS_REGION env) "eu-north-1" in
    "https://" +:+ bucket_name self +:+ ".s3." +:+ region
    +:+ ".amazonaws.com/" +:+ clean_key.

Definition folder_map : list (string * string) :=
  [ ("model_ref", "model-refs");
    ("model", "model-refs");
    ("outfit", "outfit-refs");
    ("primary", "outfit-refs");
    ("item", "item-refs");
    ("jacket", "item-refs");
    ("shoes", "item-refs");
    ("bag", "item-refs");
    ("hat", "item-refs");
    ("scarf", "item-refs");
    ("belt", "item-refs");
    ("sunglasses", "item-refs");
    ("watch", "item-refs");
    ("new_item", "item-refs");
    ("jewelry_neck", "jewelry-refs");
    ("jewelry_ears", "jewelry-refs");
    ("jewelry_hands", "jewelry-refs");
    ("neck", "jewelry-refs");
    ("ears", "jewelry-refs");
    ("hands", "jewelry-refs");
    ("background", "environment-refs");
    ("environment", "environment-refs");
    ("pose", "pose-refs");
    ("hair", "hair-refs");
    ("accessory", "accessory-refs") ].

(** [_get_category_folder(image_type)]. *)
Definition _get_category_folder (image_type : string) : string :=
  Py.get (assoc image_type folder_map) "photoshoot-refs".

Definition content_type_map : list (string * string) :=
  [ ("jpg", "image/jpeg");
    ("jpeg", "image/jpeg");
    ("png", "image/png");
    ("webp", "image/webp");
    ("gif", "image/gif") ].

(** The [put_object] call of [upload_reference_image].  [timestamp] is the
    value of [int(datetime.now().timestamp() * 1000)] and [uuid] that of
    [str(uuid.uuid4())]. *)
Definition reference_put (self : t) (timestamp : Z) (uuid : string)
    (image_bytes : bytes) (filename image_type : string) : PutObject :=
  let random_id := Str.first_piece (Str.split "-" uuid) in
  let file_extension :=
    if Py.contains "." filename
    then Py.lower (Str.last_piece (Str.split "." filename))
    else "jpg" in
  let file_extension :=
    if negb (Str.mem file_extension ["jpg"; "jpeg"; "png"; "webp"; "gif"])
    then "jpg" else file_extension in
  let category_folder := _get_category_folder image_type in
  let s3_filename :=
    "photoshoot_" +:+ image_type +:+ "_" +:+ Py.str_int timestamp +:+ "_"
    +:+ random_id +:+ "." +:+ file_extension in
  let file_path := category_folder +:+ "/" +:+ s3_filename in
  let s3_key := "generated-images/" +:+ file_path in
  let content_type :=
    Py.get (assoc file_extension content_type_map) "image/jpeg" in
  mkPutObject (bucket_name self) s3_key image_bytes content_type
    "max-age=3600".

(** [upload_reference_image(image_bytes, filename, image_type)].
    [put_object] answers a call with [None] when it returns and with the
    text of the exception when it raises. *)
Definition upload_reference_image (env : Env) (self : t)
    (put_object : PutObject -> option string) (timestamp : Z) (uuid : string)
    (image_bytes : bytes) (filename image_type : string) : UploadResult :=
  let call := reference_put self timestamp uuid image_bytes filename image_type in
  match put_object call with
  | None =>
      let public_url := get_public_url env self (Key call) in
      mkUploadResult true public_url (Key call) (Some image_type) None
  | Some e => mkUploadResult false "" "" None (Some e)
  end.

Definition ext_map : list (string * string) :=
  [ ("image/jpeg", "jpg");
    ("image/png", "png");
    ("image/webp", "webp");
    ("image/gif", "gif") ].

(** The [put_object] call of [upload_generated_image]. *)
Definition generated_put (self : t) (timestamp : Z) (uuid : string)
    (image_bytes : bytes) (mime_type : string) (job_id : option string)
    : PutObject :=
  let random_id := Str.first_piece (Str.split "-" uuid) in
  let folder_id :=
    if Py.truthy job_id then Py.get job_id "" else Py.str_int timestamp in
  let file_ext := Py.get (assoc mime_type ext_map) "png" in
  let s3_filename :=
    "photoshoot_" +:+ Py.str_int timestamp +:+ "_" +:+ random_id +:+ "."
    +:+ file_ext in
  let folder_path := "model-photoshoots/" +:+ folder_id +:+ "/" +:+ s3_filename in
  let s3_key := "generated-images/" +:+ folder_path in
  mkPutObject (bucket_name self) s3_key image_bytes mime_type "max-age=3600".

(** [upload_generated_image(image_bytes, mime_type, job_id)]. *)
Definition upload_generated_image (env : Env) (self : t)
    (put_object : PutObject -> option string) (timestamp : Z) (uuid : string)
    (image_bytes : bytes) (mime_type : string) (job_id : option string)
    : UploadResult :=
  let call := generated_put self timestamp uuid image_bytes mime_type job_id in
  match put_object call with
  | None =>
      let public_url := get_public_url env self (Key call) in
      mkUploadResult true public_url (Key call) None None
  | Some e => mkUploadResult false "" "" None (Some e)
  end.

End S3ImageHandler.

(** [get_image_mime_type(filename)]. *)
Definition get_image_mime_type (filename : string) : string :=
  let ext :=
    if Py.contains "." filename
    then Py.lower (Str.last_piece (Str.split "." filename))
    else "jpg" in
  let mime_map :=
    [ ("jpg", "image/jpeg");
      ("jpeg", "image/jpeg");
      ("png", "image/png");
      ("webp", "image/webp");
      ("gif", "image/gif") ] in
  Py.get (assoc ext mime_map) "image/jpeg".

(** ** The answer of the generation endpoint ([generate_image]) *)

(** The JSON answer, with the keys [generate_image] reads.  As for the
    configuration, a dictionary is a record of optional fields and is falsy
    when it holds no key. *)
Module Response.

Record InlineData := mkInlineData {
  mimeType : option string;
  data : option string
}.

Record Part := mkPart {
  inlineData : option InlineData;
  text : option string
}.

Record Content := mkContent {
  parts : option (list Part);
  role : option string
}.

Record Candidate := mkCandidate {
  content : option Content;
  finishReason : option string
}.

Record t := mk {
  candidates : option (list Candidate)
}.

Definition inline_nonempty (d : InlineData) : bool :=
  is_some (mimeType d) || is_some (data d).

Definition content_nonempty (d : Content) : bool :=
  is_some (parts d) || is_some (role d).

Definition candidate_nonempty (d : Candidate) : bool :=
  is_some (content d) || is_some (finishReason d).

(** [part.get("inlineData") and
     part["inlineData"].get("mimeType", "").startswith("image/")]. *)
Definition is_image_part (part : Part) : bool :=
  match inlineData part with
  | Some d =>
      inline_nonempty d && Py.startswith (Py.get (mimeType d) "") "image/"
  | None => false
  end.

(** The loop that looks for the image part: the first part that passes the
    test, [None] when the loop ends without a [break]. *)
Fixpoint find_image_part (l : list Part) : option Part :=
  match l with
  | [] => None
  | part :: rest =>
      if is_image_part part then Some part else find_image_part rest
  end.

End Response.

(** What [generate_image] does with the answer: the image bytes and the
    MIME type, or a raised exception, whose text is carried by [Raised]. *)
Definition extract_image (b64decode : string -> option bytes)
    (response_data : Response.t) : Run (bytes * string) :=
  match Response.candidates response_data with
  | Some (candidate :: _) =>
      if negb (Response.candidate_nonempty candidate) then
        Raised "Invalid response format: no candidates found"
      else
        match Response.content candidate with
        | Some content =>
            if negb (Response.content_nonempty content) then
              Raised "Invalid response format: no content parts found"
            else
              match Response.parts content with
              | Some ((_ :: _) as parts) =>
                  match Response.find_image_part parts with
                  | Some image_part =>
                      match Response.inlineData image_part with
                      | Some inline =>
                          if negb (Response.inline_nonempty inline)
                             || negb (Py.truthy (Response.data inline))
                          then Raised "No image data found in Gemini response"
                          else
                            let base64_data := Py.get (Response.data inline) "" in
                            let* mime_type := index (Response.mimeType inline) in
                            match b64decode base64_data with
                            | Some image_bytes => Done (image_bytes, mime_type)
                            | None => Raised "binascii.Error"
                            end
                      | None => Raised "No image data found in Gemini response"
                      end
                  | None => Raised "No image data found in Gemini response"
                  end
              | _ => Raised "Invalid response format: no content parts found"
              end
        | None => Raised "Invalid response format: no content parts found"
        end
  | _ => Raised "Invalid response format: no candidates found"
  end.

(** [generate_image(prompt, image_parts, aspect_ratio, batch_index,
    batch_variety)].  [post] stands for the HTTP call with
    [raise_for_status] and [json]: it answers a request with the decoded
    JSON or with the exception raised on the way. *)
Definition generate_image (post : Request -> Run Response.t)
    (b64decode : string -> option bytes) (prompt : string)
    (image_parts : list Part) (aspect_ratio : string)
    (batch_index : option Z) (batch_variety : option string)
    : Run (bytes * string) :=
  let request :=
    mkRequest (request_parts prompt image_parts batch_index batch_variety)
      aspect_ratio in
  let* response_data := post request in
  extract_image b64decode response_data.

(** ** The generation loop ([app.py]) *)

(** One entry of [generated_images]. *)
Record GeneratedImage := mkGeneratedImage {
  gi_s3_url : string;
  gi_s3_key : string;
  gi_bytes : bytes;
  gi_index : Z;
  gi_mime_type : string
}.

(** What the loop has built so far: the list [generated_images] and the
    messages shown with [st.error], oldest first. *)
Definition LoopState : Type := list GeneratedImage * list string.

Section Generation.

(** The world the loop runs in.  The calls of turn [i] are answered by the
    [i]-th oracle: [post i] is the endpoint, [now i] the clock and [uuid4 i]
    the identifier drawn at the upload of turn [i]. *)
Variable post : Z -> Request -> Run Response.t.
Variable b64decode : string -> option bytes.
Variable env : Env.
Variable s3_handler : S3ImageHandler.t.
Variable put_object : PutObject -> option string.
Variable now : Z -> Z.
Variable uuid4 : Z -> string.

(** The body of [for i in range(image_count)]. *)
Definition generation_turn (prompt : string) (image_parts : list Part)
    (aspect_ratio batch_variety : string) (st : LoopState) (i : Z)
    : LoopState :=
  let '(generated_images, errors) := st in
  match generate_image (post i) b64decode prompt image_parts aspect_ratio
          (Some i) (Some batch_variety) with
  | Done (image_bytes, mime_type) =>
      let upload_result :=
        S3ImageHandler.upload_generated_image env s3_handler put_object
          (now i) (uuid4 i) image_bytes mime_type None in
      if success upload_result then
        (generated_images
         ++ [mkGeneratedImage (public_url upload_result) (s3_key upload_result)
               image_bytes (i + 1)%Z mime_type],
         errors)
      else
        (generated_images,
         errors ++ ["Failed to upload image " +:+ Py.str_int (i + 1) +:+ ": "
                    +:+ Py.get (error upload_result) "None"])
  | Raised e | Stopped e =>
      (generated_images,
       errors ++ ["Error generating image " +:+ Py.str_int (i + 1) +:+ ": "
                  +:+ e])
  end.

(** The whole loop. *)
Definition generation_loop (prompt : string) (image_parts : list Part)
    (aspect_ratio : string) (image_count : Z) (batch_variety : string)
    : LoopState :=
  fold_left (generation_turn prompt image_parts aspect_ratio batch_variety)
    (range image_count) ([], []).

End Generation.

(** ** The form handlers ([app.py]) *)

(** [d[key] = value] on a dictionary kept in insertion order: the value of
    an existing key is replaced in place, a new key goes to the end. *)
Fixpoint dict_set {A : Type} (key : string) (value : A)
    (l : list (string * A)) : list (string * A) :=
  match l with
  | [] => [(key, value)]
  | (k, v) :: r =>
      if String.eqb k key then (k, value) :: r
      else (k, v) :: dict_set key value r
  end.

(** [st.session_state[key] = value] for a text entry. *)
Definition set_str (ss : SessionState.t) (key value : string)
    : SessionState.t :=
  SessionState.mk
    (dict_set key value (SessionState.strings ss))
    (SessionState.flags ss)
    (SessionState.image_count ss)
    (SessionState.pose_strength ss)
    (SessionState.selected_garments ss)
    (SessionState.additional_items ss).

(** [handle_image_upload(file_obj, image_type, session_key)], from the
    file on: [file_obj] is the name and the content of the uploaded file,
    [None] when there is none, and [clicked] tells whether the upload button
    was pressed.  The result is the new form state and the message shown. *)
Definition handle_image_upload (env : Env) (s3_handler : S3ImageHandler.t)
    (put_object : PutObject -> option string) (timestamp : Z) (uuid : string)
    (file_obj : option (string * bytes)) (image_type session_key : string)
    (clicked : bool) (ss : SessionState.t) : SessionState.t * option string :=
  match file_obj with
  | Some (name, content) =>
      if clicked then
        let image_bytes := content in
        let result :=
          S3ImageHandler.upload_reference_image env s3_handler put_object
            timestamp uuid image_bytes name image_type in
        if success result then
          (set_str ss (session_key +:+ "_url") (public_url result),
           Some "Uploaded successfully")
        else
          (ss, Some ("Upload failed: " +:+ Py.get (error result) "None"))
      else (ss, None)
  | None => (ss, None)
  end.

(** The handler of the [Add Item] button: the item is made of the current
    values of the type selector and of the description field and of the
    URL left by the last upload of an item image. *)
Definition add_item_clicked (ss : SessionState.t) : SessionState.t :=
  let item_type := get_str ss "new_item_type" "Jacket" in
  let new_item_text := get_str ss "new_item_text" "" in
  let new_item_url := get_str ss "new_item_url" "" in
  let new_item :=
    Item.mk (Some (Py.lower item_type)) (Some new_item_text)
      (Some new_item_url) in
  SessionState.mk
    (SessionState.strings ss)
    (SessionState.flags ss)
    (SessionState.image_count ss)
    (SessionState.pose_strength ss)
    (SessionState.selected_garments ss)
    (Some (Py.get (SessionState.additional_items ss) [] ++ [new_item])).

(** [l.pop(i)] for an index [i] within the list: the list without its
    [i]-th element. *)
Fixpoint pop {A : Type} (i : nat) (l : list A) : list A :=
  match l, i with
  | [], _ => []
  | _ :: r, O => r
  | x :: r, S j => x :: pop j r
  end.

(** The handler of the [Remove] button of the item at index [i]. *)
Definition remove_item_clicked (i : nat) (ss : SessionState.t)
    : SessionState.t :=
  SessionState.mk
    (SessionState.strings ss)
    (SessionState.flags ss)
    (SessionState.image_count ss)
    (SessionState.pose_strength ss)
    (SessionState.selected_garments ss)
    (Some (pop i (Py.get (SessionState.additional_items ss) []))).

(** ** The legacy assembler ([gemini_client.py]) *)

Module LegacyAssets.
Record t := mk {
  primary_url : option string;
  pose_ref_url : option string;
  accessory_ref_url : option string;
  background_ref_url : option string
}.
End LegacyAssets.

Section LegacyAssembler.

Variable url_to_base64 : string -> option string.

(** [prepare_image_parts_legacy(config)], on what it reads of the old
    configuration: [input_assets.primary_clothing_reference.url] and the
    three URLs of [input_assets.auxiliary_references]. *)
Definition prepare_image_parts_legacy (assets : LegacyAssets.t) : Assembly :=
  let st : Assembly := ([], ∅) in
  let primary_url := LegacyAssets.primary_url assets in
  let st :=
    if Py.truthy primary_url then
      add_section url_to_base64 "primary_clothing"
        "the primary clothing reference image"
        "REFERENCE IMAGE - PRIMARY CLOTHING: This is the main clothing reference image."
        primary_url st
    else st in
  let st :=
    if Py.truthy (LegacyAssets.pose_ref_url assets) then
      add_section url_to_base64 "pose" "the pose reference image"
        "REFERENCE IMAGE - POSE: This image shows the pose to mimic."
        (LegacyAssets.pose_ref_url assets) st
    else st in
  let st :=
    if Py.truthy (LegacyAssets.accessory_ref_url assets) then
      add_section url_to_base64 "accessory" "the accessory reference image"
        "REFERENCE IMAGE - ACCESSORY: This image shows an accessory to add."
        (LegacyAssets.accessory_ref_url assets) st
    else st in
  let st :=
    if Py.truthy (LegacyAssets.background_ref_url assets) then
      add_section url_to_base64 "background" "the background reference image"
        "REFERENCE IMAGE - BACKGROUND: This image shows the background to use."
        (LegacyAssets.background_ref_url assets) st
    else st in
  st.

End LegacyAssembler.


(** * Vocabulary of the properties *)

(** ** Text that is present *)

(** A string made of whitespace only. *)
Definition blank (s : string) : bool :=
  forallb Py.isspace (list_ascii_of_string s).

(** A text or URL argument counts as supplied when it is a string that is
    not empty once its surrounding whitespace is stripped. *)
Definition supplied (o : option string) : Prop :=
  exists s, o = Some s /\ Py.strip s <> "".

(** ** The sections walked by the assembler *)

(** The places of a configuration that can carry an image reference, in
    the words of the specification: the model reference, the base outfit,
    the additional item at a given index, the three jewelry locations, the
    environment, the pose and the hair. *)
Inductive Source :=
| FromModel
| FromOutfit
| FromItem (idx : nat)
| FromNeck
| FromEars
| FromHands
| FromEnvironment
| FromPose
| FromHair.

(** The key under which a source is registered in the label mapping. *)
Definition label_of (src : Source) : string :=
  match src with
  | FromModel => "model_ref"
  | FromOutfit => "outfit"
  | FromItem idx => "item_" +:+ pretty idx
  | FromNeck => "jewelry_neck"
  | FromEars => "jewelry_ears"
  | FromHands => "jewelry_hands"
  | FromEnvironment => "environment"
  | FromPose => "pose"
  | FromHair => "hair"
  end.

(** What the assembler uses of one source: whether the source is taken at
    all ([walked]: an image URL is set and, for jewelry, the location is
    enabled), the description registered under its label, the instruction
    placed before the image, and the URL fetched. *)
Record Row := mkRow {
  walked : bool;
  description : string;
  instruction : string;
  url : string
}.

Definition jewelry_row (loc : option JewelryLoc.t)
    (description instruction : string) : Row :=
  let loc := Py.get loc JewelryLoc.empty in
  mkRow (Py.truthy_b (JewelryLoc.enabled loc)
         && Py.truthy (JewelryLoc.image_url loc))
    description instruction (Py.get (JewelryLoc.image_url loc) "").

Definition item_row (item : Item.t) : Row :=
  let item_type := Py.get (Item.type item) "item" in
  mkRow (Py.truthy (Item.image_url item))
    ("the " +:+ item_type +:+ " reference image")
    ("REFERENCE IMAGE - ADDITIONAL ITEM (" +:+ Py.upper item_type
     +:+ "): This image shows a " +:+ item_type +:+ " to add to the outfit.")
    (Py.get (Item.image_url item) "").

Definition row_of (config : Config.t) (src : Source) : Row :=
  let jewelry := Py.get (Config.jewelry config) Jewelry.empty in
  let photography := Py.get (Config.photography config) Photography.empty in
  match src with
  | FromModel =>
      let d := Py.get (Config.model_reference config) ModelRef.empty in
      mkRow (Py.truthy (ModelRef.image_url d))
        "the model reference image (Image 1)"
        "REFERENCE IMAGE 1 - MODEL: This image shows the model reference. Use the model's face and appearance from this image."
        (Py.get (ModelRef.image_url d) "")
  | FromOutfit =>
      let d := Py.get (Config.base_outfit config) Outfit.empty in
      mkRow (Py.truthy (Outfit.image_url d))
        "the outfit image (which replaces the model's clothing)"
        "REFERENCE IMAGE - OUTFIT: This image shows the outfit/clothing to be worn. REPLACE the model's clothing with the outfit from this image."
        (Py.get (Outfit.image_url d) "")
  | FromItem idx =>
      match Py.get (Config.additional_items config) [] !! idx with
      | Some item => item_row item
      | None => mkRow false "" "" ""
      end
  | FromNeck =>
      jewelry_row (Jewelry.neck jewelry)
        "the neck jewelry reference image"
        "REFERENCE IMAGE - NECK JEWELRY: This image shows the necklace/jewelry to wear around the neck. Apply this jewelry to the neck area."
  | FromEars =>
      jewelry_row (Jewelry.ears jewelry)
        "the ear jewelry reference image"
        "REFERENCE IMAGE - EAR JEWELRY: This image shows the earrings/jewelry to wear on the ears. Apply this jewelry to the ears."
  | FromHands =>
      jewelry_row (Jewelry.hands_wrists jewelry)
        "the hand/wrist jewelry reference image"
        "REFERENCE IMAGE - HAND/WRIST JEWELRY: This image shows the rings/bracelets to wear on hands and wrists. Apply this jewelry to the hands and wrists."
  | FromEnvironment =>
      let d := Py.get (Config.environment config) Environment.empty in
      mkRow (Py.truthy (Environment.image_url d))
        "the background/environment reference image"
        "REFERENCE IMAGE - BACKGROUND: This image shows the background/environment to use for the photoshoot."
        (Py.get (Environment.image_url d) "")
  | FromPose =>
      let d := Py.get (Photography.pose photography) Pose.empty in
      mkRow (Py.truthy (Pose.image_url d))
        "the pose reference image"
        "REFERENCE IMAGE - POSE: This image shows the pose to mimic. Use the pose and body positioning from this image."
        (Py.get (Pose.image_url d) "")
  | FromHair =>
      let d := Py.get (Photography.hair photography) Hair.empty in
      mkRow (Py.truthy (Hair.image_url d))
        "the hairstyle reference image"
        "REFERENCE IMAGE - HAIRSTYLE: This image shows the hairstyle to apply. Use the hairstyle from this image."
        (Py.get (Hair.image_url d) "")
  end.

(** The fixed section order: model reference, base outfit, the additional
    items in their list order, jewelry at the neck, the ears and the hands
    and wrists, environment, pose, hair. *)
Definition section_order (config : Config.t) : list Source :=
  [FromModel; FromOutfit]
  ++ map FromItem (seq 0 (length (Py.get (Config.additional_items config) [])))
  ++ [FromNeck; FromEars; FromHands; FromEnvironment; FromPose; FromHair].

(** The parts one source contributes: nothing when it is not walked,
    otherwise its instruction followed by its image when the fetch
    succeeds. *)
Definition contribution (fetch : string -> option string) (r : Row)
    : list Part :=
  if walked r then
    text (instruction r)
    :: match fetch (url r) with
       | Some data => [inlineData "image/jpeg" data]
       | None => []
       end
  else [].

(** One source taken in turn: the body every section of
    [prepare_image_parts] runs, driven by the source's row. *)
Definition walk_step (fetch : string -> option string) (config : Config.t)
    (st : Assembly) (src : Source) : Assembly :=
  let r := row_of config src in
  if walked r then
    add_section fetch (label_of src) (description r) (instruction r)
      (Some (url r)) st
  else st.

(** The number of inline-image parts in a list of parts. *)
Definition inline_images (l : list Part) : nat :=
  length (filter (fun p => is_inline p = true) l).

(** The lockstep property as the specification words it, for one source: its
    label is in the mapping if and only if the source contributed exactly
    one inline-image part. *)
Definition lockstep (fetch : string -> option string) (config : Config.t)
    (src : Source) : Prop :=
  is_Some ((prepare_image_parts fetch config).2 !! label_of src)
  <-> inline_images (contribution fetch (row_of config src)) = 1.

(** ** Configurations used as examples *)

(** A fetch that always fails: the network is down. *)
Definition offline : string -> option string := fun _ => None.

(** A fetch that always succeeds. *)
Definition online : string -> option string :=
  fun image_url => Some ("base64:" +:+ image_url).

(** A configuration whose only content is the image of the model. *)
Definition model_image_only : Config.t :=
  Config.mk None
    (Some (ModelRef.mk None None (Some "https://cdn.example/model.jpg")
             None None None None None))
    None None None None None None.

(** Two form states holding the same entries, filled in opposite orders. *)
Definition form_a : SessionState.t :=
  SessionState.mk
    [("model_ref_url", "https://cdn.example/model.jpg");
     ("hair_url", "https://cdn.example/hair.jpg");
     ("outfit_url", "https://cdn.example/outfit.jpg")]
    [] (Some 2%Z) None None None.

Definition form_b : SessionState.t :=
  SessionState.mk
    [("outfit_url", "https://cdn.example/outfit.jpg");
     ("hair_url", "https://cdn.example/hair.jpg");
     ("model_ref_url", "https://cdn.example/model.jpg")]
    [] (Some 2%Z) None None None.

(** ** Fragments of the prompt *)

(** A fragment that, whatever follows it, does not begin with the
    consistency directive. *)
Definition unmarked (fragment : string) : Prop :=
  forall rest, String.prefix consistency_directive (fragment +:+ rest) = false.

(** [output_count] as [build_photoshoot_prompt] reads it:
    [config.get("output", {}).get("count", 1)]. *)
Definition output_count (config : Config.t) : Z :=
  Py.get (Output.count (Py.get (Config.output config) Output.empty)) 1%Z.

(** [parts] is [start] followed by fragments that do not begin with the
    directive. *)
Definition continues (start parts : list string) : Prop :=
  exists body, parts = start ++ body /\ Forall unmarked body.

(** The percentage [int(strength * 100)] of the pose of a configuration can
    be computed: the strength is a finite number. *)
Definition pose_percent_defined (config : Config.t) : Prop :=
  let photography := Py.get (Config.photography config) Photography.empty in
  let pose := Py.get (Photography.pose photography) Pose.empty in
  is_Some (int_of_float
             (Py.get (Pose.strength pose) default_strength * 100)%float).

(** A configuration of a batch of three outputs with a model image, and the
    same configuration for a single output. *)
Definition batch_of_three : Config.t :=
  Config.mk None
    (Some (ModelRef.mk None None (Some "https://cdn.example/model.jpg")
             None None None None None))
    None None None None None
    (Some (Output.mk (Some 3%Z) (Some "dynamic_angles"))).

Definition single_output : Config.t :=
  Config.mk None
    (Some (ModelRef.mk None None (Some "https://cdn.example/model.jpg")
             None None None None None))
    None None None None None
    (Some (Output.mk (Some 1%Z) (Some "dynamic_angles"))).

(** ** Jewelry locations *)

Inductive Location := Neck | Ears | HandsWrists.

(** The dictionary of a location, [{}] when the key is absent. *)
Definition location_of (jewelry : Jewelry.t) (loc : Location) : JewelryLoc.t :=
  match loc with
  | Neck => Py.get (Jewelry.neck jewelry) JewelryLoc.empty
  | Ears => Py.get (Jewelry.ears jewelry) JewelryLoc.empty
  | HandsWrists => Py.get (Jewelry.hands_wrists jewelry) JewelryLoc.empty
  end.

(** The name printed for a location in the jewelry sentence. *)
Definition location_name (loc : Location) : string :=
  match loc with
  | Neck => "neck"
  | Ears => "ears"
  | HandsWrists => "hands/wrists"
  end.

(** The source of the image of a location. *)
Definition location_source (loc : Location) : Source :=
  match loc with
  | Neck => FromNeck
  | Ears => FromEars
  | HandsWrists => FromHands
  end.

(** The words by which the image of a location is referred to. *)
Definition location_reference (loc : Location) : string :=
  match loc with
  | Neck => "the neck jewelry reference image"
  | Ears => "the ear jewelry reference image"
  | HandsWrists => "the hand/wrist jewelry reference image"
  end.

(** The entry of the jewelry sentence for a location described by both a
    text and an image referred to as [ref]. *)
Definition text_and_image_entry (loc : Location) (text ref : string) : string :=
  location_name loc +:+ ": " +:+ text +:+ " (extract jewelry from " +:+ ref
  +:+ ", ignore person/background)".

(** [part] occurs inside [whole]. *)
Definition occurs_in (part whole : string) : Prop :=
  exists before after, whole = before +:+ part +:+ after.

(** A configuration whose neck jewelry has both a text and an image. *)
Definition necklace : Jewelry.t :=
  Jewelry.mk
    (Some (JewelryLoc.mk (Some true) (Some "text_and_image")
             (Some "thin gold chain")
             (Some "https://cdn.example/necklace.jpg")))
    None None.

Definition necklace_config : Config.t :=
  Config.mk None None None None (Some necklace) None None None.

(** ** The scenarios of the specification *)

(** The message shown when the run is stopped for lack of a reference. *)
Definition no_reference_message : string :=
  "Please provide at least a model reference or outfit reference to generate.".

(** The form of scenario 1: only the outfit is described, as a red silk
    dress; the model has neither text nor image; one output. *)
Definition red_silk_dress_form : SessionState.t :=
  SessionState.mk
    [("model_action", "Keep from reference");
     ("outfit_text", "red silk dress")]
    [] (Some 1%Z) None None None.

Definition red_silk_dress : Config.t :=
  build_config red_silk_dress_form "job_00000000".

(** A form in which the environment, the pose and the hair are each given
    by an image only. *)
Definition image_only_form : SessionState.t :=
  SessionState.mk
    [("model_action", "Keep from reference");
     ("model_ref_url", "https://cdn.example/model.jpg");
     ("environment_url", "https://cdn.example/beach.jpg");
     ("pose_url", "https://cdn.example/pose.jpg");
     ("hair_url", "https://cdn.example/hair.jpg")]
    [] (Some 1%Z) None None None.

Definition image_only : Config.t :=
  build_config image_only_form "job_00000000".

(** An extraction directive of the environment, pose and hair builders
    begins with these words. *)
Definition is_extraction_directive (fragment : string) : bool :=
  Py.startswith fragment "CRITICAL: Extract ONLY".

(** ** Vocabulary of the further properties *)

(** An instruction part. *)
Definition is_text (p : Part) : bool := negb (is_inline p).

(** The number of instruction parts in a list of parts. *)
Definition instructions (l : list Part) : nat :=
  length (filter (fun p => is_text p = true) l).

(** Every inline image of [l] is a JPEG by its MIME type and comes right
    after an instruction. *)
Definition images_follow_instructions (l : list Part) : Prop :=
  forall i mime data,
    l !! i = Some (inlineData mime data) ->
    mime = "image/jpeg"
    /\ exists j instruction, i = S j /\ l !! j = Some (text instruction).

(** A configuration with a model image, an outfit image and an item
    image. *)
Definition three_images : Config.t :=
  Config.mk None
    (Some (ModelRef.mk None None (Some "https://cdn.example/model.jpg")
             None None None None None))
    (Some (Outfit.mk None None (Some "https://cdn.example/outfit.jpg")
             None None))
    (Some [Item.mk (Some "bag") None (Some "https://cdn.example/bag.jpg")])
    None None None None.

(** The variation list selected by the form: [build_config] writes
    [subtle_variations] when the entry of the variety radio holds the word
    Subtle (its default does) and [dynamic_angles] otherwise. *)
Definition form_variations (ss : SessionState.t) : list string :=
  if Py.contains "Subtle" (get_str ss "batch_variety" "Subtle Variations")
  then subtle_variations else dynamic_angles_variations.

(** The aspect ratio selected by the form. *)
Definition form_aspect_ratio (ss : SessionState.t) : string :=
  let label := get_str ss "platform_preset" "Instagram Portrait (4:5)" in
  if String.eqb label "Instagram Story (9:16)" then "9:16"
  else if String.eqb label "Instagram Square (1:1)" then "1:1"
  else if String.eqb label "Default (2:3)" then "2:3"
  else "4:5".

(** A form with a model image asking for seven outputs. *)
Definition seven_outputs_form : SessionState.t :=
  SessionState.mk
    [("model_action", "Keep from reference");
     ("model_ref_url", "https://cdn.example/model.jpg")]
    [] (Some 7%Z) None None None.

(** The form entries that [build_config] copies into the configuration and
    that no builder, nor the assembler, reads. *)
Definition unused_key (key : string) : bool :=
  Str.mem key
    ["model_ethnicity"; "model_hair_color"; "model_age"; "outfit_preservation"].

(** Two forms that differ in the entries that are not used, in the garments
    ticked and in the strength of the pose. *)
Definition plain_form : SessionState.t :=
  SessionState.mk
    [("model_action", "Generate new");
     ("outfit_text", "linen suit");
     ("pose_url", "https://cdn.example/pose.jpg")]
    [] (Some 2%Z) None None None.

Definition detailed_form : SessionState.t :=
  SessionState.mk
    [("model_action", "Generate new");
     ("model_ethnicity", "Mediterranean");
     ("model_hair_color", "auburn");
     ("model_age", "25-30");
     ("outfit_text", "linen suit");
     ("outfit_preservation", "Relaxed - Allow lighting variations");
     ("pose_url", "https://cdn.example/pose.jpg")]
    [] (Some 2%Z) (Some 0x1p-2%float) (Some ["top"; "pants"]) None.

(** A configuration with nothing in it. *)
Definition empty_config : Config.t :=
  Config.mk None None None None None None None None.

(** Whether an item has something to say: a text or an image. *)
Definition item_described (item : Item.t) : bool :=
  Py.truthy (Item.text item) || Py.truthy (Item.image_url item).

(** What the builder and the assembler read of a jewelry location: nothing
    of a location that is not enabled. *)
Definition active (loc : JewelryLoc.t)
    : option (option string * option string * option string) :=
  if Py.truthy_b (JewelryLoc.enabled loc)
  then Some (JewelryLoc.method loc, JewelryLoc.text loc, JewelryLoc.image_url loc)
  else None.

(** Jewelry filled in at the neck and then disabled, and no jewelry. *)
Definition disabled_necklace : Jewelry.t :=
  Jewelry.mk
    (Some (JewelryLoc.mk (Some false) (Some "text_and_image")
             (Some "thin gold chain")
             (Some "https://cdn.example/necklace.jpg")))
    None None.

Definition no_jewelry : Jewelry.t :=
  Jewelry.mk (Some (JewelryLoc.mk (Some false) (Some "none") (Some "") (Some "")))
    None None.

(** Three items: one described by a text, one by an image, one by
    nothing. *)
Definition three_items : list Item.t :=
  [ Item.mk (Some "jacket") (Some "black leather") None;
    Item.mk (Some "bag") (Some "") (Some "https://cdn.example/bag.jpg");
    Item.mk (Some "hat") (Some "") (Some "") ].

(** The part of a public URL that does not depend on the key. *)
Definition url_base (env : Env) (self : S3ImageHandler.t) : string :=
  if Py.truthy (S3ImageHandler.cloudfront_domain self) then
    "https://" +:+ Py.get (S3ImageHandler.cloudfront_domain self) "" +:+ "/"
  else
    "https://" +:+ S3ImageHandler.bucket_name self +:+ ".s3."
    +:+ Py.get (AWS_REGION env) "eu-north-1" +:+ ".amazonaws.com/".

(** The MIME types the storage layer knows. *)
Definition known_mime_types : list string :=
  ["image/jpeg"; "image/png"; "image/webp"; "image/gif"].

(** An environment with nothing set, its handler, and a bucket that takes
    every object. *)
Definition bare_env : Env := mkEnv None None None.
Definition bare_handler : S3ImageHandler.t := S3ImageHandler.init bare_env.
Definition accepting : PutObject -> option string := fun _ => None.

(** An answer shaped as the endpoint shapes it: a caption, then an image
    without data, then an image with data. *)
Definition caption_part : Response.Part :=
  Response.mkPart None (Some "Here is your image").

Definition hollow_image_part : Response.Part :=
  Response.mkPart (Some (Response.mkInlineData (Some "image/png") None)) None.

Definition png_part : Response.Part :=
  Response.mkPart
    (Some (Response.mkInlineData (Some "image/png") (Some "iVBORw0KGgo=")))
    None.

Definition answer_of (l : list Response.Part) : Response.t :=
  Response.mk
    (Some [Response.mkCandidate
             (Some (Response.mkContent (Some l) (Some "model")))
             (Some "STOP")]).

(** A decoder that accepts everything and an endpoint that always answers
    with a caption and a PNG. *)
Definition lenient_decoder : string -> option bytes := fun _ => Some [].

Definition steady_endpoint : Request -> Run Response.t :=
  fun _ => Done (answer_of [caption_part; png_part]).

(** A world for the generation loop: the endpoint times out at the first
    turn and answers with a PNG afterwards; the clock advances by one
    millisecond a turn. *)
Definition flaky_endpoint (i : Z) : Request -> Run Response.t :=
  fun _ =>
    if (i =? 0)%Z then Raised "Read timed out"
    else Done (answer_of [png_part]).

Definition clock (i : Z) : Z := (1762128000000 + i)%Z.

Definition one_uuid (i : Z) : string := "1b9d6bcd-bbfd-4b2d-9b5d-ab8dfbbd4bed".

(** The images of a list are numbered in increasing order. *)
Definition in_turn_order (l : list GeneratedImage) : Prop :=
  forall (j k : nat) (a b : GeneratedImage),
    l !! j = Some a -> l !! k = Some b -> j < k ->
    (gi_index a < gi_index b)%Z.

(** The upload widgets of the form, as the tabs call [handle_image_upload]:
    the session key each one writes under, the image type it hands to the
    storage layer, and the source of the assembler that reads the entry. *)
Definition upload_widgets : list (string * string * Source) :=
  [ ("model_ref", "model_ref", FromModel);
    ("outfit", "outfit", FromOutfit);
    ("jewelry_neck", "jewelry_neck", FromNeck);
    ("jewelry_ears", "jewelry_ears", FromEars);
    ("jewelry_hands", "jewelry_hands", FromHands);
    ("environment", "background", FromEnvironment);
    ("pose", "pose", FromPose);
    ("hair", "hair", FromHair) ].

(** Whether the form lets a source through once it has an image: the
    jewelry locations have a checkbox, the other sources do not. *)
Definition enabled_in_form (ss : SessionState.t) (src : Source) : bool :=
  match src with
  | FromNeck => get_flag ss "jewelry_neck_enabled" false
  | FromEars => get_flag ss "jewelry_ears_enabled" false
  | FromHands => get_flag ss "jewelry_hands_enabled" false
  | _ => true
  end.

(** An empty form. *)
Definition empty_form : SessionState.t :=
  SessionState.mk [] [] None None None None.

(** A form whose list holds three items. *)
Definition form_with_items : SessionState.t :=
  SessionState.mk [] [] None None None (Some three_items).

(** What the legacy assembler uses of the old configuration: its four
    sources in the order they are taken, each with the label it is
    registered under. *)
Definition legacy_rows (assets : LegacyAssets.t) : list (string * Row) :=
  [ ("primary_clothing",
     mkRow (Py.truthy (LegacyAssets.primary_url assets))
       "the primary clothing reference image"
       "REFERENCE IMAGE - PRIMARY CLOTHING: This is the main clothing reference image."
       (Py.get (LegacyAssets.primary_url assets) ""));
    ("pose",
     mkRow (Py.truthy (LegacyAssets.pose_ref_url assets))
       "the pose reference image"
       "REFERENCE IMAGE - POSE: This image shows the pose to mimic."
       (Py.get (LegacyAssets.pose_ref_url assets) ""));
    ("accessory",
     mkRow (Py.truthy (LegacyAssets.accessory_ref_url assets))
       "the accessory reference image"
       "REFERENCE IMAGE - ACCESSORY: This image shows an accessory to add."
       (Py.get (LegacyAssets.accessory_ref_url assets) ""));
    ("background",
     mkRow (Py.truthy (LegacyAssets.background_ref_url assets))
       "the background reference image"
       "REFERENCE IMAGE - BACKGROUND: This image shows the background to use."
       (Py.get (LegacyAssets.background_ref_url assets) "")) ].

(** * Properties *)

(** ** Python strings *)

Lemma lstrip_blank s : blank s = true -> Py.lstrip s = "".
Proof.
  unfold blank. induction s as [|c r IH]; simpl; [done|].
  intros [Hc Hr]%andb_true_iff. rewrite Hc. auto.
Qed.

Lemma lstrip_not_blank s : blank s = false -> blank (Py.lstrip s) = false.
Proof.
  unfold blank. induction s as [|c r IH]; simpl; [done|].
  destruct (Py.isspace c) eqn:Hc; simpl; [auto|].
  intros _. simpl. by rewrite Hc.
Qed.

Lemma rstrip_empty_iff s : Py.rstrip s = "" <-> blank s = true.
Proof.
  unfold blank. induction s as [|c r IH]; simpl; [done|].
  destruct (Py.rstrip r) as [|c' r'] eqn:Hr.
  - destruct (Py.isspace c); simpl; [tauto|].
    split; intros; discriminate.
  - split; [discriminate|].
    intros [_ Hb]%andb_true_iff. apply IH in Hb. discriminate.
Qed.

(** Stripping leaves nothing exactly when the string is blank: a supplied
    text is one that holds a character that is not whitespace. *)
Lemma strip_empty_iff s : Py.strip s = "" <-> blank s = true.
Proof.
  unfold Py.strip. split; intros H.
  - apply rstrip_empty_iff in H.
    destruct (blank s) eqn:Hs; [done|].
    apply lstrip_not_blank in Hs. congruence.
  - by rewrite (lstrip_blank _ H).
Qed.

Lemma not_blank_char s :
  blank s = false ->
  exists c, In c (list_ascii_of_string s) /\ Py.isspace c = false.
Proof.
  unfold blank. induction (list_ascii_of_string s) as [|c l IH]; simpl.
  - discriminate.
  - destruct (Py.isspace c) eqn:Hc; simpl.
    + intros (c' & Hin & Hc')%IH. exists c'. auto.
    + intros _. exists c. auto.
Qed.

Lemma supplied_not_blank o :
  supplied o <->
  exists s, o = Some s /\
    exists c, In c (list_ascii_of_string s) /\ Py.isspace c = false.
Proof.
  unfold supplied. split; intros (s & -> & H); exists s; split; try done.
  - apply not_blank_char. destruct (blank s) eqn:Hb; [|done].
    apply strip_empty_iff in Hb. done.
  - destruct H as (c & Hin & Hc). intros Hs%strip_empty_iff.
    unfold blank in Hs.
    destruct (forallb_forall Py.isspace (list_ascii_of_string s)) as [Hall _].
    specialize (Hall Hs c Hin). congruence.
Qed.

(** The test [bool(text and text.strip())] of [determine_method]. *)
Lemma has_text_supplied (o : option string) :
  match o with
  | Some t => Py.truthy o && Py.truthy (Some (Py.strip t))
  | None => false
  end = true <-> supplied o.
Proof.
  unfold supplied. destruct o as [t|].
  - split.
    + intros [_ H]%andb_true_iff. exists t. split; [done|].
      destruct (Py.strip t); [discriminate|done].
    + intros (s & [= <-] & Hs). apply andb_true_iff. split.
      * destruct t; [|done]. by destruct Hs.
      * destruct (Py.strip t); [by destruct Hs|done].
  - split; [discriminate|]. by intros (s & ? & _).
Qed.

(** ** The method resolver *)

(** C4.  For every text, image URL and default, [determine_method] returns
    a method, one of the three fixed ones or the default (it is a total
    function), and follows the precedence table:
    text and image both supplied give [text_and_image], text alone gives
    [text_description], an image alone gives [image_reference], and neither
    gives the default handed in by the caller. *)
Theorem determine_method_table (text image_url : option string)
    (default : string) :
  In (determine_method text image_url default)
    ["text_and_image"; "text_description"; "image_reference"; default]
  /\ (supplied text -> supplied image_url ->
     determine_method text image_url default = "text_and_image") /\
  (supplied text -> ~ supplied image_url ->
     determine_method text image_url default = "text_description") /\
  (~ supplied text -> supplied image_url ->
     determine_method text image_url default = "image_reference") /\
  (~ supplied text -> ~ supplied image_url ->
     determine_method text image_url default = default).
Proof.
  unfold determine_method.
  pose proof (has_text_supplied text) as Ht.
  pose proof (has_text_supplied image_url) as Hi.
  destruct (match text with Some _ => _ | None => _ end);
    destruct (match image_url with Some _ => _ | None => _ end);
    cbn [andb]; (split; [simpl; tauto|]);
    repeat split; intros; try reflexivity;
    exfalso; intuition discriminate.
Qed.

Lemma determine_method_table_witness :
  determine_method (Some "  red silk  ") (Some "https://cdn/ref.jpg") "auto"
    = "text_and_image"
  /\ determine_method (Some "red silk") (Some "  ") "auto" = "text_description"
  /\ determine_method None (Some "https://cdn/ref.jpg") "none" = "image_reference"
  /\ determine_method (Some "") None "none" = "none".
Proof.
  split; [|split; [|split]].
  - apply (proj2 (determine_method_table (Some "  red silk  ")
             (Some "https://cdn/ref.jpg") "auto"));
      eexists; (split; [reflexivity | vm_compute; discriminate]).
  - apply (proj2 (determine_method_table (Some "red silk") (Some "  ") "auto")).
    + eexists; (split; [reflexivity | vm_compute; discriminate]).
    + intros (s & [= <-] & Hs). by apply Hs.
  - apply (proj2 (determine_method_table None (Some "https://cdn/ref.jpg") "none")).
    + by intros (s & ? & _).
    + eexists; (split; [reflexivity | vm_compute; discriminate]).
  - apply (proj2 (determine_method_table (Some "") None "none")).
    + intros (s & [= <-] & Hs). by apply Hs.
    + by intros (s & ? & _).
Defined.

(** ** The image part assembler *)

Section AssemblerFacts.

Variable fetch : string -> option string.
Variable config : Config.t.

Lemma label_of_inj (a b : Source) : label_of a = label_of b -> a = b.
Proof.
  destruct a, b; cbv [label_of String.append]; intros H;
    try discriminate H; try reflexivity.
  injection H as H. f_equal. by apply (inj pretty).
Qed.

Lemma walked_url_truthy (src : Source) :
  walked (row_of config src) = true ->
  Py.truthy (Some (url (row_of config src))) = true.
Proof.
  assert (forall o : option string,
            Py.truthy o = true -> Py.truthy (Some (Py.get o "")) = true) as H.
  { by intros [[|]|]. }
  destruct src as [| |idx| | | | | |]; unfold row_of, jewelry_row;
    try (destruct (_ !! idx) as [item|]; [unfold item_row|]);
    cbn [walked url]; try discriminate;
    try (intros [_ ?]%andb_true_iff); auto.
Qed.

Lemma walk_step_walked (src : Source) parts m :
  walked (row_of config src) = true ->
  walk_step fetch config (parts, m) src
  = (parts ++ contribution fetch (row_of config src),
     <[label_of src := description (row_of config src)]> m).
Proof.
  intros Hw. pose proof (walked_url_truthy src Hw) as Hu.
  unfold walk_step, contribution, add_section, _add_image_part.
  rewrite Hw. simpl Py.get. rewrite Hu.
  destruct (fetch _); by rewrite <- ?app_assoc.
Qed.

Lemma walk_step_skipped (src : Source) st :
  walked (row_of config src) = false ->
  walk_step fetch config st src = st
  /\ contribution fetch (row_of config src) = [].
Proof. intros Hw. unfold walk_step, contribution. by rewrite Hw. Qed.

(** The parts of a walk over [srcs]: the contributions of the sources, in
    the order of [srcs], after the parts already there. *)
Lemma walk_parts (srcs : list Source) parts m :
  (fold_left (walk_step fetch config) srcs (parts, m)).1
  = parts ++ concat (map (fun src => contribution fetch (row_of config src)) srcs).
Proof.
  revert parts m. induction srcs as [|src srcs IH]; intros parts m; simpl.
  - by rewrite app_nil_r.
  - destruct (walked (row_of config src)) eqn:Hw.
    + rewrite walk_step_walked by done. rewrite IH. by rewrite app_assoc.
    + destruct (walk_step_skipped src (parts, m) Hw) as [-> ->]. apply IH.
Qed.

(** Every label found after a walk was there before or belongs to a walked
    source of [srcs]. *)
Lemma walk_labels_sound (srcs : list Source) parts m k v :
  (fold_left (walk_step fetch config) srcs (parts, m)).2 !! k = Some v ->
  m !! k = Some v
  \/ exists src, In src srcs /\ walked (row_of config src) = true
       /\ k = label_of src /\ v = description (row_of config src).
Proof.
  revert parts m. induction srcs as [|src srcs IH]; intros parts m; simpl.
  - auto.
  - destruct (walked (row_of config src)) eqn:Hw.
    + rewrite walk_step_walked by done. intros [H|H]%IH.
      * destruct (decide (label_of src = k)) as [<-|Hne].
        -- rewrite lookup_insert_eq in H. injection H as <-.
           right. exists src. auto.
        -- rewrite lookup_insert_ne in H by done. auto.
      * right. destruct H as (src' & ? & ?). exists src'. auto.
    + destruct (walk_step_skipped src (parts, m) Hw) as [-> _].
      intros [H|H]%IH; [auto|].
      right. destruct H as (src' & ? & ?). exists src'. auto.
Qed.

Lemma walk_labels_keep (srcs : list Source) parts m src :
  m !! label_of src = Some (description (row_of config src)) ->
  (fold_left (walk_step fetch config) srcs (parts, m)).2 !! label_of src
  = Some (description (row_of config src)).
Proof.
  revert parts m. induction srcs as [|src' srcs IH]; intros parts m Hm; simpl.
  - done.
  - destruct (walked (row_of config src')) eqn:Hw.
    + rewrite walk_step_walked by done. apply IH.
      destruct (decide (label_of src' = label_of src)) as [He|Hne].
      * apply label_of_inj in He as ->. by rewrite lookup_insert_eq.
      * by rewrite lookup_insert_ne.
    + destruct (walk_step_skipped src' (parts, m) Hw) as [-> _]. by apply IH.
Qed.

(** Every walked source of [srcs] has its label registered. *)
Lemma walk_labels_complete (srcs : list Source) parts m src :
  In src srcs -> walked (row_of config src) = true ->
  (fold_left (walk_step fetch config) srcs (parts, m)).2 !! label_of src
  = Some (description (row_of config src)).
Proof.
  revert parts m. induction srcs as [|src' srcs IH]; intros parts m Hin Hw;
    simpl; [done|].
  destruct Hin as [->|Hin].
  - rewrite walk_step_walked by done. apply walk_labels_keep.
    by rewrite lookup_insert_eq.
  - destruct (walked (row_of config src')) eqn:Hw'.
    + rewrite walk_step_walked by done. by apply IH.
    + destruct (walk_step_skipped src' (parts, m) Hw') as [-> _]. by apply IH.
Qed.

(** The loop over the additional items is the walk over their indices. *)
Lemma fold_add_item (l : list Item.t) (off : nat) st c :
  (forall i item, l !! i = Some item ->
     Py.get (Config.additional_items config) [] !! (off + i) = Some item) ->
  (fold_left (add_item fetch) (combine (seq off (length l)) l) (st, c)).1
  = fold_left (walk_step fetch config) (map FromItem (seq off (length l))) st.
Proof.
  revert off st c. induction l as [|item l IH]; intros off st c Hl;
    cbn [length seq combine map fold_left].
  - done.
  - assert (row_of config (FromItem off) = item_row item) as Hrow.
    { simpl. specialize (Hl 0 item eq_refl).
      rewrite Nat.add_0_r in Hl. by rewrite Hl. }
    assert (walk_step fetch config st (FromItem off)
            = (add_item fetch (st, c) (off, item)).1) as ->.
    { unfold walk_step. rewrite Hrow. unfold add_item, item_row. simpl.
      destruct (Py.truthy (Item.image_url item)) eqn:Hu; simpl; [|done].
      destruct (Item.image_url item) as [[|]|]; done. }
    destruct (add_item fetch (st, c) (off, item)) as [st' c'] eqn:Ha. simpl.
    apply IH. intros i it Hi. specialize (Hl (S i) it Hi).
    by replace (S off + i) with (off + S i) by lia.
Qed.

(** [prepare_image_parts] walks the sources in the fixed section order. *)
Lemma prepare_image_parts_walk :
  prepare_image_parts fetch config
  = fold_left (walk_step fetch config) (section_order config) ([], ∅).
Proof.
  unfold section_order. rewrite !fold_left_app.
  unfold prepare_image_parts, enumerate.
  pose proof (fold_add_item (Py.get (Config.additional_items config) []) 0)
    as Hitems.
  set (st2 := fold_left (walk_step fetch config) [FromModel; FromOutfit] ([], ∅)).
  specialize (Hitems st2 0%Z (fun i item H => H)).
  match goal with
  | |- context [fold_left (add_item fetch) ?l ?s] =>
      change s with (st2, 0%Z)
  end.
  destruct (fold_left (add_item fetch) _ (st2, 0%Z)) as [st3 c] eqn:Hfold.
  cbn [fst] in Hitems. rewrite <- Hitems. reflexivity.
Qed.

End AssemblerFacts.

Lemma inline_images_contribution (fetch : string -> option string) (r : Row) :
  inline_images (contribution fetch r)
  = if walked r && is_some (fetch (url r)) then 1 else 0.
Proof.
  unfold inline_images, contribution.
  destruct (walked r); [|done]. by destruct (fetch (url r)).
Qed.

Lemma walked_in_order (config : Config.t) (src : Source) :
  walked (row_of config src) = true -> In src (section_order config).
Proof.
  unfold section_order. intros Hw.
  destruct src as [| |idx| | | | | |];
    try (simpl; tauto);
    try (apply in_or_app; right; apply in_or_app; right; simpl; tauto).
  apply in_or_app. right. apply in_or_app. left.
  apply in_map, in_seq. simpl in Hw.
  destruct (_ !! idx) as [item|] eqn:Hi; [|discriminate].
  apply lookup_lt_Some in Hi. lia.
Qed.

Lemma label_registered_iff (fetch : string -> option string)
    (config : Config.t) (src : Source) :
  (prepare_image_parts fetch config).2 !! label_of src
  = if walked (row_of config src)
    then Some (description (row_of config src)) else None.
Proof.
  rewrite prepare_image_parts_walk.
  destruct (walked (row_of config src)) eqn:Hw.
  - apply walk_labels_complete; [by apply walked_in_order | done].
  - destruct (_ !! label_of src) as [v|] eqn:Hv; [|done].
    apply walk_labels_sound in Hv as [Hv | (src' & _ & Hw' & He & _)].
    + by rewrite lookup_empty in Hv.
    + apply label_of_inj in He as ->. congruence.
Qed.

(** C1 (as amended).  The label mapping follows the sources that are
    walked, not the fetches that succeed.  The parts are the contributions
    of the sources in section order; a label is in the mapping exactly when
    its source is walked (its image URL is set and, for jewelry, the
    location is enabled), and every key of the mapping is the label of a
    source in the order; a source contributes its instruction exactly when
    it is walked, and one inline-image part when it is walked and its fetch
    succeeds, none otherwise.  Hence mapping and inline-image parts are in
    lockstep when every fetch of a walked source succeeds. *)
Theorem labels_follow_walked_sources (fetch : string -> option string)
    (config : Config.t) :
  (prepare_image_parts fetch config).1
  = concat (map (fun src => contribution fetch (row_of config src))
              (section_order config))
  /\ (forall src,
        is_Some ((prepare_image_parts fetch config).2 !! label_of src)
        <-> walked (row_of config src) = true)
  /\ (forall k,
        is_Some ((prepare_image_parts fetch config).2 !! k) ->
        exists src, In src (section_order config) /\ k = label_of src)
  /\ (forall src,
        In (text (instruction (row_of config src)))
          (contribution fetch (row_of config src))
        <-> walked (row_of config src) = true)
  /\ (forall src,
        inline_images (contribution fetch (row_of config src))
        = if walked (row_of config src)
             && is_some (fetch (url (row_of config src)))
          then 1 else 0)
  /\ ((forall src, walked (row_of config src) = true ->
         is_Some (fetch (url (row_of config src)))) ->
      forall src, lockstep fetch config src).
Proof.
  assert (forall src,
            is_Some ((prepare_image_parts fetch config).2 !! label_of src)
            <-> walked (row_of config src) = true) as Hlabel.
  { intros src. rewrite label_registered_iff.
    destruct (walked (row_of config src)); split; intros H;
      try done; try (by eexists); by destruct H. }
  split; [|split; [|split; [|split; [|split]]]].
  - rewrite prepare_image_parts_walk. apply (walk_parts fetch config _ []).
  - exact Hlabel.
  - intros k [v Hv]. rewrite prepare_image_parts_walk in Hv.
    apply walk_labels_sound in Hv as [Hv | (src & Hin & _ & -> & _)].
    + by rewrite lookup_empty in Hv.
    + by exists src.
  - intros src. unfold contribution.
    destruct (walked (row_of config src)); split; intros H;
      try done; by left.
  - intros src. apply inline_images_contribution.
  - intros Hfetch src. unfold lockstep.
    rewrite inline_images_contribution.
    split.
    + intros Hw%Hlabel. rewrite Hw. destruct (Hfetch src Hw) as [d ->]. done.
    + intros H. apply Hlabel.
      destruct (walked (row_of config src)); [done | discriminate].
Qed.

Lemma labels_follow_walked_sources_witness :
  lockstep online model_image_only FromModel.
Proof.
  apply (labels_follow_walked_sources online model_image_only).
  intros src _. unfold online. by eexists.
Defined.

(** C1 (as stated) fails when a fetch fails: with the network down, the
    model image contributes its instruction and no inline-image part, and
    its label is registered all the same. *)
Lemma label_kept_when_fetch_fails :
  prepare_image_parts offline model_image_only
  = ([text "REFERENCE IMAGE 1 - MODEL: This image shows the model reference. Use the model's face and appearance from this image."],
     {[ "model_ref" := "the model reference image (Image 1)" ]})
  /\ inline_images (contribution offline (row_of model_image_only FromModel)) = 0
  /\ ~ lockstep offline model_image_only FromModel.
Proof.
  assert (prepare_image_parts offline model_image_only
          = ([text "REFERENCE IMAGE 1 - MODEL: This image shows the model reference. Use the model's face and appearance from this image."],
             {[ "model_ref" := "the model reference image (Image 1)" ]})) as He.
  { reflexivity. }
  split; [exact He|]. split; [reflexivity|].
  unfold lockstep. rewrite He. intros [H _].
  assert (0 = 1) as Hn; [|discriminate Hn].
  apply H. simpl label_of. cbn [snd]. rewrite lookup_singleton_eq. by eexists.
Qed.

(** ** Order of the form entries *)

(** A lookup by key does not depend on the order of the entries, as long
    as no key occurs twice. *)
Lemma assoc_permutation {A : Type} (key : string) (l l' : list (string * A)) :
  NoDup (map fst l) -> Permutation l l' -> assoc key l = assoc key l'.
Proof.
  intros Hnd Hp.
  induction Hp as [|[k v] l l' Hp IH|[k1 v1] [k2 v2] l|l l' l'' Hp1 IH1 Hp2 IH2].
  - done.
  - simpl. apply NoDup_cons in Hnd as [_ Hnd]. by rewrite IH.
  - simpl in *.
    destruct (String.eqb_spec k1 key) as [->|]; [|done].
    destruct (String.eqb_spec k2 key) as [->|]; [|done].
    apply NoDup_cons in Hnd as [Hnd _]. destruct Hnd. by left.
  - rewrite IH1 by done. apply IH2.
    by rewrite <- (Permutation_map fst Hp1).
Qed.

Lemma build_config_ext (ss ss' : SessionState.t) (job_id : string) :
  (forall key, assoc key (SessionState.strings ss)
               = assoc key (SessionState.strings ss')) ->
  (forall key, assoc key (SessionState.flags ss)
               = assoc key (SessionState.flags ss')) ->
  SessionState.image_count ss = SessionState.image_count ss' ->
  SessionState.pose_strength ss = SessionState.pose_strength ss' ->
  SessionState.selected_garments ss = SessionState.selected_garments ss' ->
  SessionState.additional_items ss = SessionState.additional_items ss' ->
  build_config ss job_id = build_config ss' job_id.
Proof.
  intros Hs Hf Hc Hp Hg Hi.
  unfold build_config, jewelry_location, get_str, get_flag.
  rewrite Hc, Hp, Hg, Hi.
  repeat rewrite Hs. repeat rewrite Hf. reflexivity.
Qed.

(** C7.  The part sequence is the concatenation, in the fixed section
    order (model reference, base outfit, additional items in list order,
    jewelry at the neck, the ears and the hands and wrists, environment,
    pose, hair), of what each source contributes; and it does not depend on
    the order in which the form entries the configuration is built from were
    filled in. *)
Theorem parts_follow_section_order (fetch : string -> option string) :
  (forall config,
     (prepare_image_parts fetch config).1
     = concat (map (fun src => contribution fetch (row_of config src))
                 ([FromModel; FromOutfit]
                  ++ map FromItem
                       (seq 0 (length (Py.get (Config.additional_items config) [])))
                  ++ [FromNeck; FromEars; FromHands;
                      FromEnvironment; FromPose; FromHair])))
  /\ (forall ss ss' job_id,
        NoDup (map fst (SessionState.strings ss)) ->
        NoDup (map fst (SessionState.flags ss)) ->
        Permutation (SessionState.strings ss) (SessionState.strings ss') ->
        Permutation (SessionState.flags ss) (SessionState.flags ss') ->
        SessionState.image_count ss = SessionState.image_count ss' ->
        SessionState.pose_strength ss = SessionState.pose_strength ss' ->
        SessionState.selected_garments ss = SessionState.selected_garments ss' ->
        SessionState.additional_items ss = SessionState.additional_items ss' ->
        prepare_image_parts fetch (build_config ss job_id)
        = prepare_image_parts fetch (build_config ss' job_id)).
Proof.
  split.
  - intros config. rewrite prepare_image_parts_walk.
    apply (walk_parts fetch config _ []).
  - intros ss ss' job_id Hn1 Hn2 Hp1 Hp2 Hc Hp Hg Hi.
    f_equal. apply build_config_ext; try done.
    + intros key. by apply assoc_permutation.
    + intros key. by apply assoc_permutation.
Qed.

Lemma parts_follow_section_order_witness :
  prepare_image_parts online (build_config form_a "job_1f3a9c2e")
  = prepare_image_parts online (build_config form_b "job_1f3a9c2e").
Proof.
  apply (parts_follow_section_order online); try reflexivity.
  - apply (bool_decide_unpack _). vm_compute. exact I.
  - apply (bool_decide_unpack _). vm_compute. exact I.
  - simpl.
    eapply perm_trans; [apply perm_skip, perm_swap|].
    eapply perm_trans; [apply perm_swap|].
    eapply perm_trans; [apply perm_skip, perm_swap|].
    apply Permutation_refl.
Defined.

(** ** The batch variation injector *)

Lemma pick_nth_error (variations : list string) (i : Z) :
  variations <> [] ->
  nth_error variations (Z.to_nat (i mod Z.of_nat (length variations)))
  = Some (pick variations i).
Proof.
  intros Hne. unfold pick. apply nth_error_nth'.
  assert (0 < Z.of_nat (length variations))%Z.
  { destruct variations; [done | simpl; lia]. }
  pose proof (Z.mod_pos_bound i (Z.of_nat (length variations))). lia.
Qed.

Lemma pick_mod (variations : list string) (i : Z) :
  pick variations (i mod Z.of_nat (length variations)) = pick variations i.
Proof. unfold pick. by rewrite Zmod_mod. Qed.

(** C6.  For every base prompt and every batch index, [generate_image]
    takes the phrase at position [batch_index mod 10] of the ten
    dynamic-angle phrases, or at position [batch_index mod 5] of the five
    subtle-variation phrases, and puts it before the base prompt, followed
    by a period and a space.  The choice is a function of the index modulo
    the length of the list. *)
Theorem final_prompt_variation (prompt : string) (batch_index : Z) :
  length dynamic_angles_variations = 10
  /\ length subtle_variations = 5
  /\ (exists phrase,
        nth_error dynamic_angles_variations (Z.to_nat (batch_index mod 10))
        = Some phrase
        /\ final_prompt prompt (Some batch_index) (Some "dynamic_angles")
           = phrase +:+ ". " +:+ prompt)
  /\ (exists phrase,
        nth_error subtle_variations (Z.to_nat (batch_index mod 5))
        = Some phrase
        /\ final_prompt prompt (Some batch_index) (Some "subtle_variations")
           = phrase +:+ ". " +:+ prompt)
  /\ final_prompt prompt (Some batch_index) (Some "dynamic_angles")
     = final_prompt prompt (Some (batch_index mod 10)%Z) (Some "dynamic_angles")
  /\ final_prompt prompt (Some batch_index) (Some "subtle_variations")
     = final_prompt prompt (Some (batch_index mod 5)%Z) (Some "subtle_variations").
Proof.
  split; [reflexivity|]. split; [reflexivity|].
  split; [|split; [|split]].
  - exists (pick dynamic_angles_variations batch_index). split; [|reflexivity].
    by apply (pick_nth_error dynamic_angles_variations).
  - exists (pick subtle_variations batch_index). split; [|reflexivity].
    by apply (pick_nth_error subtle_variations).
  - unfold final_prompt. cbn [is_some is_str andb Py.get].
    change (String.eqb "dynamic_angles" "dynamic_angles") with true.
    cbn iota. f_equal. symmetry.
    apply (pick_mod dynamic_angles_variations).
  - unfold final_prompt. cbn [is_some is_str andb Py.get].
    change (String.eqb "subtle_variations" "dynamic_angles") with false.
    change (String.eqb "subtle_variations" "subtle_variations") with true.
    cbn iota. f_equal. symmetry.
    apply (pick_mod subtle_variations).
Qed.

(** C10.  Without a batch index, or with a batch variety that is neither
    [dynamic_angles] nor [subtle_variations] (none at all included), the
    prompt is left as it is: the request starts with exactly the base
    prompt, followed by the image parts. *)
Theorem final_prompt_unchanged (prompt : string) (image_parts : list Part)
    (batch_index : option Z) (batch_variety : option string) :
  batch_index = None
  \/ (batch_variety <> Some "dynamic_angles"
      /\ batch_variety <> Some "subtle_variations") ->
  final_prompt prompt batch_index batch_variety = prompt
  /\ request_parts prompt image_parts batch_index batch_variety
     = text prompt :: image_parts.
Proof.
  intros H.
  assert (final_prompt prompt batch_index batch_variety = prompt) as He.
  { unfold final_prompt. destruct H as [->|[H1 H2]]; [done|].
    destruct batch_variety as [v|]; simpl; [|by rewrite !andb_false_r].
    destruct (String.eqb_spec v "dynamic_angles") as [->|_]; [done|].
    destruct (String.eqb_spec v "subtle_variations") as [->|_]; [done|].
    by rewrite !andb_false_r. }
  split; [exact He|]. unfold request_parts. by rewrite He.
Qed.

Lemma final_prompt_unchanged_witness :
  (final_prompt "A portrait." None (Some "dynamic_angles") = "A portrait."
   /\ request_parts "A portrait." [] None (Some "dynamic_angles")
      = [text "A portrait."])
  /\ (final_prompt "A portrait." (Some 3%Z) (Some "wild") = "A portrait."
      /\ request_parts "A portrait." [] (Some 3%Z) (Some "wild")
         = [text "A portrait."])
  /\ (final_prompt "A portrait." (Some 3%Z) None = "A portrait."
      /\ request_parts "A portrait." [] (Some 3%Z) None
         = [text "A portrait."]).
Proof.
  split; [|split].
  - apply (final_prompt_unchanged "A portrait." [] None (Some "dynamic_angles")).
    by left.
  - apply (final_prompt_unchanged "A portrait." [] (Some 3%Z) (Some "wild")).
    right. split; discriminate.
  - apply (final_prompt_unchanged "A portrait." [] (Some 3%Z) None).
    right. split; discriminate.
Defined.

(** ** The prompt composer *)

Lemma append_empty_r (s : string) : s +:+ "" = s.
Proof.
  induction s as [|c s IH]; [done|].
  change (String c (s +:+ "") = String c s). by rewrite IH.
Qed.

Lemma append_assoc (a b c : string) : (a +:+ b) +:+ c = a +:+ b +:+ c.
Proof.
  induction a as [|x a IH]; [done|].
  change (String x ((a +:+ b) +:+ c) = String x (a +:+ b +:+ c)).
  by rewrite IH.
Qed.

Lemma prefix_append (p s : string) : String.prefix p (p +:+ s) = true.
Proof.
  induction p as [|c p IH]; [by destruct s|].
  change (String.prefix (String c p) (String c (p +:+ s)) = true).
  cbn [String.prefix]. by destruct (ascii_dec c c).
Qed.

Lemma directive_marked : ~ unmarked consistency_directive.
Proof. intros H. specialize (H ""). by rewrite prefix_append in H. Qed.

Lemma unmarked_not_directive (l : list string) :
  Forall unmarked l -> ~ In consistency_directive l.
Proof.
  intros Hl Hin. rewrite Forall_forall in Hl.
  apply directive_marked, Hl. by apply list_elem_of_In.
Qed.

Ltac solve_unmarked := intros ?; reflexivity.

Ltac split_fragments :=
  repeat first
    [ apply Forall_nil_2
    | apply Forall_cons_2; [solve_unmarked|]
    | progress cbn [append extend app]
    | case_match ].

Lemma model_reference_unmarked model_ref image_mapping :
  Forall unmarked (build_model_reference_prompt model_ref image_mapping).
Proof. unfold build_model_reference_prompt. split_fragments. Qed.

Lemma outfit_unmarked outfit image_mapping :
  Forall unmarked (build_outfit_prompt outfit image_mapping).
Proof. unfold build_outfit_prompt. split_fragments. Qed.

Lemma additional_items_unmarked items image_mapping :
  Forall unmarked (build_additional_items_prompt items image_mapping).
Proof.
  unfold build_additional_items_prompt.
  destruct items; [constructor|].
  destruct (fold_left _ _ _); split_fragments.
Qed.

Lemma jewelry_unmarked jewelry image_mapping :
  Forall unmarked (build_jewelry_prompt jewelry image_mapping).
Proof.
  unfold build_jewelry_prompt. cbv zeta.
  destruct (describe_location "hands/wrists" _ _ _ _ _ _); split_fragments.
Qed.

Lemma environment_unmarked environment image_mapping :
  Forall unmarked (build_environment_prompt environment image_mapping).
Proof. unfold build_environment_prompt. split_fragments. Qed.

Lemma Forall_append {A : Type} (P : A -> Prop) (l : list A) (x : A) :
  Forall P l -> P x -> Forall P (append l x).
Proof. intros Hl Hx. apply Forall_app_2; [done|]. by constructor. Qed.

Lemma photography_unmarked photography image_mapping fragments :
  build_photography_prompt photography image_mapping = Some fragments ->
  Forall unmarked fragments.
Proof.
  unfold build_photography_prompt. cbv zeta.
  set (settings := match _ with [] => [] | _ => _ end).
  assert (Forall unmarked settings) as Hsettings.
  { unfold settings. split_fragments. }
  set (with_shadows := if _ && negb _ then _ else settings).
  assert (Forall unmarked with_shadows) as Hshadows.
  { unfold with_shadows.
    case_match; [|done]. apply Forall_append; [done|]. solve_unmarked. }
  clearbody with_shadows. clear Hsettings settings.
  set (with_pose := if _ && Py.truthy (Pose.text _) then _ else _).
  intros H. destruct with_pose as [posed|] eqn:Hpose; [|done].
  assert (Forall unmarked posed) as Hposed.
  { unfold with_pose in Hpose.
    destruct (_ && Py.truthy (Pose.text _)).
    - injection Hpose as <-. apply Forall_append; [done|]. solve_unmarked.
    - destruct (_ && Py.truthy (Pose.image_url _)).
      + destruct (int_of_float _); [|discriminate]. simpl in Hpose.
        injection Hpose as <-. apply Forall_append; [done|]. solve_unmarked.
      + by injection Hpose as <-. }
  clear Hpose. simpl in H. injection H as <-.
  destruct (_ && Py.truthy (Hair.text _)).
  { apply Forall_append; [done|]. solve_unmarked. }
  destruct (_ && Py.truthy (Hair.image_url _)).
  { apply Forall_append; [done|]. solve_unmarked. }
  destruct (String.eqb _ "keep_original"); [|done].
  apply Forall_append; [done|]. solve_unmarked.
Qed.

Lemma continues_extend start parts l :
  continues start parts -> Forall unmarked l -> continues start (extend parts l).
Proof.
  intros (body & -> & Hbody) Hl. exists (body ++ l). split.
  - unfold extend. by rewrite app_assoc.
  - by apply Forall_app_2.
Qed.

(** The fragments of the composer: the directive first when several outputs
    are requested, then fragments that do not begin with it, the last of
    which is the quality clause. *)
Lemma build_photoshoot_parts_shape config image_mapping fragments :
  build_photoshoot_parts config image_mapping = Some fragments ->
  exists first rest,
    Forall unmarked (first :: rest)
    /\ fragments
       = (if (1 <? output_count config)%Z then [consistency_directive] else [])
         ++ first :: rest.
Proof.
  unfold build_photoshoot_parts. cbv zeta. fold (output_count config).
  set (start := if (1 <? _)%Z then [consistency_directive] else []).
  set (p0 := if (1 <? _)%Z then append [] consistency_directive else []).
  assert (continues start p0) as H0.
  { exists []. split; [|constructor]. unfold p0, start. by case_match. }
  clearbody p0.
  set (p1 := match Config.model_reference config with
             | Some _ => _ | None => _ end).
  assert (continues start p1) as H1.
  { unfold p1. repeat case_match; try done.
    apply continues_extend; [done | apply model_reference_unmarked]. }
  clearbody p1. clear H0 p0.
  set (p2 := match Config.base_outfit config with
             | Some _ => _ | None => _ end).
  assert (continues start p2) as H2.
  { unfold p2. repeat case_match; try done.
    apply continues_extend; [done | apply outfit_unmarked]. }
  clearbody p2. clear H1 p1.
  set (p3 := match Config.additional_items config with
             | Some (_ :: _) => _ | _ => _ end).
  assert (continues start p3) as H3.
  { unfold p3. repeat case_match; try done.
    apply continues_extend; [done | apply additional_items_unmarked]. }
  clearbody p3. clear H2 p2.
  set (p4 := match Config.jewelry config with
             | Some _ => _ | None => _ end).
  assert (continues start p4) as H4.
  { unfold p4. repeat case_match; try done.
    apply continues_extend; [done | apply jewelry_unmarked]. }
  clearbody p4. clear H3 p3.
  set (p5 := match Config.environment config with
             | Some _ => _ | None => _ end).
  assert (continues start p5) as H5.
  { unfold p5. repeat case_match; try done.
    apply continues_extend; [done | apply environment_unmarked]. }
  clearbody p5. clear H4 p4.
  intros H.
  destruct (match Config.photography config with
            | Some _ => _ | None => _ end) as [p6|] eqn:Hp6; [|done].
  assert (continues start p6) as H6.
  { repeat case_match; simplify_eq; try done.
    destruct (build_photography_prompt _ _) as [photo|] eqn:Hphoto;
      [|done].
    simpl in Hp6. injection Hp6 as <-.
    apply continues_extend; [done|]. by eapply photography_unmarked. }
  simpl in H. injection H as <-.
  destruct H6 as (body & -> & Hbody).
  assert (Forall unmarked (body ++ [build_quality_boost])) as Hall.
  { apply Forall_app_2; [done|]. constructor; [solve_unmarked | constructor]. }
  unfold append. rewrite <- app_assoc.
  destruct (body ++ [build_quality_boost]) as [|first rest] eqn:Hb.
  { by destruct body. }
  by exists first, rest.
Qed.

(** The composer returns whenever the pose percentage can be computed. *)
Lemma build_photoshoot_parts_returns config image_mapping :
  pose_percent_defined config ->
  is_Some (build_photoshoot_parts config image_mapping).
Proof.
  unfold pose_percent_defined, build_photoshoot_parts. cbv zeta.
  intros Hpct.
  destruct (Config.photography config) as [photography|]; [|by eexists].
  destruct (Photography.nonempty photography); [|by eexists].
  simpl in Hpct.
  assert (is_Some (build_photography_prompt photography
                     (Some (or_empty image_mapping)))) as [photo ->];
    [|by eexists].
  unfold build_photography_prompt. cbv zeta.
  destruct (_ && Py.truthy (Pose.text _)); [by eexists|].
  destruct (_ && Py.truthy (Pose.image_url _)); [|by eexists].
  destruct Hpct as [pct ->]. by eexists.
Qed.

Lemma determine_method_auto (text image_url : option string) :
  String.eqb (determine_method text image_url "auto") "reference_image" = false.
Proof. unfold determine_method. by repeat case_match. Qed.

Lemma build_photography_prompt_resolved photography image_mapping text image_url :
  Pose.method (Py.get (Photography.pose photography) Pose.empty)
  = Some (determine_method text image_url "auto") ->
  is_Some (build_photography_prompt photography image_mapping).
Proof.
  intros Hm. unfold build_photography_prompt. cbv zeta.
  rewrite Hm. cbn [Py.get]. rewrite determine_method_auto.
  destruct (_ && Py.truthy (Pose.text _)); by eexists.
Qed.

(** It returns on every configuration made by [build_config]: the pose
    method of such a configuration never selects the percentage. *)
Lemma build_photoshoot_parts_returns_on_form ss job_id image_mapping :
  is_Some (build_photoshoot_parts (build_config ss job_id) image_mapping).
Proof.
  unfold build_photoshoot_parts. cbv zeta.
  cbn [build_config Config.photography Photography.nonempty
       Photography.aesthetic is_some orb].
  match goal with
  | |- context [build_photography_prompt ?p ?m] =>
      destruct (build_photography_prompt_resolved p m
                  (Some (get_str ss "pose_text" ""))
                  (Some (get_str ss "pose_url" "")) eq_refl) as [photo ->]
  end.
  by eexists.
Qed.

Lemma join_cons (sep first : string) (rest : list string) :
  exists tail, Py.join sep (first :: rest) = first +:+ tail.
Proof.
  destruct rest as [|second rest].
  - exists "". simpl. by rewrite append_empty_r.
  - by exists (sep +:+ Py.join sep (second :: rest)).
Qed.

(** C5.  Whenever the composer returns its fragments, the consistency
    directive is one of them if and only if the requested output count is
    greater than 1; it is absent for a count of 1; when present it is the
    first fragment and occurs only there; and the prompt, the fragments
    joined by spaces, begins with the directive exactly in that case. *)
Theorem consistency_directive_iff_batch (config : Config.t)
    (image_mapping : option image_labels) (fragments : list string) :
  build_photoshoot_parts config image_mapping = Some fragments ->
  (In consistency_directive fragments <-> (1 < output_count config)%Z)
  /\ (output_count config = 1%Z -> ~ In consistency_directive fragments)
  /\ ((1 < output_count config)%Z ->
      exists rest, fragments = consistency_directive :: rest
                   /\ ~ In consistency_directive rest)
  /\ build_photoshoot_prompt config image_mapping
     = Some (Py.join " " fragments)
  /\ (String.prefix consistency_directive (Py.join " " fragments) = true
      <-> (1 < output_count config)%Z).
Proof.
  intros Hparts.
  destruct (build_photoshoot_parts_shape _ _ _ Hparts)
    as (first & rest & Hall & ->).
  pose proof (unmarked_not_directive _ Hall) as Hnot.
  assert (build_photoshoot_prompt config image_mapping
          = Some (Py.join " "
                    ((if (1 <? output_count config)%Z
                      then [consistency_directive] else [])
                     ++ first :: rest))) as Hprompt.
  { unfold build_photoshoot_prompt. by rewrite Hparts. }
  destruct (Z.ltb_spec 1 (output_count config)) as [Hlt|Hge];
    cbn [app].
  - split; [split; [done | intros _; by left]|].
    split; [lia|].
    split; [intros _; by exists (first :: rest)|].
    split; [exact Hprompt|].
    split; [done|]. intros _.
    change (Py.join " " (consistency_directive :: first :: rest))
      with (consistency_directive +:+ " " +:+ Py.join " " (first :: rest)).
    apply prefix_append.
  - split; [split; [done | lia]|].
    split; [done|].
    split; [lia|].
    split; [exact Hprompt|].
    split; [|lia]. intros Hprefix. exfalso.
    destruct (join_cons " " first rest) as [tail Htail].
    rewrite Htail in Hprefix.
    apply Forall_cons_1 in Hall as [Hfirst _].
    by rewrite Hfirst in Hprefix.
Qed.

Lemma consistency_directive_iff_batch_witness :
  (exists rest,
     build_photoshoot_parts batch_of_three None
     = Some (consistency_directive :: rest)
     /\ ~ In consistency_directive rest)
  /\ (exists fragments,
        build_photoshoot_parts single_output None = Some fragments
        /\ ~ In consistency_directive fragments).
Proof.
  split.
  - destruct (build_photoshoot_parts batch_of_three None) as [fragments|] eqn:H;
      [|discriminate H].
    destruct (consistency_directive_iff_batch batch_of_three None fragments H)
      as (_ & _ & Hfirst & _).
    destruct (Hfirst eq_refl) as (rest & -> & Hrest). by exists rest.
  - destruct (build_photoshoot_parts single_output None) as [fragments|] eqn:H;
      [|discriminate H].
    destruct (consistency_directive_iff_batch single_output None fragments H)
      as (_ & Habsent & _).
    exists fragments. split; [done|]. by apply Habsent.
Defined.

(** The labels registered by the assembler do not depend on the outcome of
    the fetches. *)
Lemma labels_independent_of_fetch (fetch1 fetch2 : string -> option string)
    (config : Config.t) :
  (prepare_image_parts fetch1 config).2 = (prepare_image_parts fetch2 config).2.
Proof.
  apply map_eq. intros k.
  assert (forall f g v,
            (prepare_image_parts f config).2 !! k = Some v ->
            (prepare_image_parts g config).2 !! k = Some v) as Hstep.
  { intros f g v Hv. pose proof Hv as Hv'.
    rewrite prepare_image_parts_walk in Hv'.
    apply walk_labels_sound in Hv' as [Hv' | (src & _ & Hw & -> & ->)].
    - by rewrite lookup_empty in Hv'.
    - rewrite label_registered_iff. by rewrite Hw. }
  destruct ((prepare_image_parts fetch1 config).2 !! k) as [v|] eqn:H1.
  - symmetry. by apply (Hstep fetch1 fetch2).
  - destruct ((prepare_image_parts fetch2 config).2 !! k) as [v|] eqn:H2;
      [|done].
    apply (Hstep fetch2 fetch1) in H2. congruence.
Qed.

(** C9.  The prompt is a function of the configuration and of the label
    mapping alone: on equal configurations and label mappings with the same
    entries, [build_photoshoot_prompt] returns the same string.  Nor does
    the prompt of a run depend on the network: the mapping handed over by
    the assembler, and so the prompt, is the same whatever the fetches
    return. *)
Theorem build_photoshoot_prompt_deterministic :
  (forall (config1 config2 : Config.t) (mapping1 mapping2 : option image_labels),
     config1 = config2 ->
     (forall k, or_empty mapping1 !! k = or_empty mapping2 !! k) ->
     build_photoshoot_prompt config1 mapping1
     = build_photoshoot_prompt config2 mapping2)
  /\ (forall (fetch1 fetch2 : string -> option string) (config : Config.t),
        build_photoshoot_prompt config
          (Some (prepare_image_parts fetch1 config).2)
        = build_photoshoot_prompt config
            (Some (prepare_image_parts fetch2 config).2)).
Proof.
  split.
  - intros config1 config2 mapping1 mapping2 -> Hm.
    apply map_eq in Hm.
    unfold build_photoshoot_prompt, build_photoshoot_parts. cbv zeta.
    by rewrite Hm.
  - intros fetch1 fetch2 config.
    by rewrite (labels_independent_of_fetch fetch1 fetch2).
Qed.

Lemma build_photoshoot_prompt_deterministic_witness :
  build_photoshoot_prompt batch_of_three None
  = build_photoshoot_prompt batch_of_three (Some ∅).
Proof.
  apply (proj1 build_photoshoot_prompt_deterministic); [reflexivity|].
  intros k. reflexivity.
Defined.

(** ** The jewelry builder *)

Lemma describe_location_keeps name label fallback target loc image_mapping
    jewelry_items x :
  In x jewelry_items ->
  In x (describe_location name label fallback target loc image_mapping
          jewelry_items).
Proof.
  intros Hx. unfold describe_location, append.
  repeat case_match; try done; apply in_or_app; by left.
Qed.

Lemma describe_location_text_and_image name label fallback target loc
    image_mapping jewelry_items t :
  Py.truthy_b (JewelryLoc.enabled loc) = true ->
  JewelryLoc.method loc = Some "text_and_image" ->
  JewelryLoc.text loc = Some t -> t <> "" ->
  describe_location name label fallback target loc image_mapping jewelry_items
  = jewelry_items
    ++ [name +:+ ": " +:+ t +:+ " (extract jewelry from "
        +:+ Py.get (image_mapping !! label) fallback
        +:+ ", ignore person/background)"].
Proof.
  intros He Hm Ht Hne. unfold describe_location. rewrite He, Hm, Ht.
  cbn [Py.get].
  change (String.eqb "text_and_image" "text_description") with false.
  change (String.eqb "text_and_image" "image_reference") with false.
  change (String.eqb "text_and_image" "text_and_image") with true.
  cbn [andb]. destruct t; [done|]. reflexivity.
Qed.

Lemma join_occurs (sep x : string) (l : list string) :
  In x l -> occurs_in x (Py.join sep l).
Proof.
  induction l as [|y l IH]; [done|]. intros [->|Hin].
  - destruct (join_cons sep x l) as [tail ->]. by exists "", tail.
  - destruct l as [|z l]; [done|].
    destruct (IH Hin) as (before & after & He).
    exists (y +:+ sep +:+ before), after.
    change (Py.join sep (y :: z :: l)) with (y +:+ sep +:+ Py.join sep (z :: l)).
    rewrite He. by rewrite !append_assoc.
Qed.

(** C8.  For each jewelry location that is enabled, has the method
    [text_and_image] and a text that is not empty, the jewelry builder
    returns one sentence in which the entry of that location occurs: the
    free text followed by the directive to extract the jewelry from the
    image of that very location, referred to by the description registered
    under the location's own label (or, without a label, by the location's
    own fallback words).  The assembler registers exactly these words under
    that label, and the three locations have different labels and different
    words. *)
Theorem jewelry_text_and_image_names_own_image (jewelry : Jewelry.t)
    (image_mapping : option image_labels) (loc : Location) (t : string) :
  Py.truthy_b (JewelryLoc.enabled (location_of jewelry loc)) = true ->
  JewelryLoc.method (location_of jewelry loc) = Some "text_and_image" ->
  JewelryLoc.text (location_of jewelry loc) = Some t ->
  t <> "" ->
  let ref :=
    Py.get (or_empty image_mapping !! label_of (location_source loc))
      (location_reference loc) in
  (exists sentence,
     build_jewelry_prompt jewelry image_mapping = [sentence]
     /\ occurs_in (text_and_image_entry loc t ref) sentence
     /\ occurs_in t sentence
     /\ occurs_in ("extract jewelry from " +:+ ref) sentence)
  /\ (forall fetch config,
        Config.jewelry config = Some jewelry ->
        Py.truthy (JewelryLoc.image_url (location_of jewelry loc)) = true ->
        (prepare_image_parts fetch config).2 !! label_of (location_source loc)
        = Some (location_reference loc))
  /\ (forall other,
        other <> loc ->
        label_of (location_source other) <> label_of (location_source loc)
        /\ location_reference other <> location_reference loc).
Proof.
  intros He Hm Ht Hne ref.
  split; [|split].
  - assert (exists items,
              In (text_and_image_entry loc t ref) items
              /\ build_jewelry_prompt jewelry image_mapping
                 = ["Jewelry and accessories: " +:+ Py.join ", " items +:+ "."])
      as (items & Hin & Hs).
    { unfold build_jewelry_prompt. cbv zeta.
      match goal with
      | |- context [match ?l with [] => _ | _ :: _ => _ end] =>
          exists l; split;
          [| destruct l eqn:Hl; [exfalso|done]; revert Hl]
      end.
      - destruct loc; cbn [location_of location_source label_of] in *.
        + do 2 apply describe_location_keeps.
          rewrite (describe_location_text_and_image _ _ _ _ _ _ _ t) by done.
          apply in_or_app. right. by left.
        + apply describe_location_keeps.
          rewrite (describe_location_text_and_image _ _ _ _ _ _ _ t) by done.
          apply in_or_app. right. by left.
        + rewrite (describe_location_text_and_image _ _ _ _ _ _ _ t) by done.
          apply in_or_app. right. by left.
      - destruct loc; cbn [location_of] in *.
        + intros Hl.
          assert (In (text_and_image_entry Neck t
                        (Py.get (or_empty image_mapping !! "jewelry_neck")
                           "the neck jewelry reference image")) [])
            as []. rewrite <- Hl.
          do 2 apply describe_location_keeps.
          rewrite (describe_location_text_and_image _ _ _ _ _ _ _ t) by done.
          apply in_or_app. right. by left.
        + intros Hl.
          assert (In (text_and_image_entry Ears t
                        (Py.get (or_empty image_mapping !! "jewelry_ears")
                           "the ear jewelry reference image")) [])
            as []. rewrite <- Hl.
          apply describe_location_keeps.
          rewrite (describe_location_text_and_image _ _ _ _ _ _ _ t) by done.
          apply in_or_app. right. by left.
        + rewrite (describe_location_text_and_image _ _ _ _ _ _ _ t) by done.
          intros Hl. by apply app_eq_nil in Hl as [_ Hl]. }
    eexists. split; [exact Hs|].
    assert (occurs_in (text_and_image_entry loc t ref)
              ("Jewelry and accessories: " +:+ Py.join ", " items +:+ "."))
      as Hentry.
    { destruct (join_occurs ", " _ _ Hin) as (before & after & ->).
      exists ("Jewelry and accessories: " +:+ before), (after +:+ ".").
      by rewrite !append_assoc. }
    split; [exact Hentry|].
    destruct Hentry as (before & after & ->).
    unfold text_and_image_entry. split.
    + exists (before +:+ location_name loc +:+ ": "),
        ((" (extract jewelry from " +:+ ref +:+ ", ignore person/background)")
         +:+ after).
      by rewrite !append_assoc.
    + exists (before +:+ location_name loc +:+ ": " +:+ t +:+ " ("),
        (", ignore person/background)" +:+ after).
      rewrite !append_assoc. reflexivity.
  - intros fetch config Hj Hu. rewrite label_registered_iff.
    destruct loc; cbn [location_of location_source row_of] in *;
      rewrite Hj; cbn [Py.get]; unfold jewelry_row; cbn [walked description];
      by rewrite He, Hu.
  - intros other Hother. by destruct other, loc.
Qed.

Lemma jewelry_text_and_image_names_own_image_witness :
  exists sentence,
    build_jewelry_prompt necklace
      (Some (prepare_image_parts online necklace_config).2) = [sentence]
    /\ occurs_in
         (text_and_image_entry Neck "thin gold chain"
            "the neck jewelry reference image") sentence
    /\ occurs_in "thin gold chain" sentence
    /\ occurs_in "extract jewelry from the neck jewelry reference image"
         sentence.
Proof.
  apply (jewelry_text_and_image_names_own_image necklace
           (Some (prepare_image_parts online necklace_config).2)
           Neck "thin gold chain");
    [reflexivity | reflexivity | reflexivity | discriminate].
Defined.

(** ** The run started by the generate button *)

Lemma has_reference_present (t u : string) :
  has_reference (Some t) (Some u)
  = Done (Py.truthy (Some t) || Py.truthy (Some u)).
Proof. unfold has_reference. simpl. by destruct t. Qed.

Lemma truthy_false (s : string) : Py.truthy (Some s) = false <-> s = "".
Proof. by destruct s. Qed.

(** C2 (as amended).  The run is stopped before any image is prepared
    exactly when the model reference and the base outfit both have neither
    text nor image, and it is never stopped with another message.  A
    configuration made from a form is stopped when these four entries are
    empty and otherwise goes on to prepare the images and to send one
    request per requested output; the composer itself never rejects a
    configuration for lack of content. *)
Theorem generate_stops_iff_no_reference (fetch : string -> option string) :
  (forall config model_reference base_outfit t1 u1 t2 u2,
     Config.model_reference config = Some model_reference ->
     ModelRef.text_description model_reference = Some t1 ->
     ModelRef.image_url model_reference = Some u1 ->
     Config.base_outfit config = Some base_outfit ->
     Outfit.text_description base_outfit = Some t2 ->
     Outfit.image_url base_outfit = Some u2 ->
     (on_generate_clicked fetch config = Stopped no_reference_message
      <-> t1 = "" /\ u1 = "" /\ t2 = "" /\ u2 = "")
     /\ (forall message,
           on_generate_clicked fetch config = Stopped message ->
           message = no_reference_message))
  /\ (forall ss job_id,
        let empty_form :=
          get_str ss "model_ref_text" "" = ""
          /\ get_str ss "model_ref_url" "" = ""
          /\ get_str ss "outfit_text" "" = ""
          /\ get_str ss "outfit_url" "" = "" in
        (empty_form ->
         on_generate_clicked fetch (build_config ss job_id)
         = Stopped no_reference_message)
        /\ (~ empty_form ->
            exists requests,
              on_generate_clicked fetch (build_config ss job_id) = Done requests
              /\ length requests
                 = Z.to_nat (Py.get (SessionState.image_count ss) 2%Z))).
Proof.
  assert (forall config model_reference base_outfit t1 u1 t2 u2,
     Config.model_reference config = Some model_reference ->
     ModelRef.text_description model_reference = Some t1 ->
     ModelRef.image_url model_reference = Some u1 ->
     Config.base_outfit config = Some base_outfit ->
     Outfit.text_description base_outfit = Some t2 ->
     Outfit.image_url base_outfit = Some u2 ->
     exists continuation,
       on_generate_clicked fetch config
       = (if negb (Py.truthy (Some t1) || Py.truthy (Some u1))
             && negb (Py.truthy (Some t2) || Py.truthy (Some u2))
          then Stopped no_reference_message else continuation)
       /\ (forall message, continuation <> Stopped message)
       /\ (is_Some (build_photoshoot_parts config
                      (Some (prepare_image_parts fetch config).2)) ->
           forall meta preset output count variety,
             Config.meta config = Some meta ->
             Meta.platform_preset meta = Some preset ->
             Config.output config = Some output ->
             Output.count output = Some count ->
             Output.batch_variety output = Some variety ->
             exists requests,
               continuation = Done requests
               /\ length requests = Z.to_nat count)) as Hrun.
  { intros config model_reference base_outfit t1 u1 t2 u2 H1 H2 H3 H4 H5 H6.
    unfold on_generate_clicked. rewrite H1, H4. cbn [index bind].
    rewrite H2, H3, H5, H6, !has_reference_present. cbn [bind].
    eexists. split; [reflexivity|]. split.
    - intros message.
      destruct (prepare_image_parts fetch config) as [image_parts image_mapping].
      destruct (build_photoshoot_prompt _ _); [|done]. cbn [returned bind].
      destruct (Config.meta config) as [meta|]; [|done]. cbn [index bind].
      destruct (Meta.platform_preset meta); [|done]. cbn [index bind].
      destruct (Config.output config) as [output|]; [|done]. cbn [index bind].
      destruct (Output.count output); [|done]. cbn [index bind].
      destruct (Output.batch_variety output); done.
    - intros [fragments Hf] meta preset output count variety Hm Hp Ho Hc Hv.
      destruct (prepare_image_parts fetch config) as [image_parts image_mapping].
      unfold build_photoshoot_prompt. cbn [snd] in Hf. rewrite Hf.
      cbn [fmap option_fmap option_map returned bind].
      rewrite Hm. cbn [index bind]. rewrite Hp. cbn [index bind].
      rewrite Ho. cbn [index bind]. rewrite Hc. cbn [index bind].
      rewrite Hv. cbn [index bind].
      eexists. split; [reflexivity|].
      unfold range. by rewrite !length_map, length_seq. }
  split.
  - intros config model_reference base_outfit t1 u1 t2 u2 H1 H2 H3 H4 H5 H6.
    destruct (Hrun _ _ _ _ _ _ _ H1 H2 H3 H4 H5 H6)
      as (continuation & -> & Hnot & _).
    split; [split|].
    + intros H.
      destruct (Py.truthy (Some t1)) eqn:E1; [by destruct (Hnot _ H)|].
      destruct (Py.truthy (Some u1)) eqn:E2; [by destruct (Hnot _ H)|].
      destruct (Py.truthy (Some t2)) eqn:E3; [by destruct (Hnot _ H)|].
      destruct (Py.truthy (Some u2)) eqn:E4; [by destruct (Hnot _ H)|].
      by apply truthy_false in E1, E2, E3, E4.
    + by intros (-> & -> & -> & ->).
    + intros message H.
      destruct (negb _ && negb _); [by injection H | by destruct (Hnot _ H)].
  - intros ss job_id empty_form.
    destruct (Hrun (build_config ss job_id) _ _ _ _ _ _
                eq_refl eq_refl eq_refl eq_refl eq_refl eq_refl)
      as (continuation & -> & _ & Hdone).
    destruct (Hdone (build_photoshoot_parts_returns_on_form _ _ _)
                _ _ _ _ _ eq_refl eq_refl eq_refl eq_refl eq_refl)
      as (requests & -> & Hlen).
    split.
    + by intros (-> & -> & -> & ->).
    + intros Hne. exists requests. split; [|exact Hlen].
      destruct (Py.truthy (Some (get_str ss "model_ref_text" ""))) eqn:E1;
        [done|].
      destruct (Py.truthy (Some (get_str ss "model_ref_url" ""))) eqn:E2;
        [done|].
      destruct (Py.truthy (Some (get_str ss "outfit_text" ""))) eqn:E3;
        [done|].
      destruct (Py.truthy (Some (get_str ss "outfit_url" ""))) eqn:E4;
        [done|].
      apply truthy_false in E1, E2, E3, E4. by destruct Hne.
Qed.

Lemma generate_stops_iff_no_reference_witness :
  exists requests,
    on_generate_clicked offline red_silk_dress = Done requests
    /\ length requests = 1.
Proof.
  apply (proj2 (generate_stops_iff_no_reference offline)
           red_silk_dress_form "job_00000000").
  intros (_ & _ & H & _). discriminate H.
Defined.

(** C2 (as stated) fails: the configuration of scenario 1 passes the
    validation, because its outfit has a text; the images are prepared and
    one request is sent, with a prompt that dresses the model in the red
    silk dress. *)
Lemma red_silk_dress_is_generated :
  on_generate_clicked offline red_silk_dress
  = Done
      [mkRequest
         [text "Slight variation in expression. CRITICAL: Extract and use the EXACT same face from the model reference image. The face features must match exactly. Also extract the body figure and proportions. IGNORE the background, clothing, outfit, accessories, and any other elements. Apply the following outfit as described. Outfit: red silk dress. Environment: professional studio setting. Photography style: aesthetic: commercial, framing: 3/4 body, lighting: soft warm. realistic head to body ratio, ultra-detailed, highly realistic, professional photography, 8k uhd, cinematic lighting, soft natural light, sharp focus, perfect skin texture, lifelike eyes, accurate facial proportions, volumetric depth, subtle shadows, realistic skin tones, detailed hair strands, fine pores, depth of field, masterpiece, award-winning portrait style"]
         "4:5"].
Proof. vm_compute. reflexivity. Qed.

(** ** Sections given by an image *)

(** On a section whose method comes from the resolver, the environment
    builder emits no extraction directive. *)
Lemma resolved_environment_no_directive environment image_mapping text image_url :
  Environment.method environment
  = Some (determine_method text image_url "auto") ->
  Forall (fun fragment => is_extraction_directive fragment = false)
    (build_environment_prompt environment image_mapping).
Proof.
  intros Hm. unfold build_environment_prompt. cbv zeta.
  rewrite Hm. cbn [Py.get]. rewrite determine_method_auto.
  cbn [andb append app].
  destruct (_ && _); repeat constructor.
Qed.

(** Nor does the photography builder, for the pose and for the hair. *)
Lemma resolved_photography_no_directive photography image_mapping
    text1 image_url1 text2 image_url2 fragments :
  Pose.method (Py.get (Photography.pose photography) Pose.empty)
  = Some (determine_method text1 image_url1 "auto") ->
  Hair.method (Py.get (Photography.hair photography) Hair.empty)
  = Some (determine_method text2 image_url2 "auto") ->
  build_photography_prompt photography image_mapping = Some fragments ->
  Forall (fun fragment => is_extraction_directive fragment = false) fragments.
Proof.
  intros Hp Hh. unfold build_photography_prompt. cbv zeta.
  rewrite Hp, Hh. cbn [Py.get]. rewrite !determine_method_auto.
  set (settings := match _ with [] => [] | _ => _ end).
  assert (Forall (fun fragment => is_extraction_directive fragment = false)
            settings) as Hsettings.
  { unfold settings. repeat case_match; repeat constructor. }
  set (with_shadows := if _ && negb _ then _ else settings).
  assert (Forall (fun fragment => is_extraction_directive fragment = false)
            with_shadows) as Hshadows.
  { unfold with_shadows.
    case_match; [|done]. apply Forall_append; [done|]. reflexivity. }
  clearbody with_shadows. cbn [andb].
  intros H.
  destruct (_ && Py.truthy (Pose.text _)); cbn [mbind option_bind] in H.
  - destruct (_ && Py.truthy (Hair.text _)).
    + injection H as <-. repeat (apply Forall_append; [|reflexivity]). done.
    + destruct (String.eqb _ "keep_original"); injection H as <-;
        repeat (apply Forall_append; [|reflexivity]); done.
  - destruct (_ && Py.truthy (Hair.text _)).
    + injection H as <-. repeat (apply Forall_append; [|reflexivity]). done.
    + destruct (String.eqb _ "keep_original"); injection H as <-;
        repeat (apply Forall_append; [|reflexivity]); done.
Qed.

(** C3 at a failing input.  In a configuration made from a form in which
    the environment, the pose and the hair are each given by an image only,
    the resolver gives the three sections the method [image_reference]; the
    assembler attaches their three images; and the builders, which test for
    [reference_image], return the environment category and the photography
    style alone, with no extraction directive for any of the three. *)
Theorem image_only_sections_get_no_directive :
  let environment := Py.get (Config.environment image_only) Environment.empty in
  let photography := Py.get (Config.photography image_only) Photography.empty in
  let pose := Py.get (Photography.pose photography) Pose.empty in
  let hair := Py.get (Photography.hair photography) Hair.empty in
  let labels := (prepare_image_parts online image_only).2 in
  Environment.method environment = Some "image_reference"
  /\ Pose.method pose = Some "image_reference"
  /\ Hair.method hair = Some "image_reference"
  /\ labels !! "environment" = Some "the background/environment reference image"
  /\ labels !! "pose" = Some "the pose reference image"
  /\ labels !! "hair" = Some "the hairstyle reference image"
  /\ build_environment_prompt environment (Some labels)
     = ["Environment: professional studio setting."]
  /\ build_photography_prompt photography (Some labels)
     = Some ["Photography style: aesthetic: commercial, framing: 3/4 body, lighting: soft warm."].
Proof. vm_compute. repeat split. Qed.

(** * Further properties *)

(** ** The assembled parts *)

Lemma images_follow_instructions_app (l1 l2 : list Part) :
  images_follow_instructions l1 -> images_follow_instructions l2 ->
  images_follow_instructions (l1 ++ l2).
Proof.
  intros H1 H2 i mime data Hi.
  destruct (lookup_app_Some l1 l2 i (inlineData mime data)) as [Hcase _].
  destruct (Hcase Hi) as [Hl|[Hge Hr]].
  - destruct (H1 _ _ _ Hl) as (-> & j & s & -> & Hj).
    split; [done|]. exists j, s. split; [done|].
    by apply lookup_app_l_Some.
  - destruct (H2 _ _ _ Hr) as (-> & j & s & He & Hj).
    split; [done|]. exists (length l1 + j), s. split; [lia|].
    rewrite lookup_app_r by lia.
    by replace (length l1 + j - length l1) with j by lia.
Qed.

Lemma images_follow_instructions_concat (blocks : list (list Part)) :
  Forall images_follow_instructions blocks ->
  images_follow_instructions (concat blocks).
Proof.
  induction 1 as [|b bs Hb _ IH]; simpl.
  - intros i mime data Hi. by rewrite lookup_nil in Hi.
  - by apply images_follow_instructions_app.
Qed.

Lemma contribution_follows (fetch : string -> option string) (r : Row) :
  images_follow_instructions (contribution fetch r).
Proof.
  unfold contribution. intros i mime data Hi.
  destruct (walked r); [|by rewrite lookup_nil in Hi].
  destruct (fetch (url r)) as [d|].
  - destruct i as [|[|i]]; try done.
    injection Hi as <- <-. split; [done|]. by exists 0, (instruction r).
  - by destruct i as [|[|i]].
Qed.

(** X1.  In the parts assembled for any configuration and any outcome of
    the fetches, an inline image is never first and never follows another
    image: the part just before it is an instruction; and its MIME type is
    always [image/jpeg], whatever the image fetched. *)
Theorem images_come_after_instructions (fetch : string -> option string)
    (config : Config.t) (i : nat) (mime data : string) :
  (prepare_image_parts fetch config).1 !! i = Some (inlineData mime data) ->
  mime = "image/jpeg"
  /\ exists j instruction,
       i = S j
       /\ (prepare_image_parts fetch config).1 !! j = Some (text instruction).
Proof.
  rewrite prepare_image_parts_walk, walk_parts. cbn [app].
  apply images_follow_instructions_concat.
  apply Forall_forall. intros b (src & -> & _)%list_elem_of_fmap.
  apply contribution_follows.
Qed.

Lemma images_come_after_instructions_witness :
  exists j instruction,
    3 = S j
    /\ (prepare_image_parts online three_images).1 !! j = Some (text instruction).
Proof.
  apply (images_come_after_instructions online three_images 3 "image/jpeg"
           "base64:https://cdn.example/outfit.jpg").
  reflexivity.
Defined.

Lemma section_order_NoDup (config : Config.t) :
  NoDup (section_order config).
Proof.
  unfold section_order.
  set (n := length (Py.get (Config.additional_items config) [])).
  apply NoDup_app. split; [|split].
  - repeat (apply NoDup_cons_2;
              [rewrite list_elem_of_In; simpl; intuition discriminate|]).
    apply NoDup_nil_2.
  - intros src Hsrc Hin.
    apply list_elem_of_In in Hsrc. apply list_elem_of_In in Hin.
    apply in_app_or in Hin as [Hin|Hin].
    + apply in_map_iff in Hin as (idx & <- & _).
      simpl in Hsrc. intuition discriminate.
    + simpl in Hsrc, Hin. intuition congruence.
  - apply NoDup_app. split; [|split].
    + assert (Inj (=) (=) FromItem) by (by intros a b [= ->]).
      apply (NoDup_fmap_2 FromItem). apply NoDup_ListNoDup, seq_NoDup.
    + intros src Hsrc Hin.
      apply list_elem_of_In in Hsrc. apply list_elem_of_In in Hin.
      apply in_map_iff in Hsrc as (idx & <- & _).
      simpl in Hin. intuition discriminate.
    + repeat (apply NoDup_cons_2;
                [rewrite list_elem_of_In; simpl; intuition discriminate|]).
      apply NoDup_nil_2.
Qed.

Lemma count_contributions (fetch : string -> option string)
    (config : Config.t) (srcs : list Source) :
  instructions
    (concat (map (fun src => contribution fetch (row_of config src)) srcs))
  = length (filter (fun src => walked (row_of config src) = true) srcs)
  /\ inline_images
       (concat (map (fun src => contribution fetch (row_of config src)) srcs))
     = length (filter (fun src =>
                 walked (row_of config src)
                 && is_some (fetch (url (row_of config src))) = true) srcs).
Proof.
  unfold instructions, inline_images.
  induction srcs as [|src srcs [IH1 IH2]]; [done|].
  cbn [map concat]. rewrite !filter_app, !length_app, IH1, IH2.
  rewrite !filter_cons. unfold contribution.
  destruct (walked (row_of config src)); [|done].
  destruct (fetch (url (row_of config src))); done.
Qed.

Lemma walk_labels_size (fetch : string -> option string) (config : Config.t)
    (srcs : list Source) parts (m : gmap string string) :
  NoDup srcs ->
  (forall src, src ∈ srcs -> m !! label_of src = None) ->
  size (fold_left (walk_step fetch config) srcs (parts, m)).2
  = size m
    + length (filter (fun src => walked (row_of config src) = true) srcs).
Proof.
  revert parts m. induction srcs as [|src srcs IH]; intros parts m Hnd Hm.
  - simpl. lia.
  - apply NoDup_cons in Hnd as [Hsrc Hnd]. cbn [fold_left].
    rewrite filter_cons.
    destruct (walked (row_of config src)) eqn:Hw.
    + rewrite walk_step_walked by done.
      rewrite decide_True by done. rewrite IH; [|done|].
      * rewrite map_size_insert_None; [simpl; lia|].
        apply Hm. by left.
      * intros src' Hin. rewrite lookup_insert_ne.
        -- apply Hm. by right.
        -- intros He. apply label_of_inj in He as ->. done.
    + destruct (walk_step_skipped fetch config src (parts, m) Hw) as [-> _].
      rewrite decide_False by done.
      apply IH; [done|]. intros src' Hin. apply Hm. by right.
Qed.

(** X2.  The label mapping has exactly as many entries as there are
    instruction parts in the assembled sequence, and at least as many as
    there are inline images; the two numbers are equal exactly when every
    image of a section that is walked could be fetched. *)
Theorem labels_count_the_instructions (fetch : string -> option string)
    (config : Config.t) :
  size (prepare_image_parts fetch config).2
  = instructions (prepare_image_parts fetch config).1
  /\ inline_images (prepare_image_parts fetch config).1
     <= size (prepare_image_parts fetch config).2
  /\ (inline_images (prepare_image_parts fetch config).1
      = size (prepare_image_parts fetch config).2
      <-> forall src, walked (row_of config src) = true ->
                      is_Some (fetch (url (row_of config src)))).
Proof.
  rewrite prepare_image_parts_walk.
  rewrite walk_labels_size;
    [|apply section_order_NoDup | intros; apply lookup_empty].
  rewrite walk_parts. cbn [app]. rewrite map_size_empty. cbn [Nat.add].
  destruct (count_contributions fetch config (section_order config))
    as [-> ->].
  split; [done|].
  assert (forall srcs : list Source,
            length (filter (fun src =>
                      walked (row_of config src)
                      && is_some (fetch (url (row_of config src))) = true) srcs)
            <= length (filter (fun src => walked (row_of config src) = true) srcs)
            /\ (length (filter (fun src =>
                      walked (row_of config src)
                      && is_some (fetch (url (row_of config src))) = true) srcs)
                = length (filter (fun src => walked (row_of config src) = true) srcs)
                <-> forall src, src ∈ srcs -> walked (row_of config src) = true ->
                      is_Some (fetch (url (row_of config src))))) as Hcount.
  { induction srcs as [|src srcs [IHle IHeq]].
    - split; [done|]. split; [|done]. intros _ src Hin. by inversion Hin.
    - rewrite !filter_cons.
      destruct (walked (row_of config src)) eqn:Hw; cbn [andb].
      + destruct (fetch (url (row_of config src))) as [d|] eqn:Hf;
          cbn [is_some].
        * rewrite !decide_True by done. cbn [length]. split; [lia|].
          split.
          -- intros He src' [->|Hin]%elem_of_cons Hw'; [by rewrite Hf|].
             apply IHeq; [lia | done | done].
          -- intros Hall. f_equal. apply IHeq.
             intros src' Hin. apply Hall. by right.
        * rewrite decide_False by done. rewrite decide_True by done.
          cbn [length]. split; [lia|]. split; [lia|].
          intros Hall. destruct (Hall src) as [d Hd]; [by left | done |].
          congruence.
      + rewrite !decide_False by done. split; [done|]. split.
        * intros He src' [->|Hin]%elem_of_cons Hw'; [congruence|].
          by apply IHeq.
        * intros Hall. apply IHeq. intros src' Hin. apply Hall. by right. }
  destruct (Hcount (section_order config)) as [Hle Heq].
  split; [exact Hle|]. split.
  - intros He src Hw. apply (proj1 Heq He); [|done].
    apply list_elem_of_In. by apply walked_in_order.
  - intros Hall. apply Heq. intros src _. apply Hall.
Qed.

(** ** The requests of a run *)

Lemma length_append_string (a b : string) :
  String.length (a +:+ b) = String.length a + String.length b.
Proof.
  induction a as [|c a IH]; [done|].
  change (S (String.length (a +:+ b)) = S (String.length a + String.length b)).
  by rewrite IH.
Qed.

Lemma append_cancel_r (a b s : string) : a +:+ s = b +:+ s -> a = b.
Proof.
  intros H.
  assert (String.length a = String.length b) as Hlen.
  { apply (f_equal String.length) in H. rewrite !length_append_string in H. lia. }
  revert b H Hlen. induction a as [|c a IH]; intros [|d b] H Hlen;
    try done.
  change (String c (a +:+ s) = String d (b +:+ s)) in H.
  injection H as -> H. f_equal. apply IH; [done|]. simpl in Hlen. lia.
Qed.

Lemma pick_inj (variations : list string) (i j : Z) :
  List.NoDup variations -> variations <> [] ->
  pick variations i = pick variations j ->
  (i mod Z.of_nat (length variations) = j mod Z.of_nat (length variations))%Z.
Proof.
  intros Hnd Hne He. unfold pick in He.
  assert (0 < Z.of_nat (length variations))%Z as Hpos.
  { destruct variations; [done | simpl; lia]. }
  pose proof (Z.mod_pos_bound i _ Hpos). pose proof (Z.mod_pos_bound j _ Hpos).
  destruct (List.NoDup_nth variations "") as [Hnth _].
  apply Z2Nat.inj; [lia | lia |]. apply Hnth; [done | lia | lia | done].
Qed.

Lemma dynamic_angles_NoDup : List.NoDup dynamic_angles_variations.
Proof.
  unfold dynamic_angles_variations.
  repeat (constructor; [simpl; intuition discriminate|]). constructor.
Qed.

Lemma subtle_NoDup : List.NoDup subtle_variations.
Proof.
  unfold subtle_variations.
  repeat (constructor; [simpl; intuition discriminate|]). constructor.
Qed.

Lemma final_prompt_subtle (prompt : string) (i : Z) :
  final_prompt prompt (Some i) (Some "subtle_variations")
  = pick subtle_variations i +:+ ". " +:+ prompt.
Proof. reflexivity. Qed.

Lemma final_prompt_dynamic (prompt : string) (i : Z) :
  final_prompt prompt (Some i) (Some "dynamic_angles")
  = pick dynamic_angles_variations i +:+ ". " +:+ prompt.
Proof. reflexivity. Qed.

(** X3.  Two outputs of a batch get the same prompt exactly when their
    indices are equal modulo the length of the variation list: modulo 5 for
    subtle variations, modulo 10 for dynamic angles.  The phrases of a list
    are all different, so within one round of the list no prompt is sent
    twice, and from the sixth output of a subtle batch on every prompt
    repeats the one sent five outputs earlier. *)
Theorem prompts_repeat_exactly_modulo (prompt : string) (i j : Z) :
  (final_prompt prompt (Some i) (Some "subtle_variations")
   = final_prompt prompt (Some j) (Some "subtle_variations")
   <-> (i mod 5 = j mod 5)%Z)
  /\ (final_prompt prompt (Some i) (Some "dynamic_angles")
      = final_prompt prompt (Some j) (Some "dynamic_angles")
      <-> (i mod 10 = j mod 10)%Z).
Proof.
  rewrite !final_prompt_subtle, !final_prompt_dynamic. split; split.
  - intros H%append_cancel_r.
    by apply (pick_inj subtle_variations) in H; [|apply subtle_NoDup|].
  - intros H. rewrite <- (pick_mod subtle_variations i),
      <- (pick_mod subtle_variations j).
    change (Z.of_nat (length subtle_variations)) with 5%Z. by rewrite H.
  - intros H%append_cancel_r.
    by apply (pick_inj dynamic_angles_variations) in H;
      [|apply dynamic_angles_NoDup|].
  - intros H. rewrite <- (pick_mod dynamic_angles_variations i),
      <- (pick_mod dynamic_angles_variations j).
    change (Z.of_nat (length dynamic_angles_variations)) with 10%Z.
    by rewrite H.
Qed.

Lemma assoc_cons {A : Type} (key k : string) (v : A) (r : list (string * A)) :
  assoc key ((k, v) :: r) = if String.eqb k key then Some v else assoc key r.
Proof. reflexivity. Qed.

Lemma assoc_nil {A : Type} (key : string) : assoc key (@nil (string * A)) = None.
Proof. reflexivity. Qed.

Lemma aspect_ratio_cases (preset : string) :
  map_platform_preset_to_aspect_ratio (Some preset)
  = if String.eqb preset "instagram_portrait" then "4:5"
    else if String.eqb preset "instagram_story" then "9:16"
    else if String.eqb preset "instagram_square" then "1:1"
    else "2:3".
Proof.
  unfold map_platform_preset_to_aspect_ratio. cbv zeta.
  destruct (String.eqb_spec preset "instagram_portrait") as [->|H1]; [done|].
  destruct (String.eqb_spec preset "instagram_story") as [->|H2]; [done|].
  destruct (String.eqb_spec preset "instagram_square") as [->|H3]; [done|].
  destruct (decide (preset = "default")) as [->|H4]; [done|].
  by rewrite !lookup_insert_ne, lookup_empty by done.
Qed.

Lemma form_ratio (ss : SessionState.t) :
  map_platform_preset_to_aspect_ratio
    (Some (Py.get
       (assoc (get_str ss "platform_preset" "Instagram Portrait (4:5)")
          platform_map)
       "instagram_portrait"))
  = form_aspect_ratio ss.
Proof.
  unfold form_aspect_ratio. cbv zeta.
  set (label := get_str ss "platform_preset" "Instagram Portrait (4:5)").
  unfold platform_map. rewrite !assoc_cons, assoc_nil.
  destruct (String.eqb_spec "Instagram Portrait (4:5)" label) as [<-|H1];
    [done|].
  destruct (String.eqb_spec "Instagram Story (9:16)" label) as [<-|H2];
    [done|].
  destruct (String.eqb_spec "Instagram Square (1:1)" label) as [<-|H3];
    [done|].
  destruct (String.eqb_spec "Default (2:3)" label) as [<-|H4]; [done|].
  destruct (String.eqb_spec label "Instagram Story (9:16)"); [done|].
  destruct (String.eqb_spec label "Instagram Square (1:1)"); [done|].
  by destruct (String.eqb_spec label "Default (2:3)").
Qed.

(** What a run started from the form sends when it is not stopped. *)
Lemma on_generate_clicked_form (fetch : string -> option string)
    (ss : SessionState.t) (job_id : string) (requests : list Request) :
  on_generate_clicked fetch (build_config ss job_id) = Done requests ->
  exists prompt,
    build_photoshoot_prompt (build_config ss job_id)
      (Some (prepare_image_parts fetch (build_config ss job_id)).2)
    = Some prompt
    /\ requests
       = map (fun i =>
                mkRequest
                  (request_parts prompt
                     (prepare_image_parts fetch (build_config ss job_id)).1
                     (Some i)
                     (Some (if Py.contains "Subtle"
                                 (get_str ss "batch_variety" "Subtle Variations")
                            then "subtle_variations" else "dynamic_angles")))
                  (map_platform_preset_to_aspect_ratio
                     (Some (Py.get
                        (assoc (get_str ss "platform_preset"
                                  "Instagram Portrait (4:5)") platform_map)
                        "instagram_portrait"))))
           (range (Py.get (SessionState.image_count ss) 2%Z)).
Proof.
  remember (build_config ss job_id) as config eqn:Hconfig.
  unfold on_generate_clicked.
  assert (Config.model_reference config
          = Some (ModelRef.mk
                    (Some (determine_method
                             (Some (get_str ss "model_ref_text" ""))
                             (Some (get_str ss "model_ref_url" ""))
                             "text_description"))
                    (Some (get_str ss "model_ref_text" ""))
                    (Some (get_str ss "model_ref_url" ""))
                    (Some (if is_str (assoc "model_action" (SessionState.strings ss))
                                "Keep from reference"
                           then "keep" else "generate"))
                    None
                    (Some (get_str ss "model_ethnicity" ""))
                    (Some (get_str ss "model_hair_color" ""))
                    (Some (get_str ss "model_age" "")))) as ->
    by (by subst config).
  assert (exists outfit,
            Config.base_outfit config = Some outfit
            /\ Outfit.text_description outfit = Some (get_str ss "outfit_text" "")
            /\ Outfit.image_url outfit = Some (get_str ss "outfit_url" ""))
    as (outfit & -> & Ht & Hu) by (subst config; by eexists).
  assert (exists meta,
            Config.meta config = Some meta
            /\ Meta.platform_preset meta
               = Some (Py.get
                         (assoc (get_str ss "platform_preset"
                                   "Instagram Portrait (4:5)") platform_map)
                         "instagram_portrait"))
    as (meta & -> & Hm) by (subst config; by eexists).
  assert (exists output,
            Config.output config = Some output
            /\ Output.count output
               = Some (Py.get (SessionState.image_count ss) 2%Z)
            /\ Output.batch_variety output
               = Some (if Py.contains "Subtle"
                            (get_str ss "batch_variety" "Subtle Variations")
                       then "subtle_variations" else "dynamic_angles"))
    as (output & -> & Hc & Hv) by (subst config; by eexists).
  cbn [index bind ModelRef.text_description ModelRef.image_url].
  rewrite Ht, Hu, Hm, Hc, Hv, !has_reference_present. cbn [bind index].
  destruct (negb _ && negb _); [discriminate|].
  destruct (prepare_image_parts fetch config) as [image_parts image_mapping].
  cbn [fst snd].
  destruct (build_photoshoot_prompt config (Some image_mapping)) as [prompt|];
    [|discriminate].
  cbn [returned bind]. intros [= <-]. by exists prompt.
Qed.

(** X4.  The aspect ratio mapper never fails and returns one of the four
    ratios: 4:5, 9:16 and 1:1 for the three Instagram presets and 2:3 for
    every other preset, known or not.  A run started from the form uses
    9:16, 1:1 or 2:3 for the three matching labels of the platform selector
    and 4:5 for any other label, because an unknown label is first turned
    into the portrait preset. *)
Theorem aspect_ratio_is_total (fetch : string -> option string) :
  (forall preset,
     In (map_platform_preset_to_aspect_ratio preset)
       ["4:5"; "9:16"; "1:1"; "2:3"])
  /\ (forall preset,
        preset <> "instagram_portrait" -> preset <> "instagram_story" ->
        preset <> "instagram_square" ->
        map_platform_preset_to_aspect_ratio (Some preset) = "2:3")
  /\ map_platform_preset_to_aspect_ratio None = "2:3"
  /\ (forall ss job_id requests request,
        on_generate_clicked fetch (build_config ss job_id) = Done requests ->
        In request requests ->
        aspectRatio request = form_aspect_ratio ss).
Proof.
  split; [|split; [|split]].
  - intros [preset|]; [|simpl; tauto]. rewrite aspect_ratio_cases.
    repeat case_match; simpl; tauto.
  - intros preset H1 H2 H3. rewrite aspect_ratio_cases.
    destruct (String.eqb_spec preset "instagram_portrait"); [done|].
    destruct (String.eqb_spec preset "instagram_story"); [done|].
    by destruct (String.eqb_spec preset "instagram_square").
  - reflexivity.
  - intros ss job_id requests request Hrun Hin.
    apply on_generate_clicked_form in Hrun as (prompt & _ & ->).
    apply in_map_iff in Hin as (i & <- & _). cbn [aspectRatio].
    apply form_ratio.
Qed.

Lemma aspect_ratio_is_total_witness :
  map_platform_preset_to_aspect_ratio (Some "tiktok") = "2:3".
Proof.
  apply (proj1 (proj2 (aspect_ratio_is_total offline)) "tiktok");
    discriminate.
Defined.

(** X5.  A run started from the form that is not stopped sends, for each
    output index from 0 up to the requested count, one request made of the
    variation phrase of that index, a period, a space and the prompt
    composed once for the run, followed by the image parts assembled once
    for the run.  Every request of the app thus carries a variation phrase,
    and all requests of a run share the same image parts. *)
Theorem requests_of_a_run (fetch : string -> option string)
    (ss : SessionState.t) (job_id : string) (requests : list Request) :
  on_generate_clicked fetch (build_config ss job_id) = Done requests ->
  exists prompt,
    build_photoshoot_prompt (build_config ss job_id)
      (Some (prepare_image_parts fetch (build_config ss job_id)).2)
    = Some prompt
    /\ requests
       = map (fun i =>
                mkRequest
                  (text (pick (form_variations ss) i +:+ ". " +:+ prompt)
                   :: (prepare_image_parts fetch (build_config ss job_id)).1)
                  (form_aspect_ratio ss))
           (range (Py.get (SessionState.image_count ss) 2%Z)).
Proof.
  intros (prompt & Hprompt & ->)%on_generate_clicked_form.
  exists prompt. split; [done|]. apply map_ext. intros i.
  rewrite form_ratio. f_equal. unfold request_parts, form_variations.
  by destruct (Py.contains "Subtle" _).
Qed.

Lemma requests_of_a_run_witness :
  exists prompt,
    build_photoshoot_prompt (build_config seven_outputs_form "job_00000000")
      (Some (prepare_image_parts online
               (build_config seven_outputs_form "job_00000000")).2)
    = Some prompt
    /\ exists requests,
         on_generate_clicked online
           (build_config seven_outputs_form "job_00000000") = Done requests
         /\ length requests = 7
         /\ nth_error requests 0 = nth_error requests 5.
Proof.
  destruct (on_generate_clicked online
              (build_config seven_outputs_form "job_00000000"))
    as [requests| |] eqn:Hrun; [|discriminate Hrun|discriminate Hrun].
  destruct (requests_of_a_run online seven_outputs_form "job_00000000"
              requests Hrun) as (prompt & Hprompt & ->).
  exists prompt. split; [exact Hprompt|].
  eexists. split; [reflexivity|]. split; reflexivity.
Defined.

Section UnusedEntries.

Variables ss ss' : SessionState.t.
Variables job_id job_id' : string.

Hypothesis same_strings :
  forall key, unused_key key = false ->
    assoc key (SessionState.strings ss) = assoc key (SessionState.strings ss').
Hypothesis same_flags :
  forall key,
    assoc key (SessionState.flags ss) = assoc key (SessionState.flags ss').
Hypothesis same_count :
  SessionState.image_count ss = SessionState.image_count ss'.
Hypothesis same_items :
  SessionState.additional_items ss = SessionState.additional_items ss'.

Ltac same_entries :=
  unfold get_str, get_flag;
  repeat match goal with
  | |- context [assoc ?k (SessionState.strings ss)] =>
      rewrite (same_strings k eq_refl)
  | |- context [assoc ?k (SessionState.flags ss)] =>
      rewrite (same_flags k)
  end;
  rewrite ?same_count, ?same_items.

Lemma unused_rows (src : Source) :
  row_of (build_config ss job_id) src = row_of (build_config ss' job_id') src.
Proof.
  destruct src; cbn [build_config row_of Config.model_reference
    Config.base_outfit Config.additional_items Config.jewelry
    Config.environment Config.photography Py.get Jewelry.neck Jewelry.ears
    Jewelry.hands_wrists Photography.pose Photography.hair];
    unfold jewelry_row, jewelry_location;
    cbn [Py.get ModelRef.image_url Outfit.image_url JewelryLoc.enabled
         JewelryLoc.image_url Environment.image_url Pose.image_url
         Hair.image_url];
    by same_entries.
Qed.

Lemma unused_order :
  section_order (build_config ss job_id)
  = section_order (build_config ss' job_id').
Proof.
  unfold section_order. cbn [build_config Config.additional_items].
  by same_entries.
Qed.

Lemma unused_prepare (fetch : string -> option string) :
  prepare_image_parts fetch (build_config ss job_id)
  = prepare_image_parts fetch (build_config ss' job_id').
Proof.
  rewrite !prepare_image_parts_walk, unused_order.
  generalize (section_order (build_config ss' job_id')).
  generalize (@nil Part, (∅ : gmap string string)).
  intros st srcs. revert st.
  induction srcs as [|src srcs IH]; intros st; [done|].
  cbn [fold_left]. unfold walk_step at 2 4. rewrite unused_rows. apply IH.
Qed.

Lemma unused_prompt (m : option image_labels) :
  build_photoshoot_prompt (build_config ss job_id) m
  = build_photoshoot_prompt (build_config ss' job_id') m.
Proof.
  unfold build_photoshoot_prompt, build_photoshoot_parts, output_count.
  cbv zeta.
  cbn [build_config Config.model_reference Config.base_outfit
       Config.additional_items Config.jewelry Config.environment
       Config.photography Config.output Output.count Py.get
       ModelRef.nonempty ModelRef.method Outfit.nonempty Outfit.method
       Photography.nonempty Photography.aesthetic is_some orb].
  unfold build_model_reference_prompt, build_outfit_prompt,
    build_photography_prompt, jewelry_location.
  cbv zeta.
  cbn [ModelRef.text_description ModelRef.image_url ModelRef.face_action
       ModelRef.new_model_description Outfit.text_description
       Outfit.image_url Photography.aesthetic Photography.framing
       Photography.lighting Photography.shadows Photography.pose
       Photography.hair Py.get Pose.method Pose.text Pose.image_url
       Hair.method Hair.text Hair.image_url].
  rewrite !determine_method_auto. cbn [andb].
  by same_entries.
Qed.

Lemma unused_run (fetch : string -> option string) :
  on_generate_clicked fetch (build_config ss job_id)
  = on_generate_clicked fetch (build_config ss' job_id').
Proof.
  unfold on_generate_clicked.
  rewrite unused_prepare.
  destruct (prepare_image_parts fetch (build_config ss' job_id'))
    as [image_parts image_mapping].
  rewrite (unused_prompt (Some image_mapping)).
  cbn [build_config Config.model_reference Config.base_outfit index bind
       ModelRef.text_description ModelRef.image_url Outfit.text_description
       Outfit.image_url].
  rewrite !has_reference_present. cbn [bind].
  cbn [build_config Config.meta Config.output Meta.platform_preset
       Output.count Output.batch_variety index bind].
  by same_entries.
Qed.

End UnusedEntries.

(** X6.  The ethnicity, hair colour and age entries of the model tab, the
    preservation level and the garments ticked on the outfit tab, the
    strength of the pose and the job identifier have no effect on a run:
    two forms that agree on every other entry lead to the same outcome and,
    when the run is not stopped, to the same requests. *)
Theorem unused_entries_change_nothing (fetch : string -> option string)
    (ss ss' : SessionState.t) (job_id job_id' : string) :
  (forall key, unused_key key = false ->
     assoc key (SessionState.strings ss) = assoc key (SessionState.strings ss')) ->
  (forall key,
     assoc key (SessionState.flags ss) = assoc key (SessionState.flags ss')) ->
  SessionState.image_count ss = SessionState.image_count ss' ->
  SessionState.additional_items ss = SessionState.additional_items ss' ->
  on_generate_clicked fetch (build_config ss job_id)
  = on_generate_clicked fetch (build_config ss' job_id').
Proof. intros. by apply unused_run. Qed.

Lemma unused_entries_change_nothing_witness :
  on_generate_clicked online (build_config plain_form "job_1f3a9c2e")
  = on_generate_clicked online (build_config detailed_form "job_77d0b1a4").
Proof.
  apply (unused_entries_change_nothing online plain_form detailed_form
           "job_1f3a9c2e" "job_77d0b1a4"); try reflexivity.
  intros key Hkey. unfold plain_form, detailed_form.
  cbn [SessionState.strings]. rewrite !assoc_cons, !assoc_nil.
  destruct (String.eqb_spec "model_action" key); [done|].
  destruct (String.eqb_spec "model_ethnicity" key) as [<-|_];
    [discriminate Hkey|].
  destruct (String.eqb_spec "model_hair_color" key) as [<-|_];
    [discriminate Hkey|].
  destruct (String.eqb_spec "model_age" key) as [<-|_];
    [discriminate Hkey|].
  destruct (String.eqb_spec "outfit_text" key); [done|].
  destruct (String.eqb_spec "outfit_preservation" key) as [<-|_];
    [discriminate Hkey|].
  done.
Defined.

(** ** The prompt builders *)

Lemma join_snoc (sep last : string) (l : list string) :
  exists before, Py.join sep (l ++ [last]) = before +:+ last
    /\ (l = [] -> before = "").
Proof.
  induction l as [|x l (before & He & _)].
  - by exists "".
  - destruct l as [|y l].
    + exists (x +:+ sep). split; [|done]. cbn [app].
      change (Py.join sep [x; last]) with (x +:+ sep +:+ last).
      by rewrite append_assoc.
    + exists (x +:+ sep +:+ before). split; [|done].
      change (Py.join sep ((x :: y :: l) ++ [last]))
        with (x +:+ sep +:+ Py.join sep ((y :: l) ++ [last])).
      rewrite He. by rewrite !append_assoc.
Qed.

Lemma prompt_ends_with_quality_boost (config : Config.t)
    (image_mapping : option image_labels) (prompt : string) :
  build_photoshoot_prompt config image_mapping = Some prompt ->
  exists before, prompt = before +:+ build_quality_boost.
Proof.
  unfold build_photoshoot_prompt, build_photoshoot_parts, append. cbv zeta.
  destruct (match Config.photography config with
            | Some _ => _ | None => _ end) as [fragments|]; [|done].
  cbn [mbind option_bind fmap option_fmap option_map].
  intros [= <-].
  destruct (join_snoc " " build_quality_boost fragments) as (before & -> & _).
  by exists before.
Qed.

(** X7.  Whenever the composer returns a prompt, the prompt ends with the
    quality clause: the clause is appended last whatever the configuration
    holds, so that a configuration with nothing in it is turned into the
    quality clause alone. *)
Theorem prompt_ends_with_quality_clause (config : Config.t)
    (image_mapping : option image_labels) (prompt : string) :
  build_photoshoot_prompt config image_mapping = Some prompt ->
  (exists before, prompt = before +:+ build_quality_boost)
  /\ prompt <> ""
  /\ build_photoshoot_prompt empty_config image_mapping
     = Some build_quality_boost.
Proof.
  intros Hprompt. split; [|split; [|reflexivity]].
  - destruct (prompt_ends_with_quality_boost _ _ _ Hprompt) as [before ->].
    by exists before.
  - destruct (prompt_ends_with_quality_boost _ _ _ Hprompt) as [before ->].
    intros H. apply (f_equal String.length) in H.
    rewrite length_append_string in H.
    assert (0 < String.length build_quality_boost) by (vm_compute; lia).
    simpl in H. lia.
Qed.

Lemma prompt_ends_with_quality_clause_witness :
  exists before,
    "Generate a new model face. " +:+ build_quality_boost
    = before +:+ build_quality_boost.
Proof.
  apply (prompt_ends_with_quality_clause
           (Config.mk None
              (Some (ModelRef.mk None None None (Some "generate")
                       None None None None))
              None None None None None None)
           None).
  reflexivity.
Defined.

(** The descriptions gathered by the loop over the items: one for each
    item that has a text or an image. *)
Lemma describe_items_length (image_mapping : image_labels)
    (entries : list (nat * Item.t)) (acc : list string) :
  length (fold_left (describe_item image_mapping) entries acc)
  = length acc
    + length (filter (fun item => item_described item = true)
                (map snd entries)).
Proof.
  revert acc. induction entries as [|[idx item] entries IH]; intros acc.
  - simpl. lia.
  - cbn [fold_left map snd]. rewrite IH, filter_cons.
    unfold describe_item, item_described, append.
    destruct (Py.truthy (Item.text item)); cbn [orb].
    + rewrite decide_True by done. rewrite length_app. simpl. lia.
    + destruct (Py.truthy (Item.image_url item)).
      * rewrite decide_True by done. rewrite length_app. simpl. lia.
      * rewrite decide_False by done. lia.
Qed.

Lemma snd_enumerate {A : Type} (l : list A) : map snd (enumerate l) = l.
Proof.
  unfold enumerate. generalize 0.
  induction l as [|x l IH]; intros n; [done|].
  cbn [length seq combine map snd]. by rewrite IH.
Qed.

(** X8.  The items builder returns at most one sentence.  It returns none
    exactly when no item has a text or an image; otherwise the sentence
    lists, separated by semicolons, one description for each item that has
    a text or an image, and items with neither are passed over. *)
Theorem items_sentence_lists_described_items (items : list Item.t)
    (image_mapping : option image_labels) :
  (build_additional_items_prompt items image_mapping = []
   <-> Forall (fun item => item_described item = false) items)
  /\ (build_additional_items_prompt items image_mapping <> [] ->
      exists descriptions,
        build_additional_items_prompt items image_mapping
        = ["Additional items: " +:+ Py.join "; " descriptions +:+ "."]
        /\ length descriptions
           = length (filter (fun item => item_described item = true) items)).
Proof.
  unfold build_additional_items_prompt. cbv zeta.
  pose proof (describe_items_length (or_empty image_mapping)
                (enumerate items) []) as Hlen.
  rewrite snd_enumerate in Hlen. cbn [length Nat.add] in Hlen.
  assert (length (filter (fun item => item_described item = true) items) = 0
          <-> Forall (fun item => item_described item = false) items) as Hnone.
  { clear Hlen. induction items as [|item items IH]; [done|].
    rewrite filter_cons, Forall_cons.
    destruct (item_described item).
    - rewrite decide_True by done. simpl. split; [lia|]. by intros [? _].
    - rewrite decide_False by done. rewrite IH. tauto. }
  destruct items as [|item items].
  - split; [done|]. by intros [].
  - destruct (fold_left _ _ _) as [|d ds] eqn:Hfold; cbn [append app].
    + split; [|by intros []]. split; [|done].
      intros _. apply Hnone. by rewrite <- Hlen.
    + split.
      * split; [done|]. intros H%Hnone. rewrite H in Hlen. done.
      * intros _. by exists (d :: ds).
Qed.

Lemma items_sentence_lists_described_items_witness :
  exists descriptions,
    build_additional_items_prompt three_items None
    = ["Additional items: " +:+ Py.join "; " descriptions +:+ "."]
    /\ length descriptions = 2.
Proof.
  apply (items_sentence_lists_described_items three_items None).
  discriminate.
Defined.

Lemma describe_location_active name label fallback target loc loc'
    image_mapping jewelry_items :
  active loc = active loc' ->
  describe_location name label fallback target loc image_mapping jewelry_items
  = describe_location name label fallback target loc' image_mapping
      jewelry_items.
Proof.
  unfold active, describe_location.
  destruct (Py.truthy_b (JewelryLoc.enabled loc));
    destruct (Py.truthy_b (JewelryLoc.enabled loc')); try done.
  by intros [= -> -> _].
Qed.

Lemma jewelry_row_active (fetch : string -> option string)
    (o o' : option JewelryLoc.t) (words sentence : string) :
  active (Py.get o JewelryLoc.empty) = active (Py.get o' JewelryLoc.empty) ->
  walked (jewelry_row o words sentence)
  = walked (jewelry_row o' words sentence)
  /\ contribution fetch (jewelry_row o words sentence)
     = contribution fetch (jewelry_row o' words sentence).
Proof.
  unfold active, jewelry_row, contribution. cbv zeta. cbn [walked url instruction].
  destruct (Py.truthy_b (JewelryLoc.enabled (Py.get o JewelryLoc.empty)));
    destruct (Py.truthy_b (JewelryLoc.enabled (Py.get o' JewelryLoc.empty)));
    try done.
  by intros [= _ _ ->].
Qed.

(** X9.  A jewelry location that is not enabled is left out altogether:
    whatever method, text and image it holds, it adds nothing to the
    jewelry sentence, no part to the assembled sequence and no label to the
    mapping.  Two jewelry sections that agree on their enabled locations
    give the same sentence, the same parts and the same labels; with no
    location enabled there is no jewelry sentence at all. *)
Theorem disabled_jewelry_is_left_out (jewelry jewelry' : Jewelry.t) :
  (forall loc, active (location_of jewelry loc)
               = active (location_of jewelry' loc)) ->
  (forall image_mapping,
     build_jewelry_prompt jewelry image_mapping
     = build_jewelry_prompt jewelry' image_mapping)
  /\ (forall fetch config config' loc,
        Config.jewelry config = Some jewelry ->
        Config.jewelry config' = Some jewelry' ->
        contribution fetch (row_of config (location_source loc))
        = contribution fetch (row_of config' (location_source loc))
        /\ (prepare_image_parts fetch config).2 !! label_of (location_source loc)
           = (prepare_image_parts fetch config').2
               !! label_of (location_source loc))
  /\ ((forall loc, active (location_of jewelry loc) = None) ->
      forall image_mapping, build_jewelry_prompt jewelry image_mapping = []).
Proof.
  intros Hactive.
  pose proof (Hactive Neck) as Hn. pose proof (Hactive Ears) as He.
  pose proof (Hactive HandsWrists) as Hh. cbn [location_of] in Hn, He, Hh.
  split; [|split].
  - intros image_mapping. unfold build_jewelry_prompt. cbv zeta.
    rewrite (describe_location_active "neck" _ _ _ _ _ _ _ Hn).
    rewrite (describe_location_active "ears" _ _ _ _ _ _ _ He).
    by rewrite (describe_location_active "hands/wrists" _ _ _ _ _ _ _ Hh).
  - intros fetch config config' loc Hj Hj'.
    rewrite !label_registered_iff.
    destruct loc; cbn [location_source row_of]; rewrite Hj, Hj'; cbn [Py.get].
    + destruct (jewelry_row_active fetch _ _
                  "the neck jewelry reference image"
                  "REFERENCE IMAGE - NECK JEWELRY: This image shows the necklace/jewelry to wear around the neck. Apply this jewelry to the neck area."
                  Hn) as [-> ->].
      done.
    + destruct (jewelry_row_active fetch _ _
                  "the ear jewelry reference image"
                  "REFERENCE IMAGE - EAR JEWELRY: This image shows the earrings/jewelry to wear on the ears. Apply this jewelry to the ears."
                  He) as [-> ->].
      done.
    + destruct (jewelry_row_active fetch _ _
                  "the hand/wrist jewelry reference image"
                  "REFERENCE IMAGE - HAND/WRIST JEWELRY: This image shows the rings/bracelets to wear on hands and wrists. Apply this jewelry to the hands and wrists."
                  Hh) as [-> ->].
      done.
  - intros Hnone image_mapping.
    pose proof (Hnone Neck) as Hn'. pose proof (Hnone Ears) as He'.
    pose proof (Hnone HandsWrists) as Hh'.
    unfold active in Hn', He', Hh'. cbn [location_of] in Hn', He', Hh'.
    unfold build_jewelry_prompt, describe_location. cbv zeta.
    destruct (Py.truthy_b (JewelryLoc.enabled
                (Py.get (Jewelry.neck jewelry) JewelryLoc.empty)));
      [discriminate|].
    destruct (Py.truthy_b (JewelryLoc.enabled
                (Py.get (Jewelry.ears jewelry) JewelryLoc.empty)));
      [discriminate|].
    destruct (Py.truthy_b (JewelryLoc.enabled
                (Py.get (Jewelry.hands_wrists jewelry) JewelryLoc.empty)));
      [discriminate|].
    done.
Qed.

Lemma disabled_jewelry_is_left_out_witness :
  build_jewelry_prompt disabled_necklace None
  = build_jewelry_prompt no_jewelry None.
Proof.
  assert (forall loc, active (location_of disabled_necklace loc)
                      = active (location_of no_jewelry loc)) as Hactive.
  { by intros []. }
  exact (proj1 (disabled_jewelry_is_left_out disabled_necklace no_jewelry
                  Hactive) None).
Defined.

(** ** File names, keys and URLs ([image_utils.py]) *)

Lemma contains_char (c : ascii) (s : string) :
  Py.contains (String c "") s = true <-> In c (list_ascii_of_string s).
Proof.
  induction s as [|a s IH].
  - simpl. split; [discriminate | tauto].
  - cbn [Py.contains String.prefix list_ascii_of_string In].
    destruct (ascii_dec c a) as [->|Hne].
    + split; [auto | by destruct s].
    + cbn [orb]. rewrite IH. split; [auto | intros [?|?]; congruence || done].
Qed.

Lemma split_nonempty (c : ascii) (s : string) : Str.split c s <> [].
Proof.
  induction s as [|a s IH]; [done|]. cbn [Str.split].
  destruct (Ascii.eqb a c); [done|]. by destruct (Str.split c s).
Qed.

Lemma split_without (c : ascii) (s : string) :
  ~ In c (list_ascii_of_string s) -> Str.split c s = [s].
Proof.
  induction s as [|a s IH]; [done|].
  cbn [list_ascii_of_string In Str.split]. intros Hn.
  destruct (Ascii.eqb_spec a c) as [->|_]; [tauto|].
  rewrite IH by tauto. done.
Qed.

Lemma split_at (c : ascii) (a b : string) :
  Str.split c (a +:+ String c b) = Str.split c a ++ Str.split c b.
Proof.
  induction a as [|x a IH].
  - change (Str.split c (String c b) = [""] ++ Str.split c b).
    cbn [Str.split]. by rewrite Ascii.eqb_refl.
  - change (Str.split c (String x (a +:+ String c b))
            = Str.split c (String x a) ++ Str.split c b).
    cbn [Str.split]. destruct (Ascii.eqb x c); [by rewrite IH|].
    rewrite IH. pose proof (split_nonempty c a).
    by destruct (Str.split c a).
Qed.

Lemma last_piece_app (l1 l2 : list string) :
  l2 <> [] -> Str.last_piece (l1 ++ l2) = Str.last_piece l2.
Proof.
  intros Hne. unfold Str.last_piece. induction l1 as [|y l1 IH]; [done|].
  cbn [app]. rewrite <- IH. destruct (l1 ++ l2) eqn:E; [|done].
  by apply app_eq_nil in E as [_ E].
Qed.

(** The extension of a file name: what follows its last dot. *)
Lemma extension_of (stem ext : string) :
  ~ In "."%char (list_ascii_of_string ext) ->
  Py.contains "." (stem +:+ "." +:+ ext) = true
  /\ Str.last_piece (Str.split "." (stem +:+ "." +:+ ext)) = ext.
Proof.
  intros Hext. split.
  - apply contains_char. clear Hext.
    induction stem as [|x stem IH]; [by left|]. by right.
  - change (stem +:+ "." +:+ ext) with (stem +:+ String "." ext).
    rewrite split_at, last_piece_app by apply split_nonempty.
    by rewrite split_without.
Qed.

Lemma mime_of_known_extension (ext : string) :
  Str.mem ext ["jpg"; "jpeg"; "png"; "webp"; "gif"] = true ->
  ~ In "."%char (list_ascii_of_string ext) /\ Py.lower ext = ext.
Proof.
  unfold Str.mem. cbn [existsb].
  destruct (String.eqb_spec ext "jpg") as [->|_];
    [split; [simpl; intuition discriminate | done]|].
  destruct (String.eqb_spec ext "jpeg") as [->|_];
    [split; [simpl; intuition discriminate | done]|].
  destruct (String.eqb_spec ext "png") as [->|_];
    [split; [simpl; intuition discriminate | done]|].
  destruct (String.eqb_spec ext "webp") as [->|_];
    [split; [simpl; intuition discriminate | done]|].
  destruct (String.eqb_spec ext "gif") as [->|_];
    [split; [simpl; intuition discriminate | done]|].
  discriminate.
Qed.

Lemma assoc_in_range {A : Type} (key : string) (l : list (string * A))
    (dflt : A) :
  In (Py.get (assoc key l) dflt) (dflt :: map snd l).
Proof.
  induction l as [|[k v] l IH]; [by left|].
  rewrite assoc_cons. destruct (String.eqb k key); cbn [Py.get map snd].
  - right. by left.
  - destruct IH as [IH|IH]; [by left | right; by right].
Qed.

(** X10.  [get_image_mime_type] always answers with one of the four image
    types it knows; a name without a dot is taken for a JPEG; and for a
    name with dots the answer depends only on what follows the last dot,
    read without regard to case: jpg and jpeg give image/jpeg, png, webp and
    gif their own type, anything else image/jpeg. *)
Theorem mime_type_follows_extension (filename : string) :
  In (get_image_mime_type filename) known_mime_types
  /\ (Py.contains "." filename = false ->
      get_image_mime_type filename = "image/jpeg")
  /\ (forall stem ext,
        filename = stem +:+ "." +:+ ext ->
        ~ In "."%char (list_ascii_of_string ext) ->
        get_image_mime_type filename
        = Py.get (assoc (Py.lower ext) S3ImageHandler.content_type_map)
            "image/jpeg").
Proof.
  split; [|split].
  - unfold get_image_mime_type. cbv zeta.
    match goal with
    | |- In (Py.get (assoc ?k ?l) ?d) _ =>
        pose proof (assoc_in_range k l d) as H
    end.
    cbn [map snd] in H. unfold known_mime_types.
    cbn [In] in *. intuition.
  - intros Hdot. unfold get_image_mime_type. by rewrite Hdot.
  - intros stem ext -> Hext. unfold get_image_mime_type.
    destruct (extension_of stem ext Hext) as [-> ->]. reflexivity.
Qed.

Lemma mime_type_follows_extension_witness :
  get_image_mime_type "summer.look.PNG" = "image/png".
Proof.
  apply (proj2 (proj2 (mime_type_follows_extension "summer.look.PNG"))
           "summer.look" "PNG"); [reflexivity|].
  simpl. intuition discriminate.
Defined.

Lemma lstrip_char_slash (key : string) :
  Str.lstrip_char "/" ("/" +:+ key) = Str.lstrip_char "/" key.
Proof. reflexivity. Qed.

Lemma lstrip_char_clean (c : ascii) (key : string) :
  Str.lstrip_char c (Str.lstrip_char c key) = Str.lstrip_char c key.
Proof.
  induction key as [|a key IH]; [done|]. cbn [Str.lstrip_char].
  destruct (Ascii.eqb a c) eqn:E; [done|]. cbn [Str.lstrip_char].
  by rewrite E.
Qed.

Lemma get_public_url_base (env : Env) (self : S3ImageHandler.t) (key : string) :
  S3ImageHandler.get_public_url env self key
  = url_base env self +:+ Str.lstrip_char "/" key.
Proof.
  unfold S3ImageHandler.get_public_url, url_base. cbv zeta.
  destruct (Py.truthy _); by rewrite !append_assoc.
Qed.

(** X11.  A public URL is the base of the handler followed by the key
    without its leading slashes, so that a key gives the same URL with or
    without slashes in front.  The base begins with https:// and, when a
    CloudFront domain is configured, is made of that domain alone: the
    bucket name and the region play no part. *)
Theorem public_url_of_key (env : Env) (self : S3ImageHandler.t) (key : string) :
  S3ImageHandler.get_public_url env self key
  = url_base env self +:+ Str.lstrip_char "/" key
  /\ S3ImageHandler.get_public_url env self ("/" +:+ key)
     = S3ImageHandler.get_public_url env self key
  /\ S3ImageHandler.get_public_url env self (Str.lstrip_char "/" key)
     = S3ImageHandler.get_public_url env self key
  /\ String.prefix "https://" (S3ImageHandler.get_public_url env self key) = true
  /\ (forall domain env' bucket',
        S3ImageHandler.cloudfront_domain self = Some domain -> domain <> "" ->
        S3ImageHandler.get_public_url env self key
        = S3ImageHandler.get_public_url env'
            (S3ImageHandler.mk bucket' (Some domain)) key).
Proof.
  rewrite !get_public_url_base, lstrip_char_slash, lstrip_char_clean.
  split; [done|]. split; [done|]. split; [done|]. split.
  - unfold url_base. destruct (Py.truthy _); rewrite !append_assoc;
      apply prefix_append.
  - intros domain env' bucket' Hd Hne. rewrite get_public_url_base.
    unfold url_base. cbn [S3ImageHandler.cloudfront_domain]. rewrite Hd.
    by destruct domain.
Qed.

Lemma public_url_of_key_witness :
  S3ImageHandler.get_public_url bare_env
    (S3ImageHandler.mk "crowai-image-bucket" (Some "d111.cloudfront.net"))
    "//generated-images/pose-refs/a.jpg"
  = S3ImageHandler.get_public_url (mkEnv (Some "us-east-1") None None)
      (S3ImageHandler.mk "another-bucket" (Some "d111.cloudfront.net"))
      "//generated-images/pose-refs/a.jpg".
Proof.
  apply (public_url_of_key bare_env
           (S3ImageHandler.mk "crowai-image-bucket" (Some "d111.cloudfront.net"))
           "//generated-images/pose-refs/a.jpg");
    [reflexivity | discriminate].
Defined.

Lemma reference_extension (filename : string) :
  let e :=
    if Py.contains "." filename
    then Py.lower (Str.last_piece (Str.split "." filename)) else "jpg" in
  Str.mem
    (if negb (Str.mem e ["jpg"; "jpeg"; "png"; "webp"; "gif"])
     then "jpg" else e)
    ["jpg"; "jpeg"; "png"; "webp"; "gif"] = true.
Proof.
  cbv zeta.
  destruct (Str.mem (if Py.contains "." filename then _ else _) _) eqn:E;
    cbn [negb]; [exact E | reflexivity].
Qed.

(** X12.  The object stored by [upload_reference_image] always has a key
    under generated-images/ that ends in one of the extensions jpg, jpeg,
    png, webp, gif, and a content type that is the one
    [get_image_mime_type] reads off that key.  Every image type listed in
    [IMAGE_TYPES] has a folder of its own kind; only other types fall back
    to photoshoot-refs.  The call succeeds exactly when the store accepts
    the object: the result then carries the key and its public URL, which
    ends with the key; a refused object gives a result without key and
    without URL, and the message of the refusal. *)
Theorem reference_upload_key_and_type (env : Env) (self : S3ImageHandler.t)
    (put_object : PutObject -> option string) (timestamp : Z) (uuid : string)
    (image_bytes : bytes) (filename image_type : string) :
  let call :=
    S3ImageHandler.reference_put self timestamp uuid image_bytes filename
      image_type in
  let result :=
    S3ImageHandler.upload_reference_image env self put_object timestamp uuid
      image_bytes filename image_type in
  String.prefix "generated-images/" (Key call) = true
  /\ (exists stem ext,
        Key call = stem +:+ "." +:+ ext
        /\ In ext ["jpg"; "jpeg"; "png"; "webp"; "gif"])
  /\ ContentType call = get_image_mime_type (Key call)
  /\ Body call = image_bytes
  /\ Forall (fun entry =>
               S3ImageHandler._get_category_folder (fst entry)
               <> "photoshoot-refs") IMAGE_TYPES
  /\ (success result = true <-> put_object call = None)
  /\ (success result = true ->
      s3_key result = Key call
      /\ public_url result = url_base env self +:+ Key call)
  /\ (success result = false ->
      s3_key result = "" /\ public_url result = ""
      /\ error result = put_object call).
Proof.
  intros call result.
  assert (exists stem ext,
            Key call = ("generated-images/" +:+ stem) +:+ "." +:+ ext
            /\ Str.mem ext ["jpg"; "jpeg"; "png"; "webp"; "gif"] = true
            /\ ContentType call
               = Py.get (assoc ext S3ImageHandler.content_type_map)
                   "image/jpeg") as (stem & ext & Hkey & Hext & Htype).
  { eexists (S3ImageHandler._get_category_folder image_type +:+ "/"
             +:+ "photoshoot_" +:+ image_type +:+ "_"
             +:+ Py.str_int timestamp +:+ "_"
             +:+ Str.first_piece (Str.split "-" uuid)), _.
    split; [|split; [apply (reference_extension filename)|]].
    - unfold call, S3ImageHandler.reference_put. cbv zeta. cbn [Key].
      rewrite !append_assoc. reflexivity.
    - reflexivity. }
  destruct (mime_of_known_extension ext Hext) as [Hdot Hlower].
  split; [rewrite Hkey, append_assoc; apply prefix_append|].
  split.
  { exists ("generated-images/" +:+ stem), ext. split; [done|].
    unfold Str.mem in Hext. cbn [existsb] in Hext. cbn [In].
    destruct (String.eqb_spec ext "jpg"); [auto|].
    destruct (String.eqb_spec ext "jpeg"); [auto|].
    destruct (String.eqb_spec ext "png"); [auto|].
    destruct (String.eqb_spec ext "webp"); [auto|].
    destruct (String.eqb_spec ext "gif"); [auto 6|]. discriminate. }
  split.
  { rewrite Htype, Hkey. unfold get_image_mime_type.
    destruct (extension_of ("generated-images/" +:+ stem) ext Hdot)
      as [-> ->].
    by rewrite Hlower. }
  split; [reflexivity|].
  split.
  { unfold IMAGE_TYPES. repeat (constructor; [discriminate|]). constructor. }
  assert (Str.lstrip_char "/" (Key call) = Key call) as Hclean.
  { rewrite Hkey, append_assoc. reflexivity. }
  unfold result, S3ImageHandler.upload_reference_image. cbv zeta.
  fold call. destruct (put_object call) as [e|];
    cbn [success s3_key public_url error].
  - split; [split; discriminate|]. split; [discriminate|]. done.
  - split; [done|]. split; [|discriminate]. intros _. split; [done|].
    by rewrite get_public_url_base, Hclean.
Qed.

Lemma known_mime_round_trip (mime_type : string) :
  In mime_type known_mime_types ->
  Py.get (assoc (Py.get (assoc mime_type S3ImageHandler.ext_map) "png")
            S3ImageHandler.content_type_map) "image/jpeg"
  = mime_type.
Proof.
  unfold known_mime_types. cbn [In].
  intros [<-|[<-|[<-|[<-|[]]]]]; reflexivity.
Qed.

Lemma ext_map_range (mime_type : string) :
  Str.mem (Py.get (assoc mime_type S3ImageHandler.ext_map) "png")
    ["jpg"; "jpeg"; "png"; "webp"; "gif"] = true
  /\ (~ In mime_type known_mime_types ->
      Py.get (assoc mime_type S3ImageHandler.ext_map) "png" = "png").
Proof.
  unfold S3ImageHandler.ext_map, known_mime_types.
  rewrite !assoc_cons, assoc_nil. cbn [In].
  destruct (String.eqb_spec "image/jpeg" mime_type); [split; [done|tauto]|].
  destruct (String.eqb_spec "image/png" mime_type); [split; [done|tauto]|].
  destruct (String.eqb_spec "image/webp" mime_type); [split; [done|tauto]|].
  destruct (String.eqb_spec "image/gif" mime_type); [split; [done|tauto]|].
  done.
Qed.

(** X13.  The object stored by [upload_generated_image] has a key under
    generated-images/model-photoshoots/ and the content type it was given.
    For the four MIME types the storage layer knows, the extension of the
    key leads back to that type through [get_image_mime_type]; for any
    other type the key ends in png while the content type stays what was
    given.  Without a job identifier the folder is the timestamp. *)
Theorem generated_upload_key_and_type (self : S3ImageHandler.t)
    (timestamp : Z) (uuid : string) (image_bytes : bytes)
    (mime_type : string) (job_id : option string) :
  let call :=
    S3ImageHandler.generated_put self timestamp uuid image_bytes mime_type
      job_id in
  String.prefix "generated-images/model-photoshoots/" (Key call) = true
  /\ ContentType call = mime_type
  /\ Body call = image_bytes
  /\ (In mime_type known_mime_types ->
      get_image_mime_type (Key call) = mime_type)
  /\ (~ In mime_type known_mime_types ->
      get_image_mime_type (Key call) = "image/png"
      /\ exists stem, Key call = stem +:+ ".png")
  /\ (Py.truthy job_id = false ->
      String.prefix
        ("generated-images/model-photoshoots/" +:+ Py.str_int timestamp +:+ "/")
        (Key call) = true).
Proof.
  intros call.
  set (ext := Py.get (assoc mime_type S3ImageHandler.ext_map) "png").
  set (folder :=
         if Py.truthy job_id then Py.get job_id "" else Py.str_int timestamp).
  set (stem := "generated-images/model-photoshoots/" +:+ folder +:+ "/"
               +:+ "photoshoot_" +:+ Py.str_int timestamp +:+ "_"
               +:+ Str.first_piece (Str.split "-" uuid)).
  assert (Key call = stem +:+ "." +:+ ext) as Hkey.
  { unfold call, S3ImageHandler.generated_put, stem. cbv zeta. cbn [Key].
    fold ext folder. rewrite !append_assoc. reflexivity. }
  destruct (ext_map_range mime_type) as [Hext Hother]. fold ext in Hext, Hother.
  destruct (mime_of_known_extension ext Hext) as [Hdot Hlower].
  assert (get_image_mime_type (Key call)
          = Py.get (assoc ext S3ImageHandler.content_type_map) "image/jpeg")
    as Hmime.
  { rewrite Hkey. unfold get_image_mime_type.
    destruct (extension_of stem ext Hdot) as [-> ->]. by rewrite Hlower. }
  split; [rewrite Hkey; unfold stem; rewrite !append_assoc;
          apply (prefix_append "generated-images/model-photoshoots/")|].
  split; [reflexivity|]. split; [reflexivity|].
  split; [intros Hin; rewrite Hmime; by apply known_mime_round_trip|].
  split.
  - intros Hnot. rewrite Hmime, Hkey, (Hother Hnot). split; [done|].
    by exists stem.
  - intros Hjob. rewrite Hkey. unfold stem, folder. rewrite Hjob.
    match goal with
    | |- String.prefix ?p (?whole) = true =>
        assert (whole
                = p +:+ "photoshoot_" +:+ Py.str_int timestamp +:+ "_"
                  +:+ Str.first_piece (Str.split "-" uuid) +:+ "." +:+ ext)
          as ->
    end.
    { by rewrite !append_assoc. }
    apply prefix_append.
Qed.

(** ** The answer of the endpoint *)

Lemma find_image_part_first (l : list Response.Part) (part : Response.Part) :
  Response.find_image_part l = Some part ->
  Response.is_image_part part = true
  /\ exists before after,
       l = before ++ part :: after
       /\ Forall (fun p => Response.is_image_part p = false) before.
Proof.
  induction l as [|p l IH]; [done|]. cbn [Response.find_image_part].
  destruct (Response.is_image_part p) eqn:Hp.
  - intros [= ->]. split; [done|]. by exists [], l.
  - intros (Hi & before & after & -> & Hb)%IH. split; [done|].
    exists (p :: before), after. split; [done|]. by constructor.
Qed.

(** X14.  When [generate_image] returns an image, the request it posted is
    the per-call prompt followed by the image parts, with the aspect ratio
    asked for; the image is the one of the first part of the first
    candidate whose inline data has a MIME type beginning with image/, no
    earlier part being of that kind; the MIME type returned is that type,
    which begins with image/, and the bytes are the decoding of that part's
    data, which is not empty. *)
Theorem generate_image_returns_first_image (post : Request -> Run Response.t)
    (b64decode : string -> option bytes) (prompt : string)
    (image_parts : list Part) (aspect_ratio : string)
    (batch_index : option Z) (batch_variety : option string)
    (image_bytes : bytes) (mime_type : string) :
  generate_image post b64decode prompt image_parts aspect_ratio batch_index
    batch_variety = Done (image_bytes, mime_type) ->
  Py.startswith mime_type "image/" = true
  /\ exists response_data candidate others content before part after inline
            base64_data,
       post (mkRequest
               (text (final_prompt prompt batch_index batch_variety)
                :: image_parts) aspect_ratio) = Done response_data
       /\ Response.candidates response_data = Some (candidate :: others)
       /\ Response.content candidate = Some content
       /\ Response.parts content = Some (before ++ part :: after)
       /\ Forall (fun p => Response.is_image_part p = false) before
       /\ Response.inlineData part = Some inline
       /\ Response.mimeType inline = Some mime_type
       /\ Response.data inline = Some base64_data
       /\ base64_data <> ""
       /\ b64decode base64_data = Some image_bytes.
Proof.
  unfold generate_image. cbv zeta.
  change (request_parts prompt image_parts batch_index batch_variety)
    with (text (final_prompt prompt batch_index batch_variety) :: image_parts).
  destruct (post _) as [response_data| |] eqn:Hpost; [|done|done].
  cbn [bind]. unfold extract_image.
  destruct (Response.candidates response_data) as [[|candidate others]|]
    eqn:Hc; [done| |done].
  destruct (Response.candidate_nonempty candidate); [|done]. cbn [negb].
  destruct (Response.content candidate) as [content|] eqn:Hcontent; [|done].
  destruct (Response.content_nonempty content); [|done]. cbn [negb].
  destruct (Response.parts content) as [[|p l]|] eqn:Hparts; [done| |done].
  destruct (Response.find_image_part (p :: l)) as [part|] eqn:Hfind; [|done].
  destruct (find_image_part_first _ _ Hfind)
    as (Himage & before & after & Hl & Hbefore).
  destruct (Response.inlineData part) as [inline|] eqn:Hinline; [|done].
  destruct (Response.inline_nonempty inline) eqn:Hne; [|done]. cbn [negb orb].
  destruct (Response.data inline) as [[|c base64_data]|] eqn:Hdata;
    [done| |done].
  cbn [Py.truthy negb Py.get].
  destruct (Response.mimeType inline) as [mime|] eqn:Hmime; [|done].
  cbn [index bind].
  destruct (b64decode (String c base64_data)) as [decoded|] eqn:Hdec; [|done].
  intros [= <- <-]. split.
  - unfold Response.is_image_part in Himage.
    rewrite Hinline, Hmime, Hne in Himage. exact Himage.
  - exists response_data, candidate, others, content, before, part, after,
      inline, (String c base64_data).
    rewrite <- Hl. by repeat split.
Qed.

Lemma generate_image_returns_first_image_witness :
  Py.startswith "image/png" "image/" = true.
Proof.
  apply (generate_image_returns_first_image steady_endpoint lenient_decoder
           "A portrait." [] "4:5" (Some 0%Z) (Some "dynamic_angles") []
           "image/png").
  reflexivity.
Defined.

Lemma find_image_part_skip (before l : list Response.Part) :
  Forall (fun p => Response.is_image_part p = false) before ->
  Response.find_image_part (before ++ l) = Response.find_image_part l.
Proof.
  intros Hb. induction Hb as [|p before Hp _ IH]; [done|].
  cbn [app Response.find_image_part]. by rewrite Hp.
Qed.

Lemma extract_image_answer (b64decode : string -> option bytes)
    (before after : list Response.Part) (part : Response.Part)
    (others : list Response.Candidate) (role finish : option string) :
  Forall (fun p => Response.is_image_part p = false) before ->
  Response.is_image_part part = true ->
  extract_image b64decode
    (Response.mk
       (Some (Response.mkCandidate
                (Some (Response.mkContent (Some (before ++ part :: after))
                         role)) finish :: others)))
  = extract_image b64decode (answer_of [part]).
Proof.
  intros Hb Hpart. unfold extract_image, answer_of.
  cbn [Response.candidates Response.candidate_nonempty Response.content
       Response.finishReason Response.content_nonempty Response.parts
       Response.role is_some orb negb].
  pose proof (find_image_part_skip before (part :: after) Hb) as Hfind.
  cbn [Response.find_image_part] in Hfind. rewrite Hpart in Hfind.
  destruct (before ++ part :: after) as [|p l] eqn:Hl; [by destruct before|].
  rewrite Hfind. cbn [Response.find_image_part]. by rewrite Hpart.
Qed.

(** X15.  The converse: when the first candidate of the answer holds, after
    parts without image data, a part whose inline data has a MIME type
    beginning with image/ and data that is not empty and can be decoded,
    [generate_image] returns the decoded bytes with that MIME type,
    whatever the parts that follow and whatever the other candidates. *)
Theorem generate_image_reads_first_image (post : Request -> Run Response.t)
    (b64decode : string -> option bytes) (prompt : string)
    (image_parts : list Part) (aspect_ratio : string)
    (batch_index : option Z) (batch_variety : option string)
    (before after : list Response.Part) (others : list Response.Candidate)
    (role finish : option string) (mime_type base64_data : string)
    (caption : option string) (image_bytes : bytes) :
  post (mkRequest
          (text (final_prompt prompt batch_index batch_variety)
           :: image_parts) aspect_ratio)
  = Done (Response.mk
            (Some (Response.mkCandidate
                     (Some (Response.mkContent
                              (Some (before
                                     ++ Response.mkPart
                                          (Some (Response.mkInlineData
                                                   (Some mime_type)
                                                   (Some base64_data)))
                                          caption
                                     :: after)) role)) finish :: others))) ->
  Forall (fun p => Response.is_image_part p = false) before ->
  Py.startswith mime_type "image/" = true ->
  base64_data <> "" ->
  b64decode base64_data = Some image_bytes ->
  generate_image post b64decode prompt image_parts aspect_ratio batch_index
    batch_variety = Done (image_bytes, mime_type).
Proof.
  intros Hpost Hbefore Hmime Hdata Hdec. unfold generate_image. cbv zeta.
  change (request_parts prompt image_parts batch_index batch_variety)
    with (text (final_prompt prompt batch_index batch_variety)
          :: image_parts).
  rewrite Hpost. cbn [bind].
  rewrite extract_image_answer; [|done|].
  - unfold extract_image, answer_of.
    cbn [Response.candidates Response.candidate_nonempty Response.content
         Response.finishReason Response.content_nonempty Response.parts
         Response.role is_some orb negb Response.find_image_part].
    unfold Response.is_image_part.
    cbn [Response.inlineData Response.inline_nonempty Response.mimeType
         Response.data is_some orb andb Py.get].
    rewrite Hmime.
    cbn [Response.inlineData Response.inline_nonempty Response.mimeType
         Response.data is_some orb andb negb Py.get index bind].
    destruct base64_data as [|c base64_data]; [done|].
    cbn [Py.truthy negb]. by rewrite Hdec.
  - unfold Response.is_image_part.
    cbn [Response.inlineData Response.inline_nonempty Response.mimeType
         is_some orb andb Py.get].
    exact Hmime.
Qed.

Lemma generate_image_reads_first_image_witness :
  generate_image steady_endpoint lenient_decoder "A portrait." [] "4:5" None
    None = Done ([], "image/png").
Proof.
  apply (generate_image_reads_first_image steady_endpoint lenient_decoder
           "A portrait." [] "4:5" None None [caption_part] [] []
           (Some "model") (Some "STOP") "image/png" "iVBORw0KGgo=" None []);
    try reflexivity; [|done].
  by repeat constructor.
Defined.

(** X16.  The loop that looks for the image stops at the first part whose
    inline data has a MIME type beginning with image/: when that part has no
    data, or empty data, reading the answer fails with "No image data found
    in Gemini response", even when a later part holds an image with data. *)
Theorem first_image_part_without_data_fails
    (b64decode : string -> option bytes)
    (before after : list Response.Part) (part : Response.Part)
    (inline : Response.InlineData) (others : list Response.Candidate)
    (role finish : option string) :
  Forall (fun p => Response.is_image_part p = false) before ->
  Response.is_image_part part = true ->
  Response.inlineData part = Some inline ->
  Py.truthy (Response.data inline) = false ->
  extract_image b64decode
    (Response.mk
       (Some (Response.mkCandidate
                (Some (Response.mkContent (Some (before ++ part :: after))
                         role)) finish :: others)))
  = Raised "No image data found in Gemini response".
Proof.
  intros Hb Hpart Hinline Hdata. rewrite extract_image_answer; [|done..].
  unfold extract_image, answer_of.
  cbn [Response.candidates Response.candidate_nonempty Response.content
       Response.finishReason Response.content_nonempty Response.parts
       Response.role is_some orb negb Response.find_image_part].
  rewrite Hpart, Hinline, Hdata. cbn [negb]. by rewrite orb_true_r.
Qed.

Lemma first_image_part_without_data_fails_witness :
  extract_image lenient_decoder
    (answer_of ([caption_part] ++ hollow_image_part :: [png_part]))
  = Raised "No image data found in Gemini response".
Proof.
  apply (first_image_part_without_data_fails lenient_decoder
           [caption_part] [png_part] hollow_image_part
           (Response.mkInlineData (Some "image/png") None) []
           (Some "model") (Some "STOP"));
    try reflexivity.
  by repeat constructor.
Defined.

(** ** The generation loop *)

Lemma upload_generated_image_success (env : Env) (self : S3ImageHandler.t)
    (put_object : PutObject -> option string) (timestamp : Z) (uuid : string)
    (image_bytes : bytes) (mime_type : string) (job_id : option string) :
  let call :=
    S3ImageHandler.generated_put self timestamp uuid image_bytes mime_type
      job_id in
  let result :=
    S3ImageHandler.upload_generated_image env self put_object timestamp uuid
      image_bytes mime_type job_id in
  (success result = true <-> put_object call = None)
  /\ (success result = true ->
      s3_key result = Key call
      /\ public_url result = url_base env self +:+ Key call
      /\ String.prefix "generated-images/model-photoshoots/" (Key call) = true).
Proof.
  intros call result. unfold result, S3ImageHandler.upload_generated_image.
  cbv zeta. fold call.
  destruct (put_object call) as [e|]; cbn [success s3_key public_url].
  - split; [split; discriminate | discriminate].
  - split; [done|]. intros _. split; [done|].
    assert (exists rest,
              Key call = "generated-images/model-photoshoots/" +:+ rest)
      as [rest ->].
    { eexists. unfold call, S3ImageHandler.generated_put. cbv zeta.
      cbn [Key].
      rewrite <- (append_assoc "generated-images/" "model-photoshoots/").
      reflexivity. }
    split; [|apply prefix_append]. by rewrite get_public_url_base.
Qed.

Section Loop.

Variable post : Z -> Request -> Run Response.t.
Variable b64decode : string -> option bytes.
Variable env : Env.
Variable s3_handler : S3ImageHandler.t.
Variable put_object : PutObject -> option string.
Variable now : Z -> Z.
Variable uuid4 : Z -> string.
Variables (prompt : string) (image_parts : list Part).
Variables (aspect_ratio batch_variety : string).

Let turn :=
  generation_turn post b64decode env s3_handler put_object now uuid4 prompt
    image_parts aspect_ratio batch_variety.

Let generated (i : Z) :=
  generate_image (post i) b64decode prompt image_parts aspect_ratio (Some i)
    (Some batch_variety).

Let stored (i : Z) (image_bytes : bytes) (mime_type : string) :=
  S3ImageHandler.generated_put s3_handler (now i) (uuid4 i) image_bytes
    mime_type None.

Let made_at (i : Z) (img : GeneratedImage) : Prop :=
  gi_index img = (i + 1)%Z
  /\ generated i = Done (gi_bytes img, gi_mime_type img)
  /\ put_object (stored i (gi_bytes img) (gi_mime_type img)) = None
  /\ gi_s3_key img = Key (stored i (gi_bytes img) (gi_mime_type img))
  /\ gi_s3_url img = url_base env s3_handler +:+ gi_s3_key img
  /\ String.prefix "generated-images/model-photoshoots/" (gi_s3_key img)
     = true.

Lemma generation_turn_cases (st : LoopState) (i : Z) :
  (exists img,
     turn st i = (fst st ++ [img], snd st) /\ made_at i img)
  \/ (exists message,
        turn st i = (fst st, snd st ++ [message])
        /\ forall image_bytes mime_type,
             generated i = Done (image_bytes, mime_type) ->
             put_object (stored i image_bytes mime_type) <> None).
Proof.
  destruct st as [generated_images errors].
  unfold turn, generation_turn. fold (generated i).
  destruct (generated i) as [[image_bytes mime_type]|e|e] eqn:Hg.
  - pose proof (upload_generated_image_success env s3_handler put_object
                  (now i) (uuid4 i) image_bytes mime_type None)
      as [Hiff Hsuccess].
    cbv zeta in Hiff, Hsuccess. fold (stored i image_bytes mime_type) in *.
    destruct (success _) eqn:Hs.
    + left. eexists. split; [reflexivity|].
      destruct (Hsuccess eq_refl) as (Hkey & Hurl & Hprefix).
      unfold made_at. cbn [gi_index gi_bytes gi_mime_type gi_s3_key gi_s3_url].
      rewrite Hkey, Hurl. repeat split; try done. by apply Hiff.
    + right. eexists. split; [reflexivity|].
      intros b m [= <- <-] Hput. apply Hiff in Hput. discriminate.
  - right. eexists. split; [reflexivity|]. discriminate.
  - right. eexists. split; [reflexivity|]. discriminate.
Qed.

Lemma generation_turns (n : nat) :
  let st := fold_left turn (map Z.of_nat (seq 0 n)) ([], []) in
  length (fst st) + length (snd st) = n
  /\ Forall (fun img =>
               exists i : nat, i < n /\ made_at (Z.of_nat i) img) (fst st)
  /\ in_turn_order (fst st)
  /\ (forall (i : nat) image_bytes mime_type,
        i < n ->
        generated (Z.of_nat i) = Done (image_bytes, mime_type) ->
        put_object (stored (Z.of_nat i) image_bytes mime_type) = None ->
        exists img, In img (fst st) /\ made_at (Z.of_nat i) img
                    /\ gi_bytes img = image_bytes
                    /\ gi_mime_type img = mime_type).
Proof.
  induction n as [|n IH]; cbv zeta.
  - cbn. split; [done|]. split; [constructor|].
    split; [by intros j k a b Hj|]. intros; lia.
  - rewrite seq_S, map_app, fold_left_app. cbn [map fold_left Nat.add].
    revert IH. cbv zeta.
    generalize (fold_left turn (map Z.of_nat (seq 0 n)) ([], [])).
    intros st (Hlen & Hmade & Hsorted & Hall).
    destruct (generation_turn_cases st (Z.of_nat n))
      as [(img & -> & Himg)|(message & -> & Hfail)]; cbn [fst snd].
    + split; [rewrite length_app; cbn [length]; lia|].
      split.
      { apply Forall_app. split.
        - eapply Forall_impl; [exact Hmade|].
          intros img' (i & Hi & Hmade'). exists i. split; [lia | done].
        - constructor; [|constructor]. exists n. split; [lia | done]. }
      split.
      { intros j k a b Hj Hk Hjk.
        apply lookup_app_Some in Hj as [Hj|[Hj _]];
          apply lookup_app_Some in Hk as [Hk|[Hlen' Hk]].
        - by apply (Hsorted j k).
        - apply list_lookup_singleton_Some in Hk as [_ <-].
          rewrite Forall_lookup in Hmade.
          destruct (Hmade j a Hj) as (i & Hi & -> & _).
          destruct Himg as [-> _]. lia.
        - apply lookup_lt_Some in Hk. lia.
        - apply lookup_lt_Some in Hk. cbn [length] in Hk. lia. }
      intros i image_bytes mime_type Hi Hg Hput.
      destruct (decide (i = n)) as [->|Hne].
      * exists img. split; [apply in_or_app; right; by left|].
        split; [done|]. destruct Himg as (_ & Hg' & _).
        rewrite Hg in Hg'. by injection Hg' as -> ->.
      * destruct (Hall i image_bytes mime_type) as (img' & Hin & Hrest);
          [lia | done | done |].
        exists img'. split; [apply in_or_app; by left | done].
    + split; [rewrite length_app; cbn [length]; lia|].
      split.
      { eapply Forall_impl; [exact Hmade|].
        intros img' (i & Hi & Hmade'). exists i. split; [lia | done]. }
      split; [done|].
      intros i image_bytes mime_type Hi Hg Hput.
      destruct (decide (i = n)) as [->|Hne].
      * by destruct (Hfail _ _ Hg).
      * destruct (Hall i image_bytes mime_type) as (img' & Hin & Hrest);
          [lia | done | done |].
        by exists img'.
Qed.

End Loop.

(** X17.  The generation loop accounts for every turn: each of the turns
    0 .. count-1 leaves either one generated image or one error message, so
    that a failure at one turn never stops the turns after it.  The images
    are kept in the order of their turns; the image of turn i is numbered
    i+1, holds the bytes and the MIME type [generate_image] returned for
    batch index i, and was stored under generated-images/model-photoshoots/
    at the key its URL ends with. *)
Theorem generation_loop_accounts_for_every_turn
    (post : Z -> Request -> Run Response.t)
    (b64decode : string -> option bytes) (env : Env)
    (s3_handler : S3ImageHandler.t) (put_object : PutObject -> option string)
    (now : Z -> Z) (uuid4 : Z -> string) (prompt : string)
    (image_parts : list Part) (aspect_ratio : string) (image_count : Z)
    (batch_variety : string) :
  let st :=
    generation_loop post b64decode env s3_handler put_object now uuid4 prompt
      image_parts aspect_ratio image_count batch_variety in
  length (fst st) + length (snd st) = Z.to_nat image_count
  /\ in_turn_order (fst st)
  /\ Forall (fun img =>
               let i := (gi_index img - 1)%Z in
               (0 <= i < image_count)%Z
               /\ generate_image (post i) b64decode prompt image_parts
                    aspect_ratio (Some i) (Some batch_variety)
                  = Done (gi_bytes img, gi_mime_type img)
               /\ put_object
                    (S3ImageHandler.generated_put s3_handler (now i) (uuid4 i)
                       (gi_bytes img) (gi_mime_type img) None) = None
               /\ gi_s3_url img = url_base env s3_handler +:+ gi_s3_key img
               /\ String.prefix "generated-images/model-photoshoots/"
                    (gi_s3_key img) = true) (fst st).
Proof.
  intros st.
  destruct (generation_turns post b64decode env s3_handler put_object now
              uuid4 prompt image_parts aspect_ratio batch_variety
              (Z.to_nat image_count)) as (Hlen & Hmade & Hsorted & _).
  fold (range image_count) in Hlen, Hmade, Hsorted.
  split; [exact Hlen|]. split; [exact Hsorted|].
  eapply Forall_impl; [exact Hmade|].
  intros img (i & Hi & Hindex & Hg & Hput & _ & Hurl & Hprefix). cbv zeta.
  rewrite Hindex. replace (Z.of_nat i + 1 - 1)%Z with (Z.of_nat i) by lia.
  split; [lia|]. done.
Qed.

(** X18.  Conversely every turn that can succeed does: when, for a batch
    index i below the count, [generate_image] returns an image and the
    bucket takes it, the list of generated images holds that image under
    the number i+1, whatever happened at the other turns. *)
Theorem every_successful_turn_is_kept
    (post : Z -> Request -> Run Response.t)
    (b64decode : string -> option bytes) (env : Env)
    (s3_handler : S3ImageHandler.t) (put_object : PutObject -> option string)
    (now : Z -> Z) (uuid4 : Z -> string) (prompt : string)
    (image_parts : list Part) (aspect_ratio : string) (image_count : Z)
    (batch_variety : string) (i : Z) (image_bytes : bytes)
    (mime_type : string) :
  (0 <= i < image_count)%Z ->
  generate_image (post i) b64decode prompt image_parts aspect_ratio (Some i)
    (Some batch_variety) = Done (image_bytes, mime_type) ->
  put_object
    (S3ImageHandler.generated_put s3_handler (now i) (uuid4 i) image_bytes
       mime_type None) = None ->
  exists img,
    In img (fst (generation_loop post b64decode env s3_handler put_object now
                   uuid4 prompt image_parts aspect_ratio image_count
                   batch_variety))
    /\ gi_index img = (i + 1)%Z
    /\ gi_bytes img = image_bytes
    /\ gi_mime_type img = mime_type.
Proof.
  intros Hi Hg Hput.
  destruct (generation_turns post b64decode env s3_handler put_object now
              uuid4 prompt image_parts aspect_ratio batch_variety
              (Z.to_nat image_count)) as (_ & _ & _ & Hall).
  specialize (Hall (Z.to_nat i) image_bytes mime_type).
  rewrite Z2Nat.id in Hall by lia.
  destruct Hall as (img & Hin & [Hindex _] & Hb & Hm); [lia | done | done |].
  by exists img.
Qed.

Lemma every_successful_turn_is_kept_witness :
  exists img,
    In img (fst (generation_loop flaky_endpoint lenient_decoder bare_env
                   bare_handler accepting clock one_uuid "A portrait." []
                   "4:5" 2 "subtle_variations"))
    /\ gi_index img = 2%Z
    /\ gi_bytes img = []
    /\ gi_mime_type img = "image/png".
Proof.
  apply (every_successful_turn_is_kept flaky_endpoint lenient_decoder bare_env
           bare_handler accepting clock one_uuid "A portrait." [] "4:5" 2
           "subtle_variations" 1 [] "image/png").
  - lia.
  - reflexivity.
  - reflexivity.
Defined.

(** ** The upload widgets *)

Lemma assoc_dict_set_eq {A : Type} (key : string) (value : A)
    (l : list (string * A)) :
  assoc key (dict_set key value l) = Some value.
Proof.
  induction l as [|[k v] l IH]; cbn [dict_set assoc].
  - by rewrite String.eqb_refl.
  - destruct (String.eqb k key) eqn:E; cbn [assoc]; by rewrite E.
Qed.

Lemma assoc_dict_set_ne {A : Type} (key key' : string) (value : A)
    (l : list (string * A)) :
  key' <> key -> assoc key' (dict_set key value l) = assoc key' l.
Proof.
  intros Hne. induction l as [|[k v] l IH]; cbn [dict_set assoc].
  - destruct (String.eqb_spec key key'); [by subst | done].
  - destruct (String.eqb_spec k key) as [->|Hk]; cbn [assoc].
    + by destruct (String.eqb_spec key key'); [subst|].
    + by rewrite IH.
Qed.

Lemma get_str_set_eq (ss : SessionState.t) (key value default : string) :
  get_str (set_str ss key value) key default = value.
Proof.
  unfold get_str, set_str. cbn [SessionState.strings].
  by rewrite assoc_dict_set_eq.
Qed.

Lemma get_str_set_ne (ss : SessionState.t) (key key' value default : string) :
  key' <> key ->
  get_str (set_str ss key value) key' default = get_str ss key' default.
Proof.
  intros Hne. unfold get_str, set_str. cbn [SessionState.strings].
  by rewrite assoc_dict_set_ne.
Qed.

Lemma url_base_https (env : Env) (self : S3ImageHandler.t) (key : string) :
  exists c rest, url_base env self +:+ key = String c rest.
Proof. unfold url_base. destruct (Py.truthy _); by eexists _, _. Qed.

Lemma upload_reference_image_success (env : Env) (self : S3ImageHandler.t)
    (put_object : PutObject -> option string) (timestamp : Z) (uuid : string)
    (image_bytes : bytes) (filename image_type : string) :
  put_object
    (S3ImageHandler.reference_put self timestamp uuid image_bytes filename
       image_type) = None ->
  S3ImageHandler.upload_reference_image env self put_object timestamp uuid
    image_bytes filename image_type
  = mkUploadResult true
      (url_base env self
       +:+ Key (S3ImageHandler.reference_put self timestamp uuid image_bytes
                  filename image_type))
      (Key (S3ImageHandler.reference_put self timestamp uuid image_bytes
              filename image_type))
      (Some image_type) None.
Proof.
  intros Hput. unfold S3ImageHandler.upload_reference_image. cbv zeta.
  rewrite Hput. by rewrite get_public_url_base.
Qed.

Lemma truthy_b_present (b : bool) : Py.truthy_b (Some b) = b.
Proof. by destruct b. Qed.

Lemma get_flag_set_str (ss : SessionState.t) (key value flag : string)
    (default : bool) :
  get_flag (set_str ss key value) flag default = get_flag ss flag default.
Proof. reflexivity. Qed.

Ltac literal_keys :=
  repeat match goal with
  | |- context [String.append ?a "_url"] =>
      let s := eval vm_compute in (String.append a "_url") in
      progress change (String.append a "_url") with s
  | |- context [String.append ?a "_text"] =>
      let s := eval vm_compute in (String.append a "_text") in
      progress change (String.append a "_text") with s
  | |- context [String.append ?a "_enabled"] =>
      let s := eval vm_compute in (String.append a "_enabled") in
      progress change (String.append a "_enabled") with s
  end.

Ltac read_rows :=
  cbn [build_config row_of Config.model_reference Config.base_outfit
       Config.additional_items Config.jewelry Config.environment
       Config.photography Py.get Jewelry.neck Jewelry.ears
       Jewelry.hands_wrists Photography.pose Photography.hair];
  unfold jewelry_row, jewelry_location;
  cbn [Py.get ModelRef.image_url Outfit.image_url JewelryLoc.enabled
       JewelryLoc.image_url Environment.image_url Pose.image_url
       Hair.image_url walked url];
  literal_keys.

(** The rows of the configuration after one [<key>_url] entry of the form
    was written. *)
Lemma rows_after_upload (ss : SessionState.t) (value job_id : string)
    (session_key image_type : string) (src : Source) :
  In (session_key, image_type, src) upload_widgets ->
  Py.truthy (Some value) = true ->
  let config :=
    build_config (set_str ss (session_key +:+ "_url") value) job_id in
  url (row_of config src) = value
  /\ walked (row_of config src) = enabled_in_form ss src
  /\ (forall other, other <> src ->
      row_of config other = row_of (build_config ss job_id) other).
Proof.
  intros Hin Hvalue config. unfold config, upload_widgets in *.
  cbn [In] in Hin.
  repeat (destruct Hin as [[= <- <- <-]|Hin]; [|try done]);
    (split; [|split]);
    try (intros other Hother; destruct other; try done);
    read_rows;
    rewrite ?truthy_b_present, ?get_flag_set_str;
    rewrite ?get_str_set_eq, ?Hvalue, ?andb_true_r;
    rewrite ?get_str_set_ne by discriminate;
    reflexivity.
Qed.

Lemma run_with_reference (fetch : string -> option string)
    (ss : SessionState.t) (job_id message : string) :
  Py.truthy (Some (get_str ss "model_ref_url" "")) = true
  \/ Py.truthy (Some (get_str ss "outfit_url" "")) = true ->
  on_generate_clicked fetch (build_config ss job_id) <> Stopped message.
Proof.
  intros Href. unfold on_generate_clicked.
  cbn [build_config Config.model_reference Config.base_outfit index bind
       ModelRef.text_description ModelRef.image_url Outfit.text_description
       Outfit.image_url].
  rewrite !has_reference_present. cbn [bind].
  assert (negb (Py.truthy (Some (get_str ss "model_ref_text" ""))
                || Py.truthy (Some (get_str ss "model_ref_url" "")))
          && negb (Py.truthy (Some (get_str ss "outfit_text" ""))
                   || Py.truthy (Some (get_str ss "outfit_url" "")))
          = false) as ->.
  { destruct Href as [-> | ->]; rewrite orb_true_r; cbn [negb];
      [done | apply andb_false_r]. }
  destruct (prepare_image_parts fetch (build_config ss job_id))
    as [image_parts image_mapping].
  destruct (build_photoshoot_prompt _ _); [|done].
  cbn [build_config Config.meta Config.output Meta.platform_preset
       Output.count Output.batch_variety index bind returned].
  done.
Qed.

(** X19.  An image uploaded through one of the upload widgets is the image
    the assembler fetches for that widget's source: after a successful
    upload the source reads the public URL of the stored object, every
    other source reads what it read before, and, unless the source is a
    jewelry location left disabled, the assembled parts hold the
    instruction of the source followed by the image fetched from that URL,
    always announced as image/jpeg, and the source's label is registered.
    With an uploaded model or outfit image the run is never stopped. *)
Theorem uploaded_image_is_the_one_sent (env : Env)
    (s3_handler : S3ImageHandler.t) (put_object : PutObject -> option string)
    (timestamp : Z) (uuid name : string) (content : bytes)
    (ss : SessionState.t) (job_id : string)
    (fetch : string -> option string) (session_key image_type : string)
    (src : Source) :
  In (session_key, image_type, src) upload_widgets ->
  put_object
    (S3ImageHandler.reference_put s3_handler timestamp uuid content name
       image_type) = None ->
  let outcome :=
    handle_image_upload env s3_handler put_object timestamp uuid
      (Some (name, content)) image_type session_key true ss in
  let config := build_config outcome.1 job_id in
  let uploaded :=
    url_base env s3_handler
    +:+ Key (S3ImageHandler.reference_put s3_handler timestamp uuid content
               name image_type) in
  outcome.2 = Some "Uploaded successfully"
  /\ url (row_of config src) = uploaded
  /\ walked (row_of config src) = enabled_in_form ss src
  /\ (forall other, other <> src ->
      row_of config other = row_of (build_config ss job_id) other)
  /\ (enabled_in_form ss src = true ->
      (prepare_image_parts fetch config).2 !! label_of src
      = Some (description (row_of config src))
      /\ exists before after,
           (prepare_image_parts fetch config).1
           = before
             ++ text (instruction (row_of config src))
                :: match fetch uploaded with
                   | Some data => [inlineData "image/jpeg" data]
                   | None => []
                   end
             ++ after)
  /\ (src = FromModel \/ src = FromOutfit ->
      forall message, on_generate_clicked fetch config <> Stopped message).
Proof.
  intros Hin Hput outcome config uploaded.
  assert (outcome
          = (set_str ss (session_key +:+ "_url") uploaded,
             Some "Uploaded successfully")) as Houtcome.
  { unfold outcome, handle_image_upload. cbv zeta.
    by rewrite upload_reference_image_success. }
  assert (Py.truthy (Some uploaded) = true) as Htruthy.
  { unfold uploaded. by destruct (url_base_https env s3_handler
      (Key (S3ImageHandler.reference_put s3_handler timestamp uuid content
              name image_type))) as (c & rest & ->). }
  unfold config. rewrite Houtcome. cbn [fst snd].
  destruct (rows_after_upload ss uploaded job_id session_key image_type src
              Hin Htruthy) as (Hurl & Hwalked & Hothers).
  cbv zeta in Hurl, Hwalked, Hothers.
  split; [done|]. split; [exact Hurl|]. split; [exact Hwalked|].
  split; [exact Hothers|]. split.
  - intros Henabled. rewrite <- Hwalked in Henabled.
    rewrite prepare_image_parts_walk. split.
    + apply walk_labels_complete; [by apply walked_in_order | done].
    + rewrite walk_parts.
      destruct (in_split _ _ (walked_in_order _ _ Henabled))
        as (l1 & l2 & ->).
      rewrite map_app, concat_app. cbn [map concat app].
      eexists _, _. f_equal.
      unfold contribution at 1. rewrite Henabled, Hurl. reflexivity.
  - intros Hsrc message. apply run_with_reference.
    unfold upload_widgets in Hin. cbn [In] in Hin.
    assert (session_key = "model_ref" /\ src = FromModel
            \/ session_key = "outfit" /\ src = FromOutfit) as Hkey.
    { destruct Hsrc as [-> | ->];
        repeat (destruct Hin as [Hin|Hin]; [simplify_eq; auto|]); done. }
    destruct Hkey as [[-> _] | [-> _]]; [left | right]; literal_keys;
      by rewrite get_str_set_eq.
Qed.

Lemma uploaded_image_is_the_one_sent_witness :
  url (row_of
         (build_config
            (handle_image_upload bare_env bare_handler accepting
               1762128000000 "1b9d6bcd-bbfd-4b2d-9b5d-ab8dfbbd4bed"
               (Some ("model.png", [])) "model_ref" "model_ref" true
               empty_form).1 "job_1f3a9c2e") FromModel)
  = url_base bare_env bare_handler
    +:+ Key (S3ImageHandler.reference_put bare_handler 1762128000000
               "1b9d6bcd-bbfd-4b2d-9b5d-ab8dfbbd4bed" [] "model.png"
               "model_ref").
Proof.
  assert (In ("model_ref", "model_ref", FromModel) upload_widgets) as Hin
    by (by left).
  exact (proj1 (proj2
    (uploaded_image_is_the_one_sent bare_env bare_handler accepting
       1762128000000 "1b9d6bcd-bbfd-4b2d-9b5d-ab8dfbbd4bed" "model.png" []
       empty_form "job_1f3a9c2e" online "model_ref" "model_ref" FromModel
       Hin eq_refl))).
Defined.

(** ** The list of additional items *)

Lemma add_item_clicked_items (ss : SessionState.t) (n : nat) :
  SessionState.additional_items (Nat.iter n add_item_clicked ss)
  = match n with
    | O => SessionState.additional_items ss
    | S _ =>
        Some (Py.get (SessionState.additional_items ss) []
              ++ repeat
                   (Item.mk
                      (Some (Py.lower (get_str ss "new_item_type" "Jacket")))
                      (Some (get_str ss "new_item_text" ""))
                      (Some (get_str ss "new_item_url" ""))) n)
    end
  /\ SessionState.strings (Nat.iter n add_item_clicked ss)
     = SessionState.strings ss.
Proof.
  induction n as [|n [IHitems IHstrings]]; [done|].
  rewrite !Nat.iter_succ. revert IHitems IHstrings.
  generalize (Nat.iter n add_item_clicked ss). intros prev IHitems IHstrings.
  unfold add_item_clicked.
  cbn [SessionState.additional_items SessionState.strings].
  split; [|exact IHstrings]. unfold get_str. rewrite IHstrings, IHitems.
  f_equal. destruct n as [|n]; cbn [Py.get].
  - reflexivity.
  - rewrite <- app_assoc. f_equal.
    change (?x :: repeat ?x n) with (repeat x (S n)).
    by rewrite <- repeat_cons.
Qed.

(** X20.  The URL left by the upload of an item image is never cleared:
    every item added after a successful upload carries the uploaded image,
    together with the type and the description the form holds, until
    another image is uploaded.  The items already in the list are kept, in
    their order, before the new ones. *)
Theorem added_items_share_the_last_upload (env : Env)
    (s3_handler : S3ImageHandler.t) (put_object : PutObject -> option string)
    (timestamp : Z) (uuid name : string) (content : bytes)
    (ss : SessionState.t) (n : nat) :
  put_object
    (S3ImageHandler.reference_put s3_handler timestamp uuid content name
       "item") = None ->
  0 < n ->
  let uploaded :=
    url_base env s3_handler
    +:+ Key (S3ImageHandler.reference_put s3_handler timestamp uuid content
               name "item") in
  let after_upload :=
    (handle_image_upload env s3_handler put_object timestamp uuid
       (Some (name, content)) "item" "new_item" true ss).1 in
  SessionState.additional_items (Nat.iter n add_item_clicked after_upload)
  = Some (Py.get (SessionState.additional_items ss) []
          ++ repeat
               (Item.mk
                  (Some (Py.lower (get_str ss "new_item_type" "Jacket")))
                  (Some (get_str ss "new_item_text" ""))
                  (Some uploaded)) n).
Proof.
  intros Hput Hn uploaded after_upload.
  assert (after_upload = set_str ss "new_item_url" uploaded) as ->.
  { unfold after_upload, handle_image_upload. cbv zeta.
    by rewrite upload_reference_image_success. }
  destruct (add_item_clicked_items (set_str ss "new_item_url" uploaded) n)
    as [-> _].
  destruct n as [|n]; [lia|].
  rewrite get_str_set_eq, !get_str_set_ne by discriminate. reflexivity.
Qed.

Lemma added_items_share_the_last_upload_witness :
  SessionState.additional_items
    (Nat.iter 2 add_item_clicked
       (handle_image_upload bare_env bare_handler accepting 1762128000000
          "1b9d6bcd-bbfd-4b2d-9b5d-ab8dfbbd4bed" (Some ("scarf.png", []))
          "item" "new_item" true empty_form).1)
  = Some
      (Py.get (SessionState.additional_items empty_form) []
       ++ repeat
            (Item.mk
               (Some (Py.lower (get_str empty_form "new_item_type" "Jacket")))
               (Some (get_str empty_form "new_item_text" ""))
               (Some
                  (url_base bare_env bare_handler
                   +:+ Key (S3ImageHandler.reference_put bare_handler
                              1762128000000
                              "1b9d6bcd-bbfd-4b2d-9b5d-ab8dfbbd4bed" []
                              "scarf.png" "item")))) 2).
Proof.
  apply (added_items_share_the_last_upload bare_env bare_handler accepting
           1762128000000 "1b9d6bcd-bbfd-4b2d-9b5d-ab8dfbbd4bed" "scarf.png"
           [] empty_form 2).
  - reflexivity.
  - lia.
Defined.

Lemma pop_last {A : Type} (l : list A) (x : A) : pop (length l) (l ++ [x]) = l.
Proof. induction l as [|y l IH]; [done|]. cbn [length app pop]. by rewrite IH. Qed.

Lemma pop_take_drop {A : Type} (i : nat) (l : list A) :
  pop i l = take i l ++ drop (S i) l.
Proof.
  revert i. induction l as [|x l IH]; intros [|i]; try done.
  cbn [pop take drop app]. by rewrite IH.
Qed.

(** X21.  The [Remove] button of the item at index i takes that item out
    and keeps the others in their order; removing the item that [Add Item]
    has just appended gives back the configuration there was before the
    item was added. *)
Theorem removing_the_added_item_restores_the_configuration
    (ss : SessionState.t) (job_id : string) (i : nat) :
  i < length (Py.get (SessionState.additional_items ss) []) ->
  let items := Py.get (SessionState.additional_items ss) [] in
  SessionState.additional_items (remove_item_clicked i ss)
  = Some (take i items ++ drop (S i) items)
  /\ build_config (remove_item_clicked (length items) (add_item_clicked ss))
       job_id
     = build_config ss job_id.
Proof.
  intros _ items. split.
  - unfold remove_item_clicked. cbn [SessionState.additional_items].
    by rewrite pop_take_drop.
  - unfold build_config, get_str, get_flag, jewelry_location, get_str,
      get_flag, remove_item_clicked, add_item_clicked.
    cbn [SessionState.strings SessionState.flags SessionState.image_count
         SessionState.pose_strength SessionState.selected_garments
         SessionState.additional_items Py.get].
    fold items. by rewrite pop_last.
Qed.

Lemma removing_the_added_item_restores_the_configuration_witness :
  SessionState.additional_items (remove_item_clicked 1 form_with_items)
  = Some [ Item.mk (Some "jacket") (Some "black leather") None;
           Item.mk (Some "hat") (Some "") (Some "") ].
Proof.
  apply (removing_the_added_item_restores_the_configuration form_with_items
           "job_1f3a9c2e" 1).
  cbn. lia.
Defined.

(** ** The legacy assembler *)

Lemma legacy_section (fetch : string -> option string)
    (label words sentence : string) (image_url : option string)
    (parts : list Part) (m : gmap string string) :
  (if Py.truthy image_url
   then add_section fetch label words sentence image_url (parts, m)
   else (parts, m))
  = (parts
     ++ contribution fetch
          (mkRow (Py.truthy image_url) words sentence (Py.get image_url "")),
     if Py.truthy image_url then <[label := words]> m else m).
Proof.
  unfold add_section, _add_image_part, contribution.
  cbn [walked url instruction].
  destruct image_url as [[|c s]|]; cbn [Py.truthy Py.get];
    rewrite ?app_nil_r; [done| |done].
  by destruct (fetch _); rewrite <- ?app_assoc.
Qed.

Lemma instructions_app (l1 l2 : list Part) :
  instructions (l1 ++ l2) = instructions l1 + instructions l2.
Proof. unfold instructions. by rewrite filter_app, length_app. Qed.

Lemma instructions_contribution (fetch : string -> option string) (r : Row) :
  instructions (contribution fetch r) = if walked r then 1 else 0.
Proof.
  unfold instructions, contribution.
  destruct (walked r); [|done]. by destruct (fetch (url r)).
Qed.

(** X22.  The legacy assembler keeps the same discipline as the current
    one over its four sources (primary clothing, pose, accessory,
    background, in this order): a source contributes its instruction, and
    its image when the fetch succeeds, exactly when its URL is set; its
    label is registered exactly then, whether or not the fetch succeeded;
    there are as many labels as instructions, and every image comes right
    after an instruction. *)
Theorem legacy_assembler_keeps_lockstep (fetch : string -> option string)
    (assets : LegacyAssets.t) :
  let result := prepare_image_parts_legacy fetch assets in
  result.1
  = concat (map (fun entry => contribution fetch entry.2) (legacy_rows assets))
  /\ Forall (fun entry =>
               result.2 !! entry.1
               = if walked entry.2 then Some (description entry.2) else None)
       (legacy_rows assets)
  /\ size result.2 = instructions result.1
  /\ images_follow_instructions result.1.
Proof.
  intros result.
  assert (result
          = (concat (map (fun entry => contribution fetch entry.2)
                       (legacy_rows assets)),
             let m : gmap string string := ∅ in
             let m :=
               if Py.truthy (LegacyAssets.primary_url assets)
               then <["primary_clothing" :=
                       "the primary clothing reference image"]> m else m in
             let m :=
               if Py.truthy (LegacyAssets.pose_ref_url assets)
               then <["pose" := "the pose reference image"]> m else m in
             let m :=
               if Py.truthy (LegacyAssets.accessory_ref_url assets)
               then <["accessory" := "the accessory reference image"]> m
               else m in
             if Py.truthy (LegacyAssets.background_ref_url assets)
             then <["background" := "the background reference image"]> m
             else m)) as ->.
  { unfold result, prepare_image_parts_legacy. cbv zeta.
    rewrite !legacy_section. unfold legacy_rows. cbn [map concat snd].
    by rewrite app_nil_r, <- !app_assoc. }
  cbv zeta. cbn [fst snd]. split; [done|]. split; [|split].
  - unfold legacy_rows.
    repeat (constructor; [cbn [fst snd walked description]|]);
      [..|constructor];
      destruct (Py.truthy (LegacyAssets.primary_url assets)),
        (Py.truthy (LegacyAssets.pose_ref_url assets)),
        (Py.truthy (LegacyAssets.accessory_ref_url assets)),
        (Py.truthy (LegacyAssets.background_ref_url assets));
      by vm_compute.
  - unfold legacy_rows. cbn [map concat snd].
    rewrite !instructions_app, !instructions_contribution.
    cbn [walked].
    destruct (Py.truthy (LegacyAssets.primary_url assets)),
      (Py.truthy (LegacyAssets.pose_ref_url assets)),
      (Py.truthy (LegacyAssets.accessory_ref_url assets)),
      (Py.truthy (LegacyAssets.background_ref_url assets));
      by vm_compute.
  - apply images_follow_instructions_concat, Forall_map, Forall_forall.
    intros entry _. apply contribution_follows.
Qed.
